(** * Farcaster unfollow / refollow: the client and the two bulk workflows

    A shallow embedding of [farcaster_api.py], [unfollow_all.py],
    [refollow_all.py] and [test_connection.py], with the parts of the Python runtime they lean on
    (the [csv] module in its default "excel" dialect, [int], [str],
    truthiness, [requests]).

    Conventions of the model.
    - Text is a [string]: the bytes of its UTF-8 encoding.  A file that is
      not UTF-8 does not decode.  [str.lower], [str.strip] and [int] are
      written out for text of the ASCII range; for text with characters
      beyond it they are parameters of the model.  The csv reader looks
      for characters of the ASCII range only, and no byte of a longer
      UTF-8 sequence is one of them.
      A text with a surrogate in it has no encoding: it is a [string]
      that is not well-formed UTF-8, and a file does not take it.
    - JSON numbers are integers, of no more digits than the interpreter
      converts to and from text.
    - A [float] of the command line is a rational number or one of
      [inf], [-inf] and [nan].
    - A file can always be opened, and the directory [data] is there.
    - Console output and the per-run log file of the two scripts are not
      modelled: the console takes every text.  The log lines of the
      client are kept, as structured events. *)

From Stdlib Require Import ZArith List String Ascii Bool Arith Lia QArith Qabs Lqa.
From Stdlib Require Import DecimalString DecimalZ DecimalPos.
Import ListNotations.

Local Open Scope string_scope.
Local Open Scope list_scope.
Local Open Scope Z_scope.

Set Implicit Arguments.
Set Warnings "-register-all".


(* ================================================================== *)
(** * Characters and text *)

Definition CR : ascii := "013"%char.
Definition LF : ascii := "010"%char.
Definition COMMA : ascii := ","%char.
Definition DQUOTE : ascii := "034"%char.

Definition str1 (c : ascii) : string := String c EmptyString.

(** [s + c] on text: one character added at the end. *)
Definition snoc (s : string) (c : ascii) : string := (s ++ str1 c)%string.

Definition is_empty (s : string) : bool :=
  match s with EmptyString => true | String _ _ => false end.

(** The whitespace of the ASCII range as [str.isspace] has it, which is
    what [str.strip] removes. *)
Definition is_space (c : ascii) : bool :=
  let n := nat_of_ascii c in
  ((9 <=? n) && (n <=? 13) || (28 <=? n) && (n <=? 32))%nat.

(** The whitespace of the ASCII range as the C locale has it, which is
    what [int] skips: the separators 28 to 31 are not among it. *)
Definition is_c_space (c : ascii) : bool :=
  let n := nat_of_ascii c in
  ((9 <=? n) && (n <=? 13) || (n =? 32))%nat.

(** Every character is of the ASCII range. *)
Fixpoint is_ascii (s : string) : bool :=
  match s with
  | EmptyString => true
  | String c s' => (nat_of_ascii c <? 128)%nat && is_ascii s'
  end.

Definition is_digit (c : ascii) : bool :=
  let n := nat_of_ascii c in ((48 <=? n) && (n <=? 57))%nat.

(** [str.lower] on one character. *)
Definition lower_char (c : ascii) : ascii :=
  let n := nat_of_ascii c in
  if ((65 <=? n) && (n <=? 90))%nat then ascii_of_nat (n + 32) else c.

Fixpoint lower (s : string) : string :=
  match s with
  | EmptyString => EmptyString
  | String c s' => String (lower_char c) (lower s')
  end.

Fixpoint lstrip (s : string) : string :=
  match s with
  | EmptyString => EmptyString
  | String c s' => if is_space c then lstrip s' else s
  end.

Fixpoint rstrip (s : string) : string :=
  match s with
  | EmptyString => EmptyString
  | String c s' =>
      match rstrip s' with
      | EmptyString => if is_space c then EmptyString else str1 c
      | t => String c t
      end
  end.

Definition strip (s : string) : string := rstrip (lstrip s).

Fixpoint skip_c_space (s : string) : string :=
  match s with
  | EmptyString => EmptyString
  | String c s' => if is_c_space c then skip_c_space s' else s
  end.

(** ** UTF-8

    The well-formed byte sequences: [pending] bytes of a sequence are
    still to come, the next of them between [lo] and [hi]. *)
Fixpoint utf8_from (pending lo hi : nat) (s : string) : bool :=
  match s with
  | EmptyString => (pending =? 0)%nat
  | String c rest =>
      let n := nat_of_ascii c in
      match pending with
      | O =>
          if (n <=? 127)%nat then utf8_from 0 128 191 rest
          else if ((194 <=? n) && (n <=? 223))%nat then utf8_from 1 128 191 rest
          else if (n =? 224)%nat then utf8_from 2 160 191 rest
          else if ((225 <=? n) && (n <=? 236) || (238 <=? n) && (n <=? 239))%nat
               then utf8_from 2 128 191 rest
          else if (n =? 237)%nat then utf8_from 2 128 159 rest
          else if (n =? 240)%nat then utf8_from 3 144 191 rest
          else if ((241 <=? n) && (n <=? 243))%nat then utf8_from 3 128 191 rest
          else if (n =? 244)%nat then utf8_from 3 128 143 rest
          else false
      | S p =>
          if ((lo <=? n) && (n <=? hi))%nat then utf8_from p 128 191 rest else false
      end
  end.

(** The bytes decode with the codec [utf-8]; they are what the codec
    makes of a text, which has no encoding when a surrogate stands in
    it. *)
Definition utf8_valid (s : string) : bool := utf8_from 0 128 191 s.

(** A byte that goes on with a character begun before it. *)
Definition is_continuation (c : ascii) : bool :=
  let n := nat_of_ascii c in ((128 <=? n) && (n <=? 191))%nat.

(** [len(s)]: the characters of the text, one for every byte that
    begins one. *)
Fixpoint code_points (s : string) : N :=
  match s with
  | EmptyString => 0%N
  | String c rest => ((if is_continuation c then 0 else 1) + code_points rest)%N
  end.

(** [needle in hay] for two pieces of text. *)
Fixpoint contains (needle hay : string) : bool :=
  String.prefix needle hay ||
  match hay with
  | EmptyString => false
  | String _ hay' => contains needle hay'
  end.

(* ================================================================== *)
(** * Exceptions and results *)

Inductive exn : Type :=
| HTTPError            (* requests.exceptions.HTTPError, from raise_for_status *)
| ConnectionError      (* requests.exceptions.ConnectionError and other transport failures *)
| JSONDecodeError      (* requests.exceptions.JSONDecodeError *)
| ValueError
| TypeError
| AttributeError
| KeyError
| EOFError
| FileNotFoundError
| UnboundLocalError
| CsvError             (* csv.Error *)
| OverflowError
| UnicodeDecodeError
| UnicodeEncodeError
| NameError.

(** [isinstance(e, requests.RequestException)]. *)
Definition is_RequestException (e : exn) : bool :=
  match e with
  | HTTPError | ConnectionError | JSONDecodeError => true
  | _ => false
  end.

Inductive result (A : Type) : Type :=
| Ok (a : A)
| Raise (e : exn).
Arguments Ok {A} a.
Arguments Raise {A} e.

Definition rbind {A B} (r : result A) (k : A -> result B) : result B :=
  match r with
  | Ok a => k a
  | Raise e => Raise e
  end.

(* ================================================================== *)
(** * The csv module, excel dialect

    delimiter [,], quotechar the double quote, doublequote on, no
    escapechar, skipinitialspace off, lineterminator CR LF,
    QUOTE_MINIMAL, strict off. *)

Module Csv.

(** ** Writer *)

(** The characters that make [join_append_data] set [quoted]: the
    delimiter, the quote character and the characters of the line
    terminator. *)
Definition needs_quoting (c : ascii) : bool :=
  Ascii.eqb c COMMA || Ascii.eqb c DQUOTE || Ascii.eqb c CR || Ascii.eqb c LF.

Fixpoint quoted (field : string) : bool :=
  match field with
  | EmptyString => false
  | String c s => needs_quoting c || quoted s
  end.

(** The copy phase: every quote character is written twice. *)
Fixpoint join_append_data (field : string) : string :=
  match field with
  | EmptyString => EmptyString
  | String c s =>
      if Ascii.eqb c DQUOTE then String DQUOTE (String DQUOTE (join_append_data s))
      else String c (join_append_data s)
  end.

Definition join_append (field : string) : string :=
  if quoted field
  then String DQUOTE (join_append_data field ++ str1 DQUOTE)
  else join_append_data field.

Definition lineterminator : string := String CR (String LF EmptyString).

Fixpoint join_fields (fields : list string) : string :=
  match fields with
  | [] => EmptyString
  | [f] => join_append f
  | f :: rest => (join_append f ++ String COMMA (join_fields rest))%string
  end.

(** [writer.writerow]: a record that came out empty although it has a
    field (one empty field) is written as a quoted empty field. *)
Definition writerow (fields : list string) : string :=
  match fields with
  | [EmptyString] => String DQUOTE (String DQUOTE lineterminator)
  | _ => (join_fields fields ++ lineterminator)%string
  end.

(** ** Reader *)

(** The states of the parser that the excel dialect can reach; the three
    escape states need an escapechar. *)
Inductive ParserState : Type :=
| START_RECORD | START_FIELD | IN_FIELD
| IN_QUOTED_FIELD | QUOTE_IN_QUOTED_FIELD | EAT_CRNL.

Definition ParserState_eqb (a b : ParserState) : bool :=
  match a, b with
  | START_RECORD, START_RECORD | START_FIELD, START_FIELD
  | IN_FIELD, IN_FIELD | IN_QUOTED_FIELD, IN_QUOTED_FIELD
  | QUOTE_IN_QUOTED_FIELD, QUOTE_IN_QUOTED_FIELD | EAT_CRNL, EAT_CRNL => true
  | _, _ => false
  end.

Record ReaderObj : Type := mkReader {
  state : ParserState;
  field : string;            (* the field being collected *)
  fields : list string       (* the fields of the record so far *)
}.

Definition parse_reset : ReaderObj := mkReader START_RECORD EmptyString [].

Definition parse_save_field (r : ReaderObj) : ReaderObj :=
  mkReader (state r) EmptyString (fields r ++ [field r]).

Definition parse_add_char (r : ReaderObj) (c : ascii) : ReaderObj :=
  mkReader (state r) (snoc (field r) c) (fields r).

Definition set_state (r : ReaderObj) (s : ParserState) : ReaderObj :=
  mkReader s (field r) (fields r).

Definition is_newline (c : ascii) : bool := Ascii.eqb c LF || Ascii.eqb c CR.

(** The case START_FIELD of [parse_process_char]; START_RECORD falls
    through to it on an ordinary character. *)
Definition start_field (r : ReaderObj) (c : option ascii) : ReaderObj :=
  match c with
  | None => set_state (parse_save_field r) START_RECORD
  | Some ch =>
      if is_newline ch then set_state (parse_save_field r) EAT_CRNL
      else if Ascii.eqb ch DQUOTE then set_state r IN_QUOTED_FIELD
      else if Ascii.eqb ch COMMA then set_state (parse_save_field r) START_FIELD
      else set_state (parse_add_char r ch) IN_FIELD
  end.

(** [parse_process_char]; [None] is the end-of-line marker the reader
    feeds after the last character of every line. *)
Definition parse_process_char (r : ReaderObj) (c : option ascii) : result ReaderObj :=
  match state r with
  | START_RECORD =>
      match c with
      | None => Ok r
      | Some ch =>
          if is_newline ch then Ok (set_state r EAT_CRNL)
          else Ok (start_field r c)
      end
  | START_FIELD => Ok (start_field r c)
  | IN_FIELD =>
      match c with
      | None => Ok (set_state (parse_save_field r) START_RECORD)
      | Some ch =>
          if is_newline ch then Ok (set_state (parse_save_field r) EAT_CRNL)
          else if Ascii.eqb ch COMMA then Ok (set_state (parse_save_field r) START_FIELD)
          else Ok (parse_add_char r ch)
      end
  | IN_QUOTED_FIELD =>
      match c with
      | None => Ok r
      | Some ch =>
          if Ascii.eqb ch DQUOTE then Ok (set_state r QUOTE_IN_QUOTED_FIELD)
          else Ok (parse_add_char r ch)
      end
  | QUOTE_IN_QUOTED_FIELD =>
      match c with
      | None => Ok (set_state (parse_save_field r) START_RECORD)
      | Some ch =>
          if Ascii.eqb ch DQUOTE then Ok (set_state (parse_add_char r ch) IN_QUOTED_FIELD)
          else if Ascii.eqb ch COMMA then Ok (set_state (parse_save_field r) START_FIELD)
          else if is_newline ch then Ok (set_state (parse_save_field r) EAT_CRNL)
          else Ok (set_state (parse_add_char r ch) IN_FIELD)
      end
  | EAT_CRNL =>
      match c with
      | None => Ok (set_state r START_RECORD)
      | Some ch => if is_newline ch then Ok r else Raise CsvError
      end
  end.

(** The characters of one line, in order. *)
Fixpoint parse_chars (r : ReaderObj) (line : string) : result ReaderObj :=
  match line with
  | EmptyString => Ok r
  | String c rest => rbind (parse_process_char r (Some c)) (fun r' => parse_chars r' rest)
  end.

(** One line, then the end-of-line marker. *)
Definition parse_line (r : ReaderObj) (line : string) : result ReaderObj :=
  rbind (parse_chars r line) (fun r' => parse_process_char r' None).

(** Iterating a text file opened with [newline=''] : lines end at LF, at
    CR LF, or at a CR alone, and keep their ending. *)
Fixpoint readlines_from (cur : string) (text : string) : list string :=
  match text with
  | EmptyString => if is_empty cur then [] else [cur]
  | String c rest =>
      if Ascii.eqb c LF then snoc cur c :: readlines_from EmptyString rest
      else if Ascii.eqb c CR then
        match rest with
        | String c' rest' =>
            if Ascii.eqb c' LF
            then snoc (snoc cur c) c' :: readlines_from EmptyString rest'
            else snoc cur c :: readlines_from EmptyString rest
        | EmptyString => [snoc cur c]
        end
      else readlines_from (snoc cur c) rest
  end.

Definition readlines (text : string) : list string := readlines_from EmptyString text.

(** Every record the reader yields from the lines: [Reader_iternext]
    called until it stops.  [r] is the parser in the middle of a record,
    or freshly reset. *)
Fixpoint records_from (r : ReaderObj) (lines : list string) : result (list (list string)) :=
  match lines with
  | [] =>
      if negb (is_empty (field r)) || ParserState_eqb (state r) IN_QUOTED_FIELD
      then Ok [fields (parse_save_field r)]
      else Ok []
  | line :: rest =>
      rbind (parse_line r line) (fun r' =>
        if ParserState_eqb (state r') START_RECORD
        then rbind (records_from parse_reset rest) (fun more => Ok (fields r' :: more))
        else records_from r' rest)
  end.

(** [csv.field_size_limit()]. *)
Definition field_limit : N := 131072.

Definition within_limit (f : string) : bool := (code_points f <=? field_limit)%N.

(** [list(csv.reader(f))] for the text of a file.  The parser gives up
    with [csv.Error] at the character that takes a field beyond the field
    size limit.  Every field it collects ends up in a record unless it
    gives up before, and all it ever raises is [csv.Error]; so the limit
    is checked here on the records, and [parse_add_char] is left without
    it. *)
Definition records_of (text : string) : result (list (list string)) :=
  records_from parse_reset (readlines text).

Definition reader (text : string) : result (list (list string)) :=
  rbind (records_of text) (fun records =>
    if forallb (forallb within_limit) records then Ok records else Raise CsvError).

End Csv.

(* ================================================================== *)
(** * Python values *)

(** What [response.json()] can return, and so what the fields of a user
    can hold.  A dict keeps its items in order; the first item of a key
    is the one looked up. *)
Inductive pyval : Type :=
| PNone
| PBool (b : bool)
| PInt (z : Z)
| PStr (s : string)
| PList (l : list pyval)
| PDict (d : list (string * pyval)).

(** [bool(v)]. *)
Definition py_truthy (v : pyval) : bool :=
  match v with
  | PNone => false
  | PBool b => b
  | PInt z => negb (z =? 0)
  | PStr s => negb (is_empty s)
  | PList l => match l with [] => false | _ => true end
  | PDict d => match d with [] => false | _ => true end
  end.

Fixpoint assoc {A} (k : string) (d : list (string * A)) : option A :=
  match d with
  | [] => None
  | (k', v) :: rest => if String.eqb k' k then Some v else assoc k rest
  end.

(** [v.get(k, default)]. *)
Definition py_get (v : pyval) (k : string) (default : pyval) : result pyval :=
  match v with
  | PDict d => Ok (match assoc k d with Some x => x | None => default end)
  | _ => Raise AttributeError
  end.

(** [k in v] for a text key [k]. *)
Definition py_in (k : string) (v : pyval) : result bool :=
  match v with
  | PDict d => Ok (match assoc k d with Some _ => true | None => false end)
  | PStr s => Ok (contains k s)
  | PList l => Ok (existsb (fun x => match x with PStr s => String.eqb s k | _ => false end) l)
  | _ => Raise TypeError
  end.

(** [v[k]] for a text key [k]. *)
Definition py_index (v : pyval) (k : string) : result pyval :=
  match v with
  | PDict d => match assoc k d with Some x => Ok x | None => Raise KeyError end
  | _ => Raise TypeError
  end.

Fixpoint chars_of (s : string) : list pyval :=
  match s with
  | EmptyString => []
  | String c s' => PStr (str1 c) :: chars_of s'
  end.

(** [for x in v]. *)
Definition py_iter (v : pyval) : result (list pyval) :=
  match v with
  | PList l => Ok l
  | PDict d => Ok (map (fun kv => PStr (fst kv)) d)
  | PStr s => Ok (chars_of s)
  | _ => Raise TypeError
  end.

(** [v.lower()]. *)
Definition py_lower (v : pyval) : result string :=
  match v with
  | PStr s => Ok (lower s)
  | _ => Raise AttributeError
  end.

(** [str(z)] for an integer. *)
Definition str_of_int (z : Z) : string := NilEmpty.string_of_int (Z.to_int z).

(** ** [int(s)] for text, base ten

    Whitespace around, an optional sign, then digits, where single
    underscores may stand between digits; no more digits than
    [sys.get_int_max_str_digits()]. *)

Definition max_str_digits : nat := 4300.

(** The digits of [s] up to the first character that is neither a digit
    nor an underscore, and the unread rest; [None] for two underscores in
    a row or an underscore at the end.  [prev] is the character before. *)
Fixpoint scan_digits (prev : ascii) (s : string) : option (string * string) :=
  match s with
  | EmptyString => if Ascii.eqb prev "_" then None else Some (EmptyString, EmptyString)
  | String c t =>
      if is_digit c then
        match scan_digits c t with
        | Some (ds, rest) => Some (String c ds, rest)
        | None => None
        end
      else if Ascii.eqb c "_" then
        if Ascii.eqb prev "_" then None else scan_digits c t
      else if Ascii.eqb prev "_" then None else Some (EmptyString, s)
  end.

Definition int_of_str (s : string) : result Z :=
  let s1 := skip_c_space s in
  let '(negative, s2) :=
    match s1 with
    | String "+" t => (false, t)
    | String "-" t => (true, t)
    | _ => (false, s1)
    end in
  match s2 with
  | String "_" _ => Raise ValueError
  | _ =>
      match scan_digits "000" s2 with
      | None => Raise ValueError
      | Some (ds, rest) =>
          if is_empty ds then Raise ValueError
          else if negb (is_empty (skip_c_space rest)) then Raise ValueError
          else if (max_str_digits <? String.length ds)%nat then Raise ValueError
          else
            match NilEmpty.uint_of_string ds with
            | Some u => Ok (if negative then - Z.of_uint u else Z.of_uint u)
            | None => Raise ValueError
            end
      end
  end.

(* ================================================================== *)
(** * The world the scripts run in *)

Inductive http_method : Type := GET | POST | DELETE.

Record request : Type := mkRequest {
  rq_method : http_method;
  rq_url : string;
  rq_headers : list (string * string);
  rq_params : list (string * pyval);     (* params= *)
  rq_json : option pyval                 (* json= *)
}.

Record response : Type := mkResponse {
  status_code : Z;
  body : option pyval                    (* [None]: the body is not JSON *)
}.

(** What [requests.get], [requests.post] and [requests.delete] come back
    with: a response, or a transport failure raised by the call. *)
Inductive http_outcome : Type :=
| Responds (r : response)
| Fails.

(** [datetime.now()], by the two renderings the scripts take of it. *)
Record datetime : Type := mkDatetime {
  stamp : string;        (* strftime("%Y%m%d_%H%M%S") *)
  isoformat : string     (* isoformat() *)
}.

Inductive direction : Type := Unfollow | Follow.

(** The log lines of the client. *)
Inductive log_line : Type :=
| LogFetching (fid : pyval)
| LogFetchedPage (page_count : nat) (users : nat)
| LogFoundTotal (users : nat)
| LogFetchError
| LogDryRun (d : direction) (target_fid : pyval)
| LogMutating (d : direction) (target_fid : pyval)
| LogAlready (d : direction) (target_fid : pyval)
| LogDone (d : direction) (target_fid : pyval)
| LogMutationError (d : direction) (target_fid : pyval)
| LogMyFidError
| LogUserInfoError (fid : pyval).

(** The question [confirm_action] asks. *)
Inductive prompt : Type :=
| AskUnfollow (dry_run : bool) (users : nat)
| AskRefollow (dry_run : bool) (users : nat).

Inductive event : Type :=
| EvRequest (r : request)
| EvLog (l : log_line)
| EvInput (p : prompt)
| EvSleep (seconds : Q).

Definition filesystem : Type := string -> option string.

Definition write_file (files : filesystem) (name : string) (text : string) : filesystem :=
  fun n => if String.eqb n name then Some text else files n.

Record world : Type := mkWorld {
  fs : filesystem;          (* the text of every file that exists *)
  stdin : list string;      (* the lines still to be read from the terminal *)
  sent : nat;               (* how many HTTP requests were sent *)
  ticks : nat;              (* how often the clock was read *)
  trace : list event        (* what happened, oldest first *)
}.

(** ** The monad of the scripts

    A computation takes the world and gives a value or an exception and
    the world it left behind; [None] is a loop that did not end within
    the fuel it was given. *)
Definition M (A : Type) : Type := world -> option (result A * world).

Definition ret {A} (a : A) : M A := fun w => Some (Ok a, w).

Definition raise {A} (e : exn) : M A := fun w => Some (Raise e, w).

Definition bind {A B} (m : M A) (k : A -> M B) : M B :=
  fun w =>
    match m w with
    | Some (Ok a, w') => k a w'
    | Some (Raise e, w') => Some (Raise e, w')
    | None => None
    end.

Definition lift {A} (r : result A) : M A := fun w => Some (r, w).

Definition diverge {A} : M A := fun _ => None.

(** [try: body / except <catches>: handler]. *)
Definition try_except {A} (body : M A) (catches : exn -> bool) (handler : exn -> M A) : M A :=
  fun w =>
    match body w with
    | Some (Raise e, w') => if catches e then handler e w' else Some (Raise e, w')
    | other => other
    end.

Declare Scope m_scope.
Delimit Scope m_scope with m.
Notation "x <- c ;; k" := (bind c (fun x => k))
  (at level 61, c at next level, right associativity) : m_scope.
Notation "c ;; k" := (bind c (fun _ => k))
  (at level 61, right associativity) : m_scope.
Local Open Scope m_scope.

Definition emit (e : event) : M unit :=
  fun w => Some (Ok tt, mkWorld (fs w) (stdin w) (sent w) (ticks w) (trace w ++ [e])).

Definition logger_info (l : log_line) : M unit := emit (EvLog l).

(** A [float]. *)
Inductive pyfloat : Type :=
| Finite (q : Q)
| PosInf
| NegInf
| NaN.

(** [time.sleep]: the seconds, in nanoseconds, have to fit 64 bits
    (OverflowError) and must not be negative (ValueError).  The bound is
    that of the interpreter on a 64-bit system, taken on the exact
    product. *)
Definition sleep (seconds : pyfloat) : M unit :=
  match seconds with
  | NaN => raise ValueError
  | PosInf | NegInf => raise OverflowError
  | Finite q =>
      if Qle_bool 9223372036854775808 (Qabs q * 1000000000) then raise OverflowError
      else if Qle_bool 0 q then emit (EvSleep q)
      else raise ValueError
  end.

(** [input(...)]: the next line of the terminal, or EOFError. *)
Definition input (p : prompt) : M string :=
  fun w =>
    let tr := trace w ++ [EvInput p] in
    match stdin w with
    | [] => Some (Raise EOFError, mkWorld (fs w) [] (sent w) (ticks w) tr)
    | line :: rest => Some (Ok line, mkWorld (fs w) rest (sent w) (ticks w) tr)
    end.

Definition path_exists (name : string) : M bool :=
  fun w => Some (Ok (match fs w name with Some _ => true | None => false end), w).

(** Writing to a file opened with mode ['a'] and [encoding='utf-8']:
    text that has no encoding is refused, and the file is left as it
    was. *)
Definition append_file (name : string) (text : string) : M unit :=
  fun w =>
    if utf8_valid text then
      let old := match fs w name with Some t => t | None => EmptyString end in
      Some (Ok tt, mkWorld (write_file (fs w) name (old ++ text)%string)
                           (stdin w) (sent w) (ticks w) (trace w))
    else Some (Raise UnicodeEncodeError, w).

(** Reading a whole file opened with mode ['r'] and
    [encoding='utf-8']. *)
Definition read_file (name : string) : M string :=
  fun w =>
    match fs w name with
    | Some t => Some (if utf8_valid t then Ok t else Raise UnicodeDecodeError, w)
    | None => Some (Raise FileNotFoundError, w)
    end.

(** [response.raise_for_status()]. *)
Definition raise_for_status (r : response) : M unit :=
  if (400 <=? status_code r) && (status_code r <? 600) then raise HTTPError else ret tt.

(** [response.json()]. *)
Definition response_json (r : response) : M pyval :=
  match body r with
  | Some v => ret v
  | None => raise JSONDecodeError
  end.

(* ================================================================== *)
(** * The program *)

Section Program.

(** [str(v)] for a list or a dict. *)
Variable py_repr : pyval -> string.
(** [os.getenv], after [load_dotenv()]. *)
Variable getenv : string -> option string.
(** What the remote service does with the request sent as number [n]. *)
Variable server : nat -> request -> http_outcome.
(** The clock at its [n]-th reading. *)
Variable now : nat -> datetime.
(** [glob.glob(pattern)], sorted by modification time, newest first: its
    first element. *)
Variable newest_match : filesystem -> string -> option string.
(** [s.lower().strip()] for text with characters beyond the ASCII range. *)
Variable lower_strip_text : string -> string.
(** [int(s)] for text with characters beyond the ASCII range, where the
    digits and the spaces of all scripts count. *)
Variable int_of_text : string -> result Z.

(** [str(v)]. *)
Definition py_str (v : pyval) : string :=
  match v with
  | PNone => "None"
  | PBool true => "True"
  | PBool false => "False"
  | PInt z => str_of_int z
  | PStr s => s
  | _ => py_repr v
  end.

(** The text the csv writer makes of a value: nothing for [None],
    [str(v)] otherwise. *)
Definition csv_field (v : pyval) : string :=
  match v with
  | PNone => EmptyString
  | _ => py_str v
  end.

(** [requests.get], [requests.post], [requests.delete]. *)
Definition send (r : request) : M response :=
  fun w =>
    let w' := mkWorld (fs w) (stdin w) (S (sent w)) (ticks w) (trace w ++ [EvRequest r]) in
    match server (sent w) r with
    | Responds resp => Some (Ok resp, w')
    | Fails => Some (Raise ConnectionError, w')
    end.

(** [datetime.now()]. *)
Definition datetime_now : M datetime :=
  fun w => Some (Ok (now (ticks w)),
                 mkWorld (fs w) (stdin w) (sent w) (S (ticks w)) (trace w)).

(* ------------------------------------------------------------------ *)
(** ** farcaster_api.py *)

Record FarcasterAPI : Type := mkAPI {
  api_key : string;
  signer_uuid : string;
  base_url : string;
  headers : list (string * string)
}.

(** [FarcasterAPI.__init__]. *)
Definition FarcasterAPI_init : M FarcasterAPI :=
  match getenv "NEYNAR_API_KEY" with
  | None => raise ValueError
  | Some key =>
      if is_empty key then raise ValueError
      else
        match getenv "NEYNAR_SIGNER_UUID" with
        | None => raise ValueError
        | Some signer =>
            if is_empty signer then raise ValueError
            else ret (mkAPI key signer "https://api.neynar.com/v2/farcaster"
                        [("accept", "application/json");
                         ("content-type", "application/json");
                         ("api_key", key)])
        end
  end.

(** One entry of the list [get_following_list] returns. *)
Record followed : Type := mkFollowed {
  fid : pyval;
  username : pyval;
  display_name : pyval;
  pfp_url : pyval;
  custody_address : pyval
}.

Definition extract_user (user : pyval) : result followed :=
  rbind (py_get user "fid" PNone) (fun f =>
  rbind (py_get user "username" (PStr EmptyString)) (fun u =>
  rbind (py_get user "display_name" (PStr EmptyString)) (fun d =>
  rbind (py_get user "pfp_url" (PStr EmptyString)) (fun p =>
  rbind (py_get user "custody_address" (PStr EmptyString)) (fun c =>
  Ok (mkFollowed f u d p c)))))).

(** The loop over [users_data] inside [get_following_list]. *)
Fixpoint extract_users (users_data : list pyval) (all_users : list followed)
  : result (list followed) :=
  match users_data with
  | [] => Ok all_users
  | user_item :: rest =>
      rbind (py_in "user" user_item) (fun has_user =>
        if has_user then
          rbind (py_index user_item "user") (fun user =>
          rbind (extract_user user) (fun u =>
          extract_users rest (all_users ++ [u])))
        else extract_users rest all_users)
  end.

(** The [while True] loop of [get_following_list]; one unit of fuel per
    page request. *)
Fixpoint following_pages (fuel : nat) (api : FarcasterAPI) (fid : pyval)
    (cursor : pyval) (all_users : list followed) (page_count : nat)
  : M (list followed) :=
  match fuel with
  | O => diverge
  | S fuel' =>
      let params :=
        [("fid", fid); ("limit", PInt 100)] ++
        (if py_truthy cursor then [("cursor", cursor)] else []) in
      response <- send (mkRequest GET (base_url api ++ "/following/") (headers api) params None) ;;
      raise_for_status response ;;
      data <- response_json response ;;
      users_data <- lift (py_get data "users" (PList [])) ;;
      items <- lift (py_iter users_data) ;;
      all_users' <- lift (extract_users items all_users) ;;
      let page_count' := S page_count in
      logger_info (LogFetchedPage page_count' (List.length items)) ;;
      next <- lift (py_get data "next" (PDict [])) ;;
      next_cursor <- lift (py_get next "cursor" PNone) ;;
      if negb (py_truthy next_cursor) then
        logger_info (LogFoundTotal (List.length all_users')) ;;
        ret all_users'
      else
        sleep (Finite (1 # 10)) ;;
        following_pages fuel' api fid next_cursor all_users' page_count'
  end.

Definition get_following_list (fuel : nat) (api : FarcasterAPI) (fid : pyval)
  : M (list followed) :=
  try_except
    (logger_info (LogFetching fid) ;;
     following_pages fuel api fid PNone [] 0)
    is_RequestException
    (fun e => logger_info LogFetchError ;; raise e).

Definition verb (d : direction) : http_method :=
  match d with Unfollow => DELETE | Follow => POST end.

(** The request both mutations send, by its verb. *)
Definition mutation_request (d : direction) (api : FarcasterAPI) (target_fid : pyval) : request :=
  mkRequest (verb d) (base_url api ++ "/user/follow") (headers api) []
    (Some (PDict [("signer_uuid", PStr (signer_uuid api));
                  ("target_fids", PList [target_fid])])).

(** The message texts that say the relationship is already as wanted. *)
Definition already_phrases (d : direction) : list string :=
  match d with
  | Unfollow => ["not following"; "not followed"]
  | Follow => ["already following"; "already followed"]
  end.

(** The check of a 400 or 409 response: [true] stands for the
    [return True] inside the inner [try]. *)
Definition already_check (d : direction) (target_fid : pyval) (r : response) : M bool :=
  if (status_code r =? 400) || (status_code r =? 409) then
    try_except
      (error_data <- response_json r ;;
       message <- lift (py_get error_data "message" (PStr EmptyString)) ;;
       error_message <- lift (py_lower message) ;;
       if existsb (fun phrase => contains phrase error_message) (already_phrases d)
       then logger_info (LogAlready d target_fid) ;; ret true
       else ret false)
      (fun _ => true)
      (fun _ => ret false)
  else ret false.

(** [unfollow_user] and [follow_user]: the two differ in the verb and in
    the message texts only. *)
Definition mutate (d : direction) (api : FarcasterAPI) (target_fid : pyval) (dry_run : bool)
  : M bool :=
  try_except
    (if dry_run then
       logger_info (LogDryRun d target_fid) ;;
       ret true
     else
       logger_info (LogMutating d target_fid) ;;
       response <- send (mutation_request d api target_fid) ;;
       already <- already_check d target_fid response ;;
       if already then ret true
       else
         raise_for_status response ;;
         logger_info (LogDone d target_fid) ;;
         ret true)
    is_RequestException
    (fun _ => logger_info (LogMutationError d target_fid) ;; ret false).

Definition unfollow_user : FarcasterAPI -> pyval -> bool -> M bool := mutate Unfollow.
Definition follow_user : FarcasterAPI -> pyval -> bool -> M bool := mutate Follow.

Definition get_my_fid (api : FarcasterAPI) : M pyval :=
  try_except
    (response <- send (mkRequest GET (base_url api ++ "/signer/") (headers api)
                         [("signer_uuid", PStr (signer_uuid api))] None) ;;
     raise_for_status response ;;
     signer_data <- response_json response ;;
     if py_truthy signer_data then
       has_fid <- lift (py_in "fid" signer_data) ;;
       if has_fid then lift (py_index signer_data "fid") else ret PNone
     else ret PNone)
    is_RequestException
    (fun _ => logger_info LogMyFidError ;; ret PNone).

(* ------------------------------------------------------------------ *)
(** ** What the two scripts share *)

Definition answer_in (answers : list string) (s : string) : bool :=
  existsb (String.eqb s) answers.

(** [line.lower().strip()]. *)
Definition lower_strip (line : string) : string :=
  if is_ascii line then strip (lower line) else lower_strip_text line.

Fixpoint confirm_loop (fuel : nat) (p : prompt) : M bool :=
  match fuel with
  | O => diverge
  | S fuel' =>
      line <- input p ;;
      let response := lower_strip line in
      if answer_in ["y"; "yes"] response then ret true
      else if answer_in ["n"; "no"] response then ret false
      else confirm_loop fuel' p
  end.

(** [confirm_action]: every round reads a line, so one round more than
    there are lines always ends, by an answer or by EOFError. *)
Definition confirm_action (p : prompt) : M bool :=
  fun w => confirm_loop (S (List.length (stdin w))) p w.

(** [l[:n]]. *)
Definition slice_to {A} (l : list A) (n : Z) : list A :=
  if 0 <=? n then firstn (Z.to_nat n) l
  else firstn (List.length l - Z.to_nat (- n)) l.

(** [l[n:]]. *)
Definition slice_from {A} (l : list A) (n : Z) : list A :=
  if 0 <=? n then skipn (Z.to_nat n) l
  else skipn (List.length l - Z.to_nat (- n)) l.

(** Both [main]s, up to the point where [logger] is bound: an exception
    before that reaches a handler that names [logger]. *)
Definition resolve_identity : M (FarcasterAPI * pyval) :=
  try_except
    (api <- FarcasterAPI_init ;;
     my_fid <- get_my_fid api ;;
     ret (api, my_fid))
    (fun _ => true)
    (fun _ => raise UnboundLocalError).

(* ------------------------------------------------------------------ *)
(** ** unfollow_all.py *)

Record unfollow_args : Type := mkUnfollowArgs {
  u_dry_run : bool;
  u_delay : pyfloat;
  u_limit : option Z
}.

Definition fieldnames : list string := ["fid"; "username"; "display_name"; "unfollowed_at"].

Definition record_path (my_fid : pyval) (timestamp : string) : string :=
  ("data/unfollowed_users_" ++ py_str my_fid ++ "_" ++ timestamp ++ ".csv")%string.

(** The row [writer.writerow] is given. *)
Definition record_row (user : followed) (unfollowed_at : string) : list string :=
  [csv_field (fid user); csv_field (username user);
   csv_field (display_name user); csv_field (PStr unfollowed_at)].

(** [save_user_to_csv].  Its handler asks for a global [logger], and the
    module binds none: [logger] is a local of [main].  So the handler
    raises [NameError] before it can return [None]. *)
Definition save_user_to_csv (user : followed) (my_fid : pyval) (timestamp : string)
    (csv_filename : option string) : M (option string) :=
  try_except
    (let csv_filename :=
       match csv_filename with
       | Some name => name
       | None => record_path my_fid timestamp
       end in
     file_exists <- path_exists csv_filename ;;
     (if negb file_exists then append_file csv_filename (Csv.writerow fieldnames) else ret tt) ;;
     dt <- datetime_now ;;
     append_file csv_filename (Csv.writerow (record_row user (isoformat dt))) ;;
     ret (Some csv_filename))
    (fun _ => true)
    (fun _ => raise NameError).

(** The lists and the file name the loop of [main] carries. *)
Definition unfollow_state : Type := (list followed * list followed * option string)%type.

(** [for i, user in enumerate(following_users, 1)]; [total] is
    [len(following_users)]. *)
Fixpoint unfollow_loop (api : FarcasterAPI) (args : unfollow_args) (my_fid : pyval)
    (timestamp : string) (total : nat) (i : nat) (users : list followed)
    (st : unfollow_state) : M unfollow_state :=
  match users with
  | [] => ret st
  | user :: rest =>
      let '(successful_unfollows, failed_unfollows, csv_filename) := st in
      success <- unfollow_user api (fid user) (u_dry_run args) ;;
      st' <- (if success then
                csv_filename' <- save_user_to_csv user my_fid timestamp csv_filename ;;
                ret (successful_unfollows ++ [user], failed_unfollows, csv_filename')
              else
                ret (successful_unfollows, failed_unfollows ++ [user], csv_filename)) ;;
      (if (i <? total)%nat then sleep (u_delay args) else ret tt) ;;
      unfollow_loop api args my_fid timestamp total (S i) rest st'
  end.

(** [if args.limit: following_users = following_users[:args.limit]]. *)
Definition apply_limit (limit : option Z) (following_users : list followed) : list followed :=
  match limit with
  | Some n => if n =? 0 then following_users else slice_to following_users n
  | None => following_users
  end.

(** [main] from the point where [logger] is bound. *)
Definition unfollow_run (fuel : nat) (args : unfollow_args) (api : FarcasterAPI)
    (my_fid : pyval) : M Z :=
  try_except
    (dt <- datetime_now ;;
     let timestamp := stamp dt in
     following_users <- get_following_list fuel api my_fid ;;
     match following_users with
     | [] => ret 0
     | _ =>
         let following_users := apply_limit (u_limit args) following_users in
         confirmed <- confirm_action (AskUnfollow (u_dry_run args) (List.length following_users)) ;;
         if negb confirmed then ret 0
         else
           unfollow_loop api args my_fid timestamp (List.length following_users) 1
             following_users ([], [], None) ;;
           ret 0
     end)
    (fun _ => true)
    (fun _ => ret 1).

Definition unfollow_main (fuel : nat) (args : unfollow_args) : M Z :=
  setup <- resolve_identity ;;
  let '(api, my_fid) := setup in
  if negb (py_truthy my_fid) then ret 1
  else unfollow_run fuel args api my_fid.

(* ------------------------------------------------------------------ *)
(** ** refollow_all.py *)

Record refollow_args : Type := mkRefollowArgs {
  r_csv_file : option string;
  r_dry_run : bool;
  r_delay : pyfloat;
  r_start_from : Z
}.

(** One row as [csv.DictReader] gives it: the field names paired with
    the values, [None] where the row is short.  Values beyond the field
    names go under the key [None], which no lookup here asks for. *)
Fixpoint zip_row (names : list string) (row : list string) : list (string * option string) :=
  match names with
  | [] => []
  | k :: ks =>
      match row with
      | [] => (k, None) :: zip_row ks []
      | v :: vs => (k, Some v) :: zip_row ks vs
      end
  end.

Definition is_blank (row : list string) : bool :=
  match row with [] => true | _ => false end.

(** [list(csv.DictReader(csvfile))]: the first record names the fields,
    blank records after it are passed over. *)
Definition DictReader (text : string) : result (list (list (string * option string))) :=
  rbind (Csv.reader text) (fun records =>
    match records with
    | [] => Ok []
    | names :: rows => Ok (map (zip_row names) (filter (fun r => negb (is_blank r)) rows))
    end).

(** [row[key]]; of two fields of one name the later one counts. *)
Definition row_item (row : list (string * option string)) (key : string) : result (option string) :=
  match assoc key (rev row) with
  | Some v => Ok v
  | None => Raise KeyError
  end.

(** [int(v)] for what a row holds. *)
Definition py_int (v : option string) : result Z :=
  match v with
  | Some s => if is_ascii s then int_of_str s else int_of_text s
  | None => Raise TypeError
  end.

(** One entry of the list [load_users_from_csv] returns. *)
Record unfollowed : Type := mkUnfollowed {
  row_fid : Z;
  row_username : option string;
  row_display_name : option string;
  row_unfollowed_at : option string
}.

Definition load_row (row : list (string * option string)) : result unfollowed :=
  rbind (row_item row "fid") (fun f =>
  rbind (py_int f) (fun n =>
  rbind (row_item row "username") (fun u =>
  rbind (row_item row "display_name") (fun d =>
  rbind (row_item row "unfollowed_at") (fun t =>
  Ok (mkUnfollowed n u d t)))))).

Fixpoint load_rows (rows : list (list (string * option string))) : result (list unfollowed) :=
  match rows with
  | [] => Ok []
  | row :: rest =>
      rbind (load_row row) (fun u =>
      rbind (load_rows rest) (fun us => Ok (u :: us)))
  end.

Definition current_fs : M filesystem := fun w => Some (Ok (fs w), w).

(** The search for the newest record file, for a call without a file
    name; [None] stands for its [return None]. *)
Definition find_csv_file : M (option string) :=
  try_except
    (api <- FarcasterAPI_init ;;
     my_fid <- get_my_fid api ;;
     if negb (py_truthy my_fid) then ret None
     else
       files <- current_fs ;;
       ret (newest_match files
              ("data/unfollowed_users_" ++ py_str my_fid ++ "_*.csv")%string))
    (fun _ => true)
    (fun _ => ret None).

(** [load_users_from_csv]; the rows are read and converted as a whole,
    which gives the list Python builds row by row, or its [None].  The
    argument [my_fid] is not read: the search assigns its own. *)
Definition load_users_from_csv (filename : option string) (my_fid : pyval)
  : M (option (list unfollowed)) :=
  try_except
    (found <- match filename with
              | Some name => ret (Some name)
              | None => find_csv_file
              end ;;
     match found with
     | None => ret None
     | Some name =>
         text <- read_file name ;;
         rows <- lift (DictReader text) ;;
         users <- lift (load_rows rows) ;;
         ret (Some users)
     end)
    (fun _ => true)
    (fun _ => ret None).

(** The step "apply start-from index"; [None] stands for its
    [return 1]. *)
Definition apply_start_from (start_from : Z) (users : list unfollowed)
  : option (list unfollowed) :=
  if 0 <? start_from then
    if Z.of_nat (List.length users) <=? start_from then None
    else Some (slice_from users start_from)
  else Some users.

(** [for i, user in enumerate(users, 1)]. *)
Fixpoint refollow_loop (api : FarcasterAPI) (args : refollow_args) (total : nat) (i : nat)
    (users : list unfollowed) (st : list unfollowed * list unfollowed)
  : M (list unfollowed * list unfollowed) :=
  match users with
  | [] => ret st
  | user :: rest =>
      let '(successful_follows, failed_follows) := st in
      success <- follow_user api (PInt (row_fid user)) (r_dry_run args) ;;
      let st' := if success then (successful_follows ++ [user], failed_follows)
                 else (successful_follows, failed_follows ++ [user]) in
      (if (i <? total)%nat then sleep (r_delay args) else ret tt) ;;
      refollow_loop api args total (S i) rest st'
  end.

(** [main] from the point where [logger] is bound. *)
Definition refollow_run (args : refollow_args) (api : FarcasterAPI) (my_fid : pyval) : M Z :=
  try_except
    (datetime_now ;;
     loaded <- load_users_from_csv (r_csv_file args) my_fid ;;
     match loaded with
     | None | Some [] => ret 1
     | Some users =>
         match apply_start_from (r_start_from args) users with
         | None => ret 1
         | Some users =>
             confirmed <- confirm_action (AskRefollow (r_dry_run args) (List.length users)) ;;
             if negb confirmed then ret 0
             else
               refollow_loop api args (List.length users) 1 users ([], []) ;;
               ret 0
         end
     end)
    (fun _ => true)
    (fun _ => ret 1).

Definition refollow_main (args : refollow_args) : M Z :=
  setup <- resolve_identity ;;
  let '(api, my_fid) := setup in
  if negb (py_truthy my_fid) then ret 1
  else refollow_run args api my_fid.

(* ------------------------------------------------------------------ *)
(** ** The rest of farcaster_api.py, and test_connection.py *)

(** [get_user_info]. *)
Definition get_user_info (api : FarcasterAPI) (fid : pyval) : M pyval :=
  try_except
    (response <- send (mkRequest GET (base_url api ++ "/user") (headers api)
                         [("fid", fid)] None) ;;
     raise_for_status response ;;
     data <- response_json response ;;
     lift (py_get data "user" PNone))
    is_RequestException
    (fun _ => logger_info (LogUserInfoError fid) ;; ret PNone).

(** [main] of test_connection.py; what it prints is left out. *)
Definition test_connection_main (fuel : nat) : M Z :=
  try_except
    (api <- FarcasterAPI_init ;;
     my_fid <- get_my_fid api ;;
     if py_truthy my_fid then
       try_except
         (get_following_list fuel api my_fid ;; ret tt)
         (fun _ => true)
         (fun _ => ret tt) ;;
       ret 0
     else ret 1)
    (fun _ => true)
    (fun _ => ret 1).

(* ------------------------------------------------------------------ *)
(** ** The vocabulary of the properties

    What follows is not taken from the source: it names what a trace
    shows and what the specification expects, for the statements
    below. *)

Definition direction_eqb (a b : direction) : bool :=
  match a, b with
  | Unfollow, Unfollow | Follow, Follow => true
  | _, _ => false
  end.

Definition http_method_eqb (a b : http_method) : bool :=
  match a, b with
  | GET, GET | POST, POST | DELETE, DELETE => true
  | _, _ => false
  end.

(** The target of a call of [follow_user] or [unfollow_user]: every
    call writes exactly one of these two log lines when it is entered. *)
Definition call_of (d : direction) (e : event) : list pyval :=
  match e with
  | EvLog (LogDryRun d' t) | EvLog (LogMutating d' t) =>
      if direction_eqb d d' then [t] else []
  | _ => []
  end.

(** The calls of direction [d] a trace shows, oldest first. *)
Definition calls (d : direction) (tr : list event) : list pyval :=
  flat_map (call_of d) tr.

Definition request_of (m : http_method) (e : event) : list request :=
  match e with
  | EvRequest r => if http_method_eqb (rq_method r) m then [r] else []
  | _ => []
  end.

(** The requests with verb [m] a trace shows, oldest first. *)
Definition requests (m : http_method) (tr : list event) : list request :=
  flat_map (request_of m) tr.

(** The questions asked at the terminal. *)
Definition prompts (tr : list event) : list prompt :=
  flat_map (fun e => match e with EvInput p => [p] | _ => [] end) tr.

(** The world after one reading of the clock. *)
Definition tick (w : world) : world :=
  mkWorld (fs w) (stdin w) (sent w) (S (ticks w)) (trace w).

(** The world after a question was asked and a line was read. *)
Definition asked (w : world) (p : prompt) : world :=
  mkWorld (fs w) (tl (stdin w)) (sent w) (ticks w) (trace w ++ [EvInput p]).

(** Events that are neither a question nor a mutation. *)
Definition quiet (e : event) : bool :=
  match e with
  | EvRequest r => http_method_eqb (rq_method r) GET
  | EvLog (LogDryRun _ _) | EvLog (LogMutating _ _) => false
  | EvInput _ => false
  | _ => true
  end.

(** The first line at the terminal is a yes. *)
Definition says_yes (lines : list string) : bool :=
  match lines with
  | [] => false
  | line :: _ => answer_in ["y"; "yes"] (lower_strip line)
  end.

(** *** The error contract of a mutation, in the words of the
    specification *)


Definition is_error (r : response) : bool :=
  (400 <=? status_code r) && (status_code r <? 600).

(** The message texts the specification names. *)
Definition desired_state_phrases (d : direction) : list string :=
  match d with
  | Follow => ["already following"; "already followed"]
  | Unfollow => ["not following"; "not followed"]
  end.

(** A 400 or 409 whose JSON message says the relationship already is
    what the call wants. *)
Definition says_already (d : direction) (r : response) : bool :=
  ((status_code r =? 400) || (status_code r =? 409)) &&
  match body r with
  | Some (PDict o) =>
      match assoc "message" o with
      | Some (PStr m) =>
          existsb (fun phrase => contains phrase (lower m)) (desired_state_phrases d)
      | _ => false
      end
  | _ => false
  end.

(** The answer the contract gives for an outcome of the request. *)
Definition accepted (d : direction) (o : http_outcome) : bool :=
  match o with
  | Fails => false
  | Responds r => says_already d r || negb (is_error r)
  end.

(** The answer of a call made when [n] requests were sent. *)
Definition verdict (d : direction) (api : FarcasterAPI) (dry_run : bool) (n : nat)
    (target_fid : pyval) : bool :=
  dry_run || accepted d (server n (mutation_request d api target_fid)).

(** The log line that ends a call that sent its request. *)
Definition closing_line (d : direction) (api : FarcasterAPI) (n : nat) (target_fid : pyval)
  : log_line :=
  match server n (mutation_request d api target_fid) with
  | Fails => LogMutationError d target_fid
  | Responds r =>
      if says_already d r then LogAlready d target_fid
      else if is_error r then LogMutationError d target_fid
      else LogDone d target_fid
  end.

(** What a call leaves in the trace. *)
Definition mutate_events (d : direction) (api : FarcasterAPI) (dry_run : bool) (n : nat)
    (target_fid : pyval) : list event :=
  if dry_run then [EvLog (LogDryRun d target_fid)]
  else
    [EvLog (LogMutating d target_fid);
     EvRequest (mutation_request d api target_fid);
     EvLog (closing_line d api n target_fid)].

(** The seconds of a pause. *)
Definition seconds (d : pyfloat) : Q :=
  match d with
  | Finite q => q
  | _ => 0
  end.

(** A delay [time.sleep] takes on every system: a number that is not
    negative and no more than 4000000 seconds, some 46 days. *)
Definition pause_ok (d : pyfloat) : bool :=
  match d with
  | Finite q => Qle_bool 0 q && Qle_bool q 4000000
  | _ => false
  end.


(** The digits of a number, written out. *)
Definition digits (z : Z) : nat := String.length (str_of_int (Z.abs z)).

(** The text is a field the record file holds: it has an encoding, so
    the file takes it, and it is within the field size limit, so the
    reader takes it. *)
Definition is_field (text : string) : bool := utf8_valid text && Csv.within_limit text.

(** The value is one the record file holds: what the csv writer makes of
    it is such a field, and a number has no more digits than [int]
    reads. *)
Definition writable (v : pyval) : bool :=
  is_field (csv_field v) &&
  match v with
  | PInt z => (digits z <=? max_str_digits)%nat
  | _ => true
  end.

(** The fields of the account that go to the record file are such
    values. *)
Definition writable_user (u : followed) : bool :=
  writable (fid u) && writable (username u) && writable (display_name u).

(** [isoformat()] gives such a field. *)
Definition clock_is_text : Prop := forall t, is_field (isoformat (now t)) = true.

(** How many requests were sent after a call. *)
Definition after_call (dry_run : bool) (n : nat) : nat := if dry_run then n else S n.

(** What a loop over [targets] leaves in the trace: the calls, with a
    pause after every one but the last. *)
Fixpoint loop_events (d : direction) (api : FarcasterAPI) (dry_run : bool) (delay : Q)
    (total i n : nat) (targets : list pyval) : list event :=
  match targets with
  | [] => []
  | t :: rest =>
      mutate_events d api dry_run n t ++
      (if (i <? total)%nat then [EvSleep delay] else []) ++
      loop_events d api dry_run delay total (S i) (after_call dry_run n) rest
  end.

(** The entries of [users] whose call gives [keep] as its answer, when
    [n] requests were sent before the first. *)
Fixpoint answered (keep : bool) (api : FarcasterAPI) (dry_run : bool) (n : nat)
    (users : list followed) : list followed :=
  match users with
  | [] => []
  | u :: rest =>
      (if Bool.eqb (verdict Unfollow api dry_run n (fid u)) keep then [u] else []) ++
      answered keep api dry_run (after_call dry_run n) rest
  end.

(** The rows of the record file for [users], the first one written at
    clock reading [t]. *)
Fixpoint stamped_rows (t : nat) (users : list followed) : list (list string) :=
  match users with
  | [] => []
  | u :: rest => record_row u (isoformat (now t)) :: stamped_rows (S t) rest
  end.

(** The text of the rows, one after the other. *)
Fixpoint writerows (rows : list (list string)) : string :=
  match rows with
  | [] => EmptyString
  | row :: more => (Csv.writerow row ++ writerows more)%string
  end.

(** A record file after [rows] were appended one by one: untouched
    without rows, begun with the header when it did not exist. *)
Definition appended (old : option string) (rows : list (list string)) : option string :=
  match rows with
  | [] => old
  | _ =>
      Some ((match old with
             | Some text => text
             | None => Csv.writerow fieldnames
             end) ++ writerows rows)%string
  end.



(** What loading a record file gives, by the text of the file: the
    rows, or nothing at all. *)
Definition loaded_from (content : option string) : option (list unfollowed) :=
  match content with
  | None => None
  | Some text =>
      if utf8_valid text then
        match rbind (DictReader text) load_rows with
        | Ok users => Some users
        | Raise _ => None
        end
      else None
  end.


(** The target the refollow loop passes for a row. *)
Definition row_target (u : unfollowed) : pyval := PInt (row_fid u).

(** *** Pages of the following list *)



Definition field_or (u : list (string * pyval)) (k : string) (default : pyval) : pyval :=
  match assoc k u with Some v => v | None => default end.

(** The user an entry embeds. *)
Definition embedded_user (item : pyval) : option followed :=
  match item with
  | PDict d =>
      match assoc "user" d with
      | Some (PDict u) =>
          Some (mkFollowed (field_or u "fid" PNone)
                           (field_or u "username" (PStr EmptyString))
                           (field_or u "display_name" (PStr EmptyString))
                           (field_or u "pfp_url" (PStr EmptyString))
                           (field_or u "custody_address" (PStr EmptyString)))
      | _ => None
      end
  | _ => None
  end.


(** An entry is an object whose [user], when it has one, is an object. *)
Definition entry_ok (item : pyval) : bool :=
  match item with
  | PDict d => match assoc "user" d with None | Some (PDict _) => true | _ => false end
  | _ => false
  end.







(** *** The csv reader, fused with the line iteration

    The reader as one pass over the text.  [started] says that the line
    being read has a character already. *)

Definition end_line (r : Csv.ReaderObj) (k : Csv.ReaderObj -> result (list (list string)))
  : result (list (list string)) :=
  rbind (Csv.parse_process_char r None) (fun r' =>
    if Csv.ParserState_eqb (Csv.state r') Csv.START_RECORD
    then rbind (k Csv.parse_reset) (fun more => Ok (Csv.fields r' :: more))
    else k r').

Fixpoint read_text (r : Csv.ReaderObj) (started : bool) (text : string)
  : result (list (list string)) :=
  match text with
  | EmptyString =>
      if started then end_line r (fun r' => Csv.records_from r' [])
      else Csv.records_from r []
  | String c rest =>
      rbind (Csv.parse_process_char r (Some c)) (fun r1 =>
        if Ascii.eqb c LF then end_line r1 (fun r' => read_text r' false rest)
        else if Ascii.eqb c CR then
          match rest with
          | String c' rest' =>
              if Ascii.eqb c' LF
              then rbind (Csv.parse_process_char r1 (Some c')) (fun r2 =>
                     end_line r2 (fun r' => read_text r' false rest'))
              else end_line r1 (fun r' => read_text r' false rest)
          | EmptyString => end_line r1 (fun r' => Csv.records_from r' [])
          end
        else read_text r1 true rest)
  end.

(** The parser in front of a field: at the start of a record or after a
    delimiter. *)
Definition at_field (st : Csv.ParserState) : Prop :=
  st = Csv.START_RECORD \/ st = Csv.START_FIELD.

(** The parser behind field [f]. *)
Definition after_field (st : Csv.ParserState) (f : string) (flds : list string)
  : Csv.ReaderObj :=
  if Csv.quoted f then Csv.mkReader Csv.QUOTE_IN_QUOTED_FIELD f flds
  else if is_empty f then Csv.mkReader st EmptyString flds
  else Csv.mkReader Csv.IN_FIELD f flds.

Definition after_started (b : bool) (f : string) : bool :=
  if Csv.quoted f then true else b || negb (is_empty f).

(** *** What a computation leaves alone, and what the scripts are held to *)

(** [respects R m]: whenever [m] ends, the world it leaves is related
    by [R] to the world it started in. *)
Definition respects (R : world -> world -> Prop) {A} (m : M A) : Prop :=
  forall w r w', m w = Some (r, w') -> R w w'.

(** The trace grew by events that all pass [P]. *)
Definition grows (P : event -> bool) (w w' : world) : Prop :=
  exists evs, trace w' = trace w ++ evs /\ forallb P evs = true.

(** Every request passes [ok]; anything else may happen. *)
Definition policy (ok : request -> bool) (e : event) : bool :=
  match e with
  | EvRequest r => ok r
  | _ => true
  end.

Definition is_get (r : request) : bool := http_method_eqb (rq_method r) GET.

(** Files, terminal and clock as they were, and the trace longer by
    quiet events only. *)
Definition reads_only (w w' : world) : Prop :=
  fs w' = fs w /\ stdin w' = stdin w /\ ticks w' = ticks w /\ grows quiet w w'.

(** The request [get_my_fid] sends. *)
Definition signer_request (api : FarcasterAPI) : request :=
  mkRequest GET (base_url api ++ "/signer/") (headers api)
    [("signer_uuid", PStr (signer_uuid api))] None.

(** The request [get_user_info] sends. *)
Definition user_request (api : FarcasterAPI) (fid : pyval) : request :=
  mkRequest GET (base_url api ++ "/user") (headers api) [("fid", fid)] None.

(** The request did not bring back a JSON body with a good status. *)
Definition unanswered (o : http_outcome) : bool :=
  match o with
  | Fails => true
  | Responds r => is_error r || match body r with None => true | Some _ => false end
  end.

(** The world after one request and the events [evs]. *)
Definition requested (w : world) (r : request) (evs : list event) : world :=
  mkWorld (fs w) (stdin w) (S (sent w)) (ticks w) (trace w ++ EvRequest r :: evs).

(** The variable is set to something. *)
Definition is_set (name : string) : bool :=
  match getenv name with
  | Some value => negb (is_empty value)
  | None => false
  end.

(** The request for a page, after a page that gave [cursor]. *)
Definition page_request (api : FarcasterAPI) (fid cursor : pyval) : request :=
  mkRequest GET (base_url api ++ "/following/") (headers api)
    ([("fid", fid); ("limit", PInt 100)] ++
     (if py_truthy cursor then [("cursor", cursor)] else []))
    None.




Definition is_yes (line : string) : bool := answer_in ["y"; "yes"] (lower_strip line).

Definition is_no (line : string) : bool := answer_in ["n"; "no"] (lower_strip line).

(** A line that is neither a yes nor a no. *)
Definition undecided (line : string) : bool := negb (is_yes line) && negb (is_no line).

(** The first line that is a yes or a no, as a truth value. *)
Fixpoint first_answer (lines : list string) : option bool :=
  match lines with
  | [] => None
  | line :: rest =>
      if is_yes line then Some true
      else if is_no line then Some false
      else first_answer rest
  end.

(** The first line that is a yes or a no is a yes. *)
Definition confirms (lines : list string) : bool :=
  match first_answer lines with
  | Some true => true
  | _ => false
  end.

(** The requests a script may send: a GET, or, outside a dry run, the
    verb of its direction. *)
Definition allowed (d : direction) (dry_run : bool) (r : request) : bool :=
  is_get r || (negb dry_run && http_method_eqb (rq_method r) (verb d)).

(** The trace grew by events whose requests all pass [ok]; with [keep],
    the files are as they were. *)
Definition obeys (keep : bool) (ok : request -> bool) (w w' : world) : Prop :=
  (keep = true -> fs w' = fs w) /\ grows (policy ok) w w'.

(** Events that are no mutation: quiet ones and questions. *)
Definition idle (e : event) : bool :=
  match e with
  | EvInput _ => true
  | _ => quiet e
  end.

(** Files as they were, and the trace longer by idle events only. *)
Definition untouched (w w' : world) : Prop := fs w' = fs w /\ grows idle w w'.

(** The pauses a trace shows, oldest first. *)
Definition sleeps (tr : list event) : list Q :=
  flat_map (fun e => match e with EvSleep s => [s] | _ => [] end) tr.

Definition is_object (v : pyval) : bool :=
  match v with
  | PDict _ => true
  | _ => false
  end.

(* ================================================================== *)
(** * Properties *)

(** ** Text *)

Import Csv.

Lemma append_assoc (a b c : string) : ((a ++ b) ++ c = a ++ (b ++ c))%string.
Proof. induction a; simpl; congruence. Qed.

Lemma append_nil_r (a : string) : (a ++ EmptyString)%string = a.
Proof. induction a; simpl; congruence. Qed.

Lemma rbind_assoc {A B C} (m : result A) (f : A -> result B) (g : B -> result C) :
  rbind (rbind m f) g = rbind m (fun a => rbind (f a) g).
Proof. destruct m; reflexivity. Qed.

Lemma parse_chars_snoc r cur c :
  parse_chars r (snoc cur c) =
  rbind (parse_chars r cur) (fun r' => parse_process_char r' (Some c)).
Proof.
  revert r; induction cur as [|a cur IH]; intros r; simpl.
  - destruct (parse_process_char r (Some c)); reflexivity.
  - destruct (parse_process_char r (Some a)) as [r1|e]; simpl; [apply IH|reflexivity].
Qed.

Lemma is_empty_snoc cur c : is_empty (snoc cur c) = false.
Proof. destruct cur; reflexivity. Qed.

Lemma records_from_cons r line rest :
  records_from r (line :: rest) =
  rbind (parse_chars r line) (fun r1 => end_line r1 (fun r' => records_from r' rest)).
Proof.
  simpl. unfold parse_line, end_line. rewrite rbind_assoc. reflexivity.
Qed.

Lemma read_text_fuses_len n : forall text cur r,
  (String.length text <= n)%nat ->
  records_from r (readlines_from cur text) =
  rbind (parse_chars r cur) (fun r' => read_text r' (negb (is_empty cur)) text).
Proof.
  induction n as [|n IH]; intros text cur r Hlen.
  - destruct text; [|simpl in Hlen; lia].
    simpl readlines_from. destruct (is_empty cur) eqn:E.
    + destruct cur; [|discriminate]. reflexivity.
    + rewrite records_from_cons. simpl negb. simpl read_text. reflexivity.
  - destruct text as [|c rest].
    { apply IH; simpl; lia. }
    assert (Hrest : (String.length rest <= n)%nat) by (simpl in Hlen; lia).
    cbn [readlines_from read_text].
    destruct (Ascii.eqb c LF) eqn:ELF.
    { rewrite records_from_cons, parse_chars_snoc, rbind_assoc.
      destruct (parse_chars r cur) as [r0|e]; [|reflexivity]. cbn [rbind].
      destruct (parse_process_char r0 (Some c)) as [r1|e]; [|reflexivity]. cbn [rbind].
      unfold end_line. destruct (parse_process_char r1 None) as [r2|e]; [|reflexivity].
      cbn [rbind]. 
      destruct (ParserState_eqb (state r2) START_RECORD);
        rewrite (IH rest EmptyString _ Hrest); reflexivity. }
    destruct (Ascii.eqb c CR) eqn:ECR.
    { destruct rest as [|c' rest'].
      - rewrite records_from_cons, parse_chars_snoc, rbind_assoc.
        destruct (parse_chars r cur) as [r0|e]; [|reflexivity]. cbn [rbind].
        reflexivity.
      - destruct (Ascii.eqb c' LF) eqn:ELF'.
        + rewrite records_from_cons, !parse_chars_snoc, !rbind_assoc.
          destruct (parse_chars r cur) as [r0|e]; [|reflexivity]. cbn [rbind].
          destruct (parse_process_char r0 (Some c)) as [r1|e]; [|reflexivity]. cbn [rbind].
          destruct (parse_process_char r1 (Some c')) as [r2|e]; [|reflexivity]. cbn [rbind].
          unfold end_line. destruct (parse_process_char r2 None) as [r3|e]; [|reflexivity].
          cbn [rbind].
          assert (Hr' : (String.length rest' <= n)%nat) by (simpl in Hrest; lia).
          destruct (ParserState_eqb (state r3) START_RECORD);
            rewrite (IH rest' EmptyString _ Hr'); reflexivity.
        + rewrite records_from_cons, parse_chars_snoc, rbind_assoc.
          destruct (parse_chars r cur) as [r0|e]; [|reflexivity]. cbn [rbind].
          destruct (parse_process_char r0 (Some c)) as [r1|e]; [|reflexivity]. cbn [rbind].
          unfold end_line. destruct (parse_process_char r1 None) as [r2|e]; [|reflexivity].
          cbn [rbind].
          destruct (ParserState_eqb (state r2) START_RECORD);
            rewrite (IH (String c' rest') EmptyString _ Hrest); reflexivity. }
    rewrite (IH rest (snoc cur c) _ Hrest).
    rewrite parse_chars_snoc, rbind_assoc, is_empty_snoc.
    destruct (parse_chars r cur) as [r0|e]; reflexivity.
Qed.

Lemma records_of_read_text text :
  records_of text = read_text parse_reset false text.
Proof.
  unfold records_of, readlines.
  rewrite (@read_text_fuses_len (String.length text) text EmptyString parse_reset) by lia. reflexivity.
Qed.


(** Characters that need no quoting are ordinary for the parser. *)
Lemma needs_quoting_false c :
  needs_quoting c = false ->
  Ascii.eqb c COMMA = false /\ Ascii.eqb c DQUOTE = false /\
  Ascii.eqb c CR = false /\ Ascii.eqb c LF = false.
Proof.
  unfold needs_quoting. intros H.
  repeat (apply orb_false_iff in H; destruct H as [H ?]). auto.
Qed.

Lemma started_irrelevant fld flds text :
  read_text (mkReader IN_QUOTED_FIELD fld flds) true text =
  read_text (mkReader IN_QUOTED_FIELD fld flds) false text.
Proof. destruct text; reflexivity. Qed.

(** Inside a quoted field every character but the quote is collected,
    wherever the lines end. *)
Lemma quoted_step fld flds b c rest :
  Ascii.eqb c DQUOTE = false ->
  read_text (mkReader IN_QUOTED_FIELD fld flds) b (String c rest) =
  read_text (mkReader IN_QUOTED_FIELD (snoc fld c) flds) false rest.
Proof.
  intros Hq. cbn [read_text parse_process_char state rbind]. rewrite Hq.
  cbn [rbind parse_add_char state field fields].
  destruct (Ascii.eqb c LF) eqn:ELF; [reflexivity|].
  destruct (Ascii.eqb c CR) eqn:ECR.
  - destruct rest as [|c' rest']; [reflexivity|].
    destruct (Ascii.eqb c' LF) eqn:ELF'; [|reflexivity].
    apply Ascii.eqb_eq in ELF'. subst c'. reflexivity.
  - apply started_irrelevant.
Qed.

Lemma quoted_body s : forall fld flds b rest,
  read_text (mkReader IN_QUOTED_FIELD fld flds) b
            (join_append_data s ++ String DQUOTE rest) =
  read_text (mkReader QUOTE_IN_QUOTED_FIELD (fld ++ s) flds) true rest.
Proof.
  induction s as [|c s IH]; intros fld flds b rest.
  - rewrite append_nil_r. reflexivity.
  - cbn [join_append_data]. destruct (Ascii.eqb c DQUOTE) eqn:EQ.
    + apply Ascii.eqb_eq in EQ. subst c.
      change (read_text (mkReader IN_QUOTED_FIELD (snoc fld DQUOTE) flds) true
                (join_append_data s ++ String DQUOTE rest) =
              read_text (mkReader QUOTE_IN_QUOTED_FIELD (fld ++ String DQUOTE s) flds) true rest).
      rewrite IH. unfold snoc, str1. rewrite append_assoc. reflexivity.
    + change (String c (join_append_data s) ++ String DQUOTE rest)%string
        with (String c (join_append_data s ++ String DQUOTE rest)).
      rewrite quoted_step by exact EQ. rewrite IH.
      unfold snoc, str1. rewrite append_assoc. reflexivity.
Qed.

Lemma plain_body s : forall fld flds b rest,
  quoted s = false ->
  read_text (mkReader IN_FIELD fld flds) b (s ++ rest) =
  read_text (mkReader IN_FIELD (fld ++ s) flds) (b || negb (is_empty s)) rest.
Proof.
  induction s as [|c s IH]; intros fld flds b rest Hq.
  - rewrite append_nil_r, orb_false_r. reflexivity.
  - cbn [quoted] in Hq. apply orb_false_iff in Hq. destruct Hq as [Hc Hs].
    destruct (needs_quoting_false _ Hc) as (H1 & H2 & H3 & H4).
    change (String c s ++ rest)%string with (String c (s ++ rest)).
    cbn [read_text parse_process_char state rbind]. unfold is_newline.
    rewrite H4, H3, H1. cbn [orb rbind]. unfold parse_add_char. cbn [state field fields].
    rewrite IH by exact Hs. unfold snoc, str1. rewrite append_assoc.
    cbn [is_empty negb]. rewrite orb_true_r. reflexivity.
Qed.


Lemma field_read st f flds b rest :
  at_field st ->
  read_text (mkReader st EmptyString flds) b (join_append f ++ rest) =
  read_text (after_field st f flds) (after_started b f) rest.
Proof.
  intros Hst. unfold join_append, after_field, after_started.
  destruct (quoted f) eqn:Q.
  - change (String DQUOTE (join_append_data f ++ str1 DQUOTE) ++ rest)%string
      with (String DQUOTE ((join_append_data f ++ str1 DQUOTE) ++ rest)).
    rewrite append_assoc. cbn [str1 append].
    transitivity (read_text (mkReader IN_QUOTED_FIELD EmptyString flds) true
                    (join_append_data f ++ String DQUOTE rest)).
    { destruct Hst; subst st; reflexivity. }
    rewrite quoted_body. reflexivity.
  - destruct f as [|c f].
    { cbn [is_empty negb join_append_data append]. rewrite orb_false_r. reflexivity. }
    cbn [quoted] in Q. apply orb_false_iff in Q. destruct Q as [Hc Hs].
    destruct (needs_quoting_false _ Hc) as (H1 & H2 & H3 & H4).
    assert (Hd : join_append_data (String c f) = String c f).
    { clear -Hs H2. cbn [join_append_data]. rewrite H2. f_equal.
      induction f as [|a f IH]; [reflexivity|].
      cbn [quoted] in Hs. apply orb_false_iff in Hs. destruct Hs as [Ha Hf].
      destruct (needs_quoting_false _ Ha) as (_ & Ha2 & _).
      cbn [join_append_data]. rewrite Ha2, IH by exact Hf. reflexivity. }
    rewrite Hd. change (String c f ++ rest)%string with (String c (f ++ rest)).
    transitivity (read_text (mkReader IN_FIELD (str1 c) flds) true (f ++ rest)).
    { destruct Hst; subst st; cbn [read_text parse_process_char state rbind start_field];
        unfold is_newline; rewrite H4, H3, ?H2, ?H1; reflexivity. }
    rewrite plain_body by exact Hs. cbn [is_empty negb orb str1 append]. 
    rewrite orb_true_r. reflexivity.
Qed.


(** What is behind a field is a state a delimiter or a line end closes. *)
Lemma comma_read st f flds b rest :
  at_field st ->
  read_text (after_field st f flds) b (String COMMA rest) =
  read_text (mkReader START_FIELD EmptyString (flds ++ [f])) true rest.
Proof.
  intros Hst. unfold after_field.
  destruct (quoted f); [reflexivity|].
  destruct f as [|c f]; [|reflexivity].
  destruct Hst; subst st; reflexivity.
Qed.

Lemma eol_read st f flds b rest :
  at_field st ->
  (quoted f = false -> is_empty f = true -> st = START_FIELD) ->
  read_text (after_field st f flds) b (lineterminator ++ rest) =
  rbind (read_text parse_reset false rest) (fun more => Ok ((flds ++ [f]) :: more)).
Proof.
  intros Hst Hne. unfold after_field.
  destruct (quoted f); [reflexivity|].
  destruct f as [|c f]; [|reflexivity].
  rewrite (Hne eq_refl eq_refl). reflexivity.
Qed.

Lemma row_read fs : forall st flds b rest,
  fs <> [] ->
  at_field st ->
  (fs = [EmptyString] -> st = START_FIELD) ->
  read_text (mkReader st EmptyString flds) b (join_fields fs ++ lineterminator ++ rest) =
  rbind (read_text parse_reset false rest) (fun more => Ok ((flds ++ fs) :: more)).
Proof.
  induction fs as [|f fs IH]; intros st flds b rest Hne Hst Hsingle; [congruence|].
  destruct fs as [|f2 fs'].
  - cbn [join_fields]. rewrite field_read by exact Hst.
    apply eol_read; [exact Hst|].
    intros Hq He. apply Hsingle. destruct f; [reflexivity|discriminate].
  - change (join_fields (f :: f2 :: fs'))
      with (join_append f ++ String COMMA (join_fields (f2 :: fs')))%string.
    rewrite append_assoc, field_read by exact Hst.
    change (String COMMA (join_fields (f2 :: fs')) ++ lineterminator ++ rest)%string
      with (String COMMA (join_fields (f2 :: fs') ++ lineterminator ++ rest)).
    rewrite comma_read by exact Hst.
    rewrite IH; [|discriminate|right; reflexivity|reflexivity].
    rewrite <- app_assoc. reflexivity.
Qed.

Lemma writerow_read fs rest :
  read_text parse_reset false (writerow fs ++ rest) =
  rbind (read_text parse_reset false rest) (fun more => Ok (fs :: more)).
Proof.
  destruct fs as [|f fs]; [reflexivity|].
  destruct (string_dec f EmptyString) as [->|Hf].
  - destruct fs as [|f2 fs']; [reflexivity|].
    unfold writerow. rewrite append_assoc.
    apply (@row_read (EmptyString :: f2 :: fs') START_RECORD [] false rest);
      [discriminate|left; reflexivity|discriminate].
  - assert (Hw : writerow (f :: fs) = (join_fields (f :: fs) ++ lineterminator)%string).
    { unfold writerow. destruct f; [congruence|]. reflexivity. }
    rewrite Hw, append_assoc.
    apply (@row_read (f :: fs) START_RECORD [] false rest);
      [discriminate|left; reflexivity|intros [= ->]; congruence].
Qed.


Lemma records_of_writerows rows : records_of (writerows rows) = Ok rows.
Proof.
  rewrite records_of_read_text.
  induction rows as [|row rows IH]; [reflexivity|].
  cbn [writerows]. rewrite writerow_read, IH. reflexivity.
Qed.

(** Rows whose fields are within the field size limit are read back as
    they were written. *)
Theorem reader_writerows rows :
  forallb (forallb within_limit) rows = true -> reader (writerows rows) = Ok rows.
Proof.
  intros Hfit. unfold reader. rewrite records_of_writerows. cbn [rbind].
  rewrite Hfit. reflexivity.
Qed.


(** ** [int] undoes [str] *)





Lemma is_ascii_app a b : is_ascii (a ++ b) = is_ascii a && is_ascii b.
Proof.
  induction a as [|c a IH]; [reflexivity|].
  cbn [append is_ascii]. rewrite IH, andb_assoc. reflexivity.
Qed.



(** ** Text that decodes *)

(** With no byte pending the bounds play no part. *)
Lemma utf8_from_start lo hi s : utf8_from 0 lo hi s = utf8_from 0 128 191 s.
Proof. destruct s; reflexivity. Qed.

(** Text that decodes, followed by more text. *)
Lemma utf8_from_app a : forall pending lo hi b,
  utf8_from pending lo hi a = true ->
  utf8_from pending lo hi (a ++ b) = utf8_valid b.
Proof.
  induction a as [|c a IH]; intros pending lo hi b Ha.
  - cbn [utf8_from] in Ha. apply Nat.eqb_eq in Ha. subst pending.
    cbn [append]. apply utf8_from_start.
  - cbn [append utf8_from] in Ha |- *.
    destruct pending as [|p].
    + repeat match type of Ha with
             | (if ?c then _ else _) = true => destruct c; [apply IH; exact Ha|]
             end.
      discriminate.
    + destruct ((lo <=? nat_of_ascii c) && (nat_of_ascii c <=? hi))%nat; [|discriminate].
      apply IH. exact Ha.
Qed.

Lemma utf8_valid_app a b :
  utf8_valid a = true -> utf8_valid (a ++ b) = utf8_valid b.
Proof. apply utf8_from_app. Qed.

Lemma is_ascii_utf8_valid s : is_ascii s = true -> utf8_valid s = true.
Proof.
  unfold utf8_valid. induction s as [|c s IH]; [reflexivity|].
  cbn [is_ascii utf8_from]. intros H. apply andb_true_iff in H. destruct H as [Hc Hs].
  apply Nat.ltb_lt in Hc.
  replace (nat_of_ascii c <=? 127)%nat with true by (symmetry; apply Nat.leb_le; lia).
  apply IH. exact Hs.
Qed.

(** ** The client *)

Lemma bind_ok {A B} (m : M A) (k : A -> M B) w a w' :
  m w = Some (Ok a, w') -> bind m k w = k a w'.
Proof. intros H. unfold bind. rewrite H. reflexivity. Qed.

Lemma try_except_ok {A} (body : M A) catches handler w a w' :
  body w = Some (Ok a, w') -> try_except body catches handler w = Some (Ok a, w').
Proof. intros H. unfold try_except. rewrite H. reflexivity. Qed.

Lemma no_phrase_in_empty d :
  existsb (fun phrase => contains phrase (lower EmptyString)) (already_phrases d) = false.
Proof. destruct d; reflexivity. Qed.

Lemma phrases_agree d : already_phrases d = desired_state_phrases d.
Proof. destruct d; reflexivity. Qed.

(** The check of the response is the contract's [says_already]. *)
Lemma already_check_run d t r w :
  already_check d t r w =
  Some (Ok (says_already d r),
        if says_already d r
        then mkWorld (fs w) (stdin w) (sent w) (ticks w) (trace w ++ [EvLog (LogAlready d t)])
        else w).
Proof.
  unfold already_check, says_already.
  destruct ((status_code r =? 400) || (status_code r =? 409)); [|reflexivity].
  cbn [andb]. unfold try_except, bind, response_json, lift, logger_info, emit, ret, raise.
  destruct (body r) as [[| | | |l|o]|]; try reflexivity.
  cbn [py_get]. destruct (assoc "message" o) as [[| | |m| |]|]; try reflexivity.
  - cbn [py_lower]. rewrite phrases_agree.
    destruct (existsb (fun phrase => contains phrase (lower m)) (desired_state_phrases d));
      reflexivity.
  - cbn [py_lower]. rewrite no_phrase_in_empty. reflexivity.
Qed.

(** A call, whole: its answer is the contract's, and it leaves the
    world as it was but for the request counted and the trace. *)
Lemma mutate_run d api t dry w :
  mutate d api t dry w =
  Some (Ok (verdict d api dry (sent w) t),
        mkWorld (fs w) (stdin w) (after_call dry (sent w)) (ticks w)
                (trace w ++ mutate_events d api dry (sent w) t)).
Proof.
  unfold mutate, verdict, mutate_events, closing_line, after_call. destruct dry.
  - reflexivity.
  - cbn [orb]. unfold try_except, bind at 1.
    unfold logger_info at 1, emit. unfold bind at 1. unfold send.
    cbn [sent trace fs stdin ticks].
    destruct (server (sent w) (mutation_request d api t)) as [r|]; cbn [accepted].
    + unfold bind at 1. rewrite already_check_run.
      destruct (says_already d r) eqn:Hal; cbn [orb].
      * unfold ret. cbn. rewrite <- !app_assoc. reflexivity.
      * unfold bind, raise_for_status, is_error.
        destruct ((400 <=? status_code r) && (status_code r <? 600));
          unfold raise, ret, logger_info, emit; cbn; rewrite <- !app_assoc; reflexivity.
    + cbn. rewrite <- !app_assoc. reflexivity.
Qed.

(** C7. Dry-run no-op: with [dry_run] set, [follow_user] and
    [unfollow_user] return [True] for every target, send no request and
    leave one log line. *)
Theorem dry_run_is_no_op api target_fid w :
  follow_user api target_fid true w =
    Some (Ok true, mkWorld (fs w) (stdin w) (sent w) (ticks w)
                     (trace w ++ [EvLog (LogDryRun Follow target_fid)])) /\
  unfollow_user api target_fid true w =
    Some (Ok true, mkWorld (fs w) (stdin w) (sent w) (ticks w)
                     (trace w ++ [EvLog (LogDryRun Unfollow target_fid)])).
Proof.
  unfold follow_user, unfollow_user. rewrite !mutate_run. split; reflexivity.
Qed.


(** ** Pages *)


(** How the steps of a computation run, one [bind] at a time. *)

Lemma bind_ret {A B} (a : A) (k : A -> M B) w : bind (ret a) k w = k a w.
Proof. reflexivity. Qed.

Lemma bind_lift_ok {A B} (a : A) (k : A -> M B) w : bind (lift (Ok a)) k w = k a w.
Proof. reflexivity. Qed.

Lemma bind_emit {B} e (k : unit -> M B) w :
  bind (emit e) k w = k tt (mkWorld (fs w) (stdin w) (sent w) (ticks w) (trace w ++ [e])).
Proof. reflexivity. Qed.

Lemma bind_send {B} r (k : response -> M B) w resp :
  server (sent w) r = Responds resp ->
  bind (send r) k w =
  k resp (mkWorld (fs w) (stdin w) (S (sent w)) (ticks w) (trace w ++ [EvRequest r])).
Proof. intros H. unfold bind, send. rewrite H. reflexivity. Qed.

Lemma bind_raise_for_status_ok {B} r (k : unit -> M B) w :
  is_error r = false -> bind (raise_for_status r) k w = k tt w.
Proof. intros H. unfold bind, raise_for_status. unfold is_error in H. rewrite H. reflexivity. Qed.

Lemma bind_response_json {B} r v (k : pyval -> M B) w :
  body r = Some v -> bind (response_json r) k w = k v w.
Proof. intros H. unfold bind, response_json. rewrite H. reflexivity. Qed.


(** A pause [time.sleep] takes. *)
Lemma sleep_pause_ok d : pause_ok d = true -> sleep d = emit (EvSleep (seconds d)).
Proof.
  destruct d as [q| | |]; try discriminate. cbn [pause_ok sleep seconds]. intros H.
  apply andb_true_iff in H. destruct H as [Hlo Hhi].
  rewrite Hlo. apply Qle_bool_iff in Hlo. apply Qle_bool_iff in Hhi.
  destruct (Qle_bool 9223372036854775808 (Qabs q * 1000000000)) eqn:Ebig; [|reflexivity].
  apply Qle_bool_iff in Ebig. rewrite Qabs_pos in Ebig by exact Hlo. lra.
Qed.


Ltac mstep :=
  first [ rewrite bind_ret | rewrite bind_lift_ok | rewrite bind_emit ];
  cbv beta.





(** ** What the writer writes decodes *)

Lemma utf8_join_append_data f : forall pending lo hi b,
  (128 <= lo)%nat ->
  utf8_from pending lo hi f = true ->
  utf8_from pending lo hi (Csv.join_append_data f ++ b) = utf8_valid b.
Proof.
  induction f as [|c f IH]; intros pending lo hi b Hlo Hf.
  - cbn [utf8_from] in Hf. apply Nat.eqb_eq in Hf. subst pending.
    cbn [Csv.join_append_data append]. apply utf8_from_start.
  - cbn [Csv.join_append_data]. destruct (Ascii.eqb c DQUOTE) eqn:Eq.
    + apply Ascii.eqb_eq in Eq. subst c. destruct pending as [|p].
      * cbn [utf8_from] in Hf. change (nat_of_ascii DQUOTE <=? 127)%nat with true in Hf.
        cbn iota in Hf.
        change (utf8_from 0 lo hi (String DQUOTE (String DQUOTE (Csv.join_append_data f)) ++ b))
          with (utf8_from 0 128 191 (Csv.join_append_data f ++ b)).
        apply IH; [lia|exact Hf].
      * cbn [utf8_from] in Hf. change (nat_of_ascii DQUOTE) with 34%nat in Hf.
        replace (lo <=? 34)%nat with false in Hf by (symmetry; apply Nat.leb_gt; lia).
        discriminate.
    + cbn [append utf8_from] in Hf |- *. destruct pending as [|p].
      * repeat match type of Hf with
               | (if ?c then _ else _) = true => destruct c; [apply IH; [lia|exact Hf]|]
               end.
        discriminate.
      * destruct ((lo <=? nat_of_ascii c) && (nat_of_ascii c <=? hi))%nat; [|discriminate].
        apply IH; [lia|exact Hf].
Qed.

Lemma utf8_join_append f b :
  utf8_valid f = true -> utf8_valid (Csv.join_append f ++ b) = utf8_valid b.
Proof.
  intros Hf. unfold Csv.join_append. destruct (Csv.quoted f).
  - change (utf8_valid (String DQUOTE (Csv.join_append_data f ++ str1 DQUOTE) ++ b))
      with (utf8_from 0 128 191 ((Csv.join_append_data f ++ str1 DQUOTE) ++ b)).
    rewrite append_assoc. rewrite utf8_join_append_data; [reflexivity|lia|exact Hf].
  - apply utf8_join_append_data; [lia|exact Hf].
Qed.

Lemma utf8_join_fields fields : forall b,
  forallb utf8_valid fields = true ->
  utf8_valid (Csv.join_fields fields ++ b) = utf8_valid b.
Proof.
  induction fields as [|f rest IH]; intros b Hall; [reflexivity|].
  cbn [forallb] in Hall. apply andb_true_iff in Hall. destruct Hall as [Hf Hrest].
  destruct rest as [|g rest'].
  - cbn [Csv.join_fields]. apply utf8_join_append. exact Hf.
  - change (Csv.join_fields (f :: g :: rest'))
      with (Csv.join_append f ++ String COMMA (Csv.join_fields (g :: rest')))%string.
    rewrite append_assoc, utf8_join_append by exact Hf.
    change (utf8_valid (String COMMA (Csv.join_fields (g :: rest')) ++ b))
      with (utf8_valid (Csv.join_fields (g :: rest') ++ b)).
    apply IH. exact Hrest.
Qed.

Lemma utf8_writerow fields b :
  forallb utf8_valid fields = true ->
  utf8_valid (Csv.writerow fields ++ b) = utf8_valid b.
Proof.
  intros Hall.
  assert (Hgen : utf8_valid ((Csv.join_fields fields ++ Csv.lineterminator) ++ b) =
                 utf8_valid b).
  { rewrite append_assoc, utf8_join_fields by exact Hall. reflexivity. }
  unfold Csv.writerow. destruct fields as [|[|c f] [|g rest]]; exact Hgen.
Qed.


(** ** Fields the record file holds *)

Lemma forallb_impl {A} (p q : A -> bool) l :
  (forall x, p x = true -> q x = true) -> forallb p l = true -> forallb q l = true.
Proof.
  intros Hpq. induction l as [|x l IH]; [reflexivity|].
  cbn [forallb]. intros H. apply andb_true_iff in H. destruct H as [Hx Hl].
  rewrite (Hpq x Hx), (IH Hl). reflexivity.
Qed.

Lemma is_field_utf8 text : is_field text = true -> utf8_valid text = true.
Proof. unfold is_field. intros H. apply andb_true_iff in H. apply H. Qed.

Lemma is_field_within_limit text : is_field text = true -> Csv.within_limit text = true.
Proof. unfold is_field. intros H. apply andb_true_iff in H. apply H. Qed.


Lemma fields_within_limit rows :
  forallb (forallb is_field) rows = true -> forallb (forallb Csv.within_limit) rows = true.
Proof. apply forallb_impl. intros row. apply forallb_impl. exact is_field_within_limit. Qed.

Lemma writable_is_field v : writable v = true -> is_field (csv_field v) = true.
Proof. unfold writable. intros H. apply andb_true_iff in H. apply H. Qed.

Lemma record_row_fields u t :
  clock_is_text -> writable_user u = true ->
  forallb is_field (record_row u (isoformat (now t))) = true.
Proof.
  intros Hclock Hu. unfold writable_user in Hu.
  apply andb_true_iff in Hu. destruct Hu as [Hu Hd].
  apply andb_true_iff in Hu. destruct Hu as [Hf Hn].
  cbn [forallb record_row].
  change (csv_field (PStr (isoformat (now t)))) with (isoformat (now t)).
  rewrite (writable_is_field _ Hf), (writable_is_field _ Hn), (writable_is_field _ Hd), Hclock.
  reflexivity.
Qed.

Lemma stamped_rows_fields users : forall t,
  clock_is_text ->
  forallb writable_user users = true ->
  forallb (forallb is_field) (stamped_rows t users) = true.
Proof.
  induction users as [|u rest IH]; intros t Hclock Hall; [reflexivity|].
  cbn [forallb] in Hall. apply andb_true_iff in Hall. destruct Hall as [Hu Hrest].
  cbn [stamped_rows]. cbn [forallb].
  rewrite record_row_fields by assumption. apply IH; assumption.
Qed.

Lemma fieldnames_fields : forallb is_field fieldnames = true.
Proof. reflexivity. Qed.

Lemma forallb_firstn {A} (p : A -> bool) l : forall n,
  forallb p l = true -> forallb p (firstn n l) = true.
Proof.
  induction l as [|x l IH]; intros [|n] H; try reflexivity.
  cbn [forallb firstn] in *. apply andb_true_iff in H. destruct H as [Hx Hl].
  rewrite Hx, (IH n Hl). reflexivity.
Qed.

(** What holds of every entry of the list holds of every entry a cap
    leaves. *)
Lemma apply_limit_forallb (p : followed -> bool) limit l :
  forallb p l = true -> forallb p (apply_limit limit l) = true.
Proof.
  intros H. unfold apply_limit, slice_to. destruct limit as [n|]; [|exact H].
  destruct (n =? 0); [exact H|].
  destruct (0 <=? n); apply forallb_firstn; exact H.
Qed.

Lemma answered_forallb (p : followed -> bool) keep api dry users : forall n,
  forallb p users = true -> forallb p (answered keep api dry n users) = true.
Proof.
  induction users as [|u rest IH]; intros n H; [reflexivity|].
  cbn [forallb answered] in *. apply andb_true_iff in H. destruct H as [Hu Hrest].
  rewrite forallb_app, (IH _ Hrest), andb_true_r.
  destruct (Bool.eqb _ keep); [cbn [forallb]; rewrite Hu|]; reflexivity.
Qed.

(** The header and the rows of accounts the file holds are within the
    limit of the reader. *)
Lemma record_within_limit t users :
  clock_is_text ->
  forallb writable_user users = true ->
  forallb (forallb Csv.within_limit) (fieldnames :: stamped_rows t users) = true.
Proof.
  intros Hclock Htext. apply fields_within_limit. cbn [forallb].
  rewrite fieldnames_fields. apply stamped_rows_fields; assumption.
Qed.


(** ** What the scripts share *)

Lemma confirm_action_yes p w :
  says_yes (stdin w) = true ->
  confirm_action p w = Some (Ok true, asked w p).
Proof.
  unfold says_yes, confirm_action, asked. destruct (stdin w) as [|line rest] eqn:E;
    [discriminate|].
  intros Hyes. cbn [List.length confirm_loop]. unfold bind, input. rewrite E, Hyes.
  reflexivity.
Qed.

Lemma quiet_calls d evs : forallb quiet evs = true -> calls d evs = [].
Proof.
  induction evs as [|e evs IH]; [reflexivity|].
  cbn [forallb]. intros H. apply andb_true_iff in H. destruct H as [He Hevs].
  unfold calls. cbn [flat_map]. fold (calls d evs). rewrite IH by exact Hevs.
  destruct e as [r|l|p|s]; try reflexivity; try discriminate.
  destruct l; try reflexivity; discriminate.
Qed.

Lemma quiet_prompts evs : forallb quiet evs = true -> prompts evs = [].
Proof.
  induction evs as [|e evs IH]; [reflexivity|].
  cbn [forallb]. intros H. apply andb_true_iff in H. destruct H as [He Hevs].
  unfold prompts. cbn [flat_map]. fold (prompts evs). rewrite IH by exact Hevs.
  destruct e; try reflexivity; discriminate.
Qed.

Lemma quiet_requests m evs :
  m <> GET -> forallb quiet evs = true -> requests m evs = [].
Proof.
  intros Hm. induction evs as [|e evs IH]; [reflexivity|].
  cbn [forallb]. intros H. apply andb_true_iff in H. destruct H as [He Hevs].
  unfold requests. cbn [flat_map]. fold (requests m evs). rewrite IH by exact Hevs.
  destruct e as [r|l|p|s]; try reflexivity.
  cbn [quiet] in He. cbn [request_of].
  destruct (rq_method r), m; try reflexivity; try discriminate; congruence.
Qed.

(** [get_my_fid] sends one GET and nothing else, whatever comes back. *)
Lemma get_my_fid_quiet api w :
  exists r evs,
    get_my_fid api w =
      Some (r, mkWorld (fs w) (stdin w) (S (sent w)) (ticks w) (trace w ++ evs)) /\
    forallb quiet evs = true.
Proof.
  unfold get_my_fid, try_except, bind at 1, send.
  set (rq := mkRequest GET _ _ _ _).
  assert (Hrq : quiet (EvRequest rq) = true) by reflexivity.
  destruct (server (sent w) rq) as [resp|].
  - unfold bind at 1, raise_for_status.
    destruct ((400 <=? status_code resp) && (status_code resp <? 600)).
    + unfold raise. cbn. eexists. eexists. split.
      * rewrite <- app_assoc. reflexivity.
      * reflexivity.
    + unfold ret at 1. unfold bind at 1, response_json.
      destruct (body resp) as [v|].
      * unfold ret at 1.
        destruct (py_truthy v).
        -- unfold bind, lift.
           destruct (py_in "fid" v) as [[|]|e].
           ++ destruct (py_index v "fid") as [x|e]; [|destruct e]; cbn;
                (eexists; eexists; split;
                 [rewrite <- ?app_assoc; reflexivity|reflexivity]).
           ++ cbn. eexists; exists [EvRequest rq]; split; reflexivity.
           ++ destruct e; cbn;
                (eexists; eexists; split;
                 [rewrite <- ?app_assoc; reflexivity|reflexivity]).
        -- eexists; exists [EvRequest rq]; split; reflexivity.
      * unfold raise. cbn. eexists. eexists. split.
        -- rewrite <- app_assoc. reflexivity.
        -- reflexivity.
  - cbn. eexists. eexists. split.
    + rewrite <- app_assoc. reflexivity.
    + reflexivity.
Qed.

(** Resolving the identity leaves files, terminal and clock alone and
    adds neither a question nor a mutation to the trace. *)
Lemma resolve_identity_quiet w r w' :
  resolve_identity w = Some (r, w') ->
  fs w' = fs w /\ stdin w' = stdin w /\ ticks w' = ticks w /\
  exists evs, trace w' = trace w ++ evs /\ forallb quiet evs = true.
Proof.
  unfold resolve_identity, try_except, bind at 1, FarcasterAPI_init.
  assert (Hsame : forall (x : result (FarcasterAPI * pyval)),
            Some (x, w) = Some (r, w') ->
            fs w' = fs w /\ stdin w' = stdin w /\ ticks w' = ticks w /\
            exists evs, trace w' = trace w ++ evs /\ forallb quiet evs = true).
  { intros x [= _ <-]. repeat split. exists []. rewrite app_nil_r. split; reflexivity. }
  destruct (getenv "NEYNAR_API_KEY") as [key|]; [|apply Hsame].
  destruct (is_empty key); [apply Hsame|].
  destruct (getenv "NEYNAR_SIGNER_UUID") as [signer|]; [|apply Hsame].
  destruct (is_empty signer); [apply Hsame|].
  unfold ret at 1. unfold bind.
  destruct (get_my_fid_quiet
              (mkAPI key signer "https://api.neynar.com/v2/farcaster"
                 [("accept", "application/json"); ("content-type", "application/json");
                  ("api_key", key)]) w) as (x & evs & Hrun & Hq).
  rewrite Hrun. destruct x as [v|e]; cbn; intros [= _ <-]; cbn;
    (repeat split; exists evs; split; [reflexivity|exact Hq]).
Qed.

Lemma unfollow_main_identified fuel args w api my_fid w0 :
  resolve_identity w = Some (Ok (api, my_fid), w0) ->
  py_truthy my_fid = true ->
  unfollow_main fuel args w = unfollow_run fuel args api my_fid w0.
Proof.
  intros H Ht. unfold unfollow_main. erewrite bind_ok by exact H. cbv beta iota. rewrite Ht. reflexivity.
Qed.

Lemma refollow_main_identified args w api my_fid w0 :
  resolve_identity w = Some (Ok (api, my_fid), w0) ->
  py_truthy my_fid = true ->
  refollow_main args w = refollow_run args api my_fid w0.
Proof.
  intros H Ht. unfold refollow_main. erewrite bind_ok by exact H. cbv beta iota. rewrite Ht. reflexivity.
Qed.

(** ** The loops *)

Lemma calls_app d a b : calls d (a ++ b) = calls d a ++ calls d b.
Proof. apply flat_map_app. Qed.

Lemma requests_app m a b : requests m (a ++ b) = requests m a ++ requests m b.
Proof. apply flat_map_app. Qed.

Lemma prompts_app a b : prompts (a ++ b) = prompts a ++ prompts b.
Proof. apply flat_map_app. Qed.

Lemma direction_eqb_refl d : direction_eqb d d = true.
Proof. destruct d; reflexivity. Qed.

Lemma closing_line_silent d' d api n t :
  call_of d' (EvLog (closing_line d api n t)) = [].
Proof.
  unfold closing_line. destruct (server n (mutation_request d api t)) as [r|];
    [|reflexivity].
  destruct (says_already d r); [reflexivity|]. destruct (is_error r); reflexivity.
Qed.

(** A loop calls the operation once for every target, in order. *)
Lemma calls_loop_events d api dry delay total targets : forall i n,
  calls d (loop_events d api dry delay total i n targets) = targets.
Proof.
  induction targets as [|t rest IH]; intros i n; [reflexivity|].
  cbn [loop_events]. rewrite !calls_app, IH.
  assert (H1 : calls d (mutate_events d api dry n t) = [t]).
  { unfold mutate_events, calls. destruct dry; cbn [flat_map];
      rewrite ?closing_line_silent; cbn; rewrite direction_eqb_refl; reflexivity. }
  assert (H2 : calls d (if (i <? total)%nat then [EvSleep delay] else []) = []).
  { destruct (i <? total)%nat; reflexivity. }
  rewrite H1, H2. reflexivity.
Qed.

Lemma prompts_loop_events d api dry delay total targets : forall i n,
  prompts (loop_events d api dry delay total i n targets) = [].
Proof.
  induction targets as [|t rest IH]; intros i n; [reflexivity|].
  cbn [loop_events]. rewrite !prompts_app, IH.
  assert (H1 : prompts (mutate_events d api dry n t) = []).
  { unfold mutate_events. destruct dry; reflexivity. }
  assert (H2 : prompts (if (i <? total)%nat then [EvSleep delay] else []) = []).
  { destruct (i <? total)%nat; reflexivity. }
  rewrite H1, H2. reflexivity.
Qed.

(** Without dry run a loop sends one request for every target, in
    order; with it, none. *)
Lemma requests_loop_events d api dry delay total targets : forall i n,
  requests (verb d) (loop_events d api dry delay total i n targets) =
  if dry then [] else map (mutation_request d api) targets.
Proof.
  induction targets as [|t rest IH]; intros i n; [destruct dry; reflexivity|].
  cbn [loop_events]. rewrite !requests_app, IH.
  assert (H2 : requests (verb d) (if (i <? total)%nat then [EvSleep delay] else []) = []).
  { destruct (i <? total)%nat; reflexivity. }
  rewrite H2. unfold mutate_events. destruct dry; [reflexivity|].
  cbn. destruct d; reflexivity.
Qed.

Lemma refollow_loop_run api args total users : forall i st w,
  pause_ok (r_delay args) = true ->
  exists st',
    refollow_loop api args total i users st w =
    Some (Ok st',
          mkWorld (fs w) (stdin w)
                  (sent w + if r_dry_run args then 0 else List.length users)
                  (ticks w)
                  (trace w ++
                   loop_events Follow api (r_dry_run args) (seconds (r_delay args)) total i
                     (sent w)
                     (map row_target users))).
Proof.
  induction users as [|user rest IH]; intros i [good bad] w Hdelay.
  - exists (good, bad). cbn [refollow_loop loop_events map List.length]. unfold ret.
    rewrite app_nil_r. destruct (r_dry_run args); rewrite Nat.add_0_r; destruct w; reflexivity.
  - cbn [refollow_loop]. unfold follow_user.
    erewrite bind_ok by apply mutate_run. cbv beta.
    set (st' := if verdict Follow api (r_dry_run args) (sent w) (PInt (row_fid user))
                then (good ++ [user], bad) else (good, bad ++ [user])).
    set (w1 := mkWorld _ _ _ _ _).
    assert (Hpause : exists w2,
              (if (i <? total)%nat then sleep (r_delay args) else ret tt) w1 = Some (Ok tt, w2) /\
              w2 = mkWorld (fs w) (stdin w) (after_call (r_dry_run args) (sent w)) (ticks w)
                     (trace w ++ mutate_events Follow api (r_dry_run args) (sent w)
                                  (PInt (row_fid user)) ++
                      (if (i <? total)%nat then [EvSleep (seconds (r_delay args))] else []))).
    { rewrite (@sleep_pause_ok _ Hdelay). destruct (i <? total)%nat; eexists; (split; [reflexivity|]); subst w1; cbn.
      - rewrite <- app_assoc. reflexivity.
      - rewrite app_nil_r. reflexivity. }
    destruct Hpause as (w2 & Hrun & Hw2).
    erewrite bind_ok by exact Hrun. cbv beta.
    destruct (IH (S i) st' w2 Hdelay) as (st'' & Hloop). exists st''. rewrite Hloop. subst w2.
    cbn [fs stdin sent ticks trace map loop_events List.length]. unfold row_target at 2.
    assert (Hs : (after_call (r_dry_run args) (sent w) +
                  (if r_dry_run args then 0 else List.length rest) =
                  sent w + (if r_dry_run args then 0 else S (List.length rest)))%nat)
      by (unfold after_call; destruct (r_dry_run args); lia).
    rewrite Hs, <- !app_assoc. reflexivity.
Qed.

(** ** The record file *)

Lemma writerows_app a b : writerows (a ++ b) = (writerows a ++ writerows b)%string.
Proof.
  induction a as [|r a IH]; [reflexivity|].
  cbn [app writerows]. rewrite IH, append_assoc. reflexivity.
Qed.

Lemma appended_app old a b : appended (appended old a) b = appended old (a ++ b).
Proof.
  destruct a as [|r a]; [reflexivity|].
  destruct b as [|r' b]; [rewrite app_nil_r; reflexivity|].
  unfold appended. cbn [app].
  change (writerows (r :: a ++ r' :: b)) with (writerows ((r :: a) ++ (r' :: b))).
  rewrite writerows_app, append_assoc. reflexivity.
Qed.

(** A record file that grew from nothing is the header and the rows. *)
Lemma appended_fresh rows :
  appended None rows =
  match rows with
  | [] => None
  | _ => Some (writerows (fieldnames :: rows))
  end.
Proof. destruct rows; reflexivity. Qed.


Section RecordFile.

Variable my_fid : pyval.
Variable timestamp : string.

Local Abbreviation path := (record_path my_fid timestamp).

Lemma save_user_to_csv_run user name w :
  clock_is_text ->
  writable_user user = true ->
  name = None \/ name = Some path ->
  exists w',
    save_user_to_csv user my_fid timestamp name w = Some (Ok (Some path), w') /\
    fs w' path = appended (fs w path) [record_row user (isoformat (now (ticks w)))] /\
    (forall q, q <> path -> fs w' q = fs w q) /\
    stdin w' = stdin w /\ sent w' = sent w /\ ticks w' = S (ticks w) /\
    trace w' = trace w.
Proof.
  intros Hclock Huser Hname.
  assert (Hp : match name with Some n => n | None => record_path my_fid timestamp end = path).
  { destruct Hname as [-> | ->]; reflexivity. }
  assert (Hhead : utf8_valid (Csv.writerow fieldnames) = true) by reflexivity.
  assert (Hrow : utf8_valid (Csv.writerow (record_row user (isoformat (now (ticks w))))) = true).
  { rewrite <- (append_nil_r (Csv.writerow _)).
    apply utf8_writerow. apply (@forallb_impl _ is_field); [exact is_field_utf8|].
    apply record_row_fields; assumption. }
  unfold save_user_to_csv. rewrite Hp.
  unfold try_except, bind, path_exists, datetime_now, append_file, ret, write_file.
  destruct (fs w path) as [old|] eqn:Eold; cbn [negb fs stdin sent ticks trace];
    rewrite ?Hhead; cbn [fs stdin sent ticks trace]; rewrite ?Hrow;
    rewrite ?Eold, ?String.eqb_refl; eexists; (split; [reflexivity|]);
    cbn [fs stdin sent ticks trace]; rewrite ?String.eqb_refl;
    cbn [appended writerows append]; rewrite ?append_nil_r.
  - repeat split. intros q Hq. apply String.eqb_neq in Hq. rewrite Hq. reflexivity.
  - repeat split. intros q Hq. apply String.eqb_neq in Hq. rewrite Hq. reflexivity.
Qed.




(** The loop of [unfollow_all.py], whole: who ends in which list, what
    the record file holds, and what the trace shows. *)
Lemma unfollow_loop_run api args total users : forall i good bad name w,
  pause_ok (u_delay args) = true ->
  clock_is_text ->
  forallb writable_user users = true ->
  name = None \/ name = Some path ->
  let dry := u_dry_run args in
  exists name' w',
    unfollow_loop api args my_fid timestamp total i users (good, bad, name) w =
      Some (Ok (good ++ answered true api dry (sent w) users,
                bad ++ answered false api dry (sent w) users, name'), w') /\
    fs w' path =
      appended (fs w path) (stamped_rows (ticks w) (answered true api dry (sent w) users)) /\
    (forall q, q <> path -> fs w' q = fs w q) /\
    stdin w' = stdin w /\
    sent w' = (sent w + if dry then 0 else List.length users)%nat /\
    ticks w' = (ticks w + List.length (answered true api dry (sent w) users))%nat /\
    trace w' =
      trace w ++
      loop_events Unfollow api dry (seconds (u_delay args)) total i (sent w) (map fid users) /\
    (name' = None \/ name' = Some path).
Proof.
  induction users as [|user rest IH]; intros i good bad name w Hdelay Hclock Htext Hname dry.
  - exists name, w. cbn [unfollow_loop answered stamped_rows appended loop_events map
                          List.length]. unfold ret.
    rewrite !app_nil_r, !Nat.add_0_r. repeat split; try exact Hname.
    destruct dry; rewrite Nat.add_0_r; reflexivity.
  - cbn [forallb] in Htext. apply andb_true_iff in Htext. destruct Htext as [Huser Htext].
    cbn [unfollow_loop]. unfold unfollow_user.
    erewrite bind_ok by apply mutate_run. cbv beta. fold dry.
    set (w1 := mkWorld _ _ _ _ _).
    cbn [answered map loop_events].
    destruct (verdict Unfollow api dry (sent w) (fid user)) eqn:Hv; cbn [Bool.eqb].
    + destruct (@save_user_to_csv_run user name w1 Hclock Huser Hname)
        as (w2 & Hsave & Hfile & Hothers & Hin & Hsent & Hticks & Htrace).
      erewrite bind_ok; [|erewrite bind_ok by exact Hsave; reflexivity]. cbv beta.
      set (pause := if (i <? total)%nat then [EvSleep (seconds (u_delay args))] else []).
      assert (Hpause : exists w3,
                (if (i <? total)%nat then sleep (u_delay args) else ret tt) w2 =
                  Some (Ok tt, w3) /\
                fs w3 = fs w2 /\ stdin w3 = stdin w2 /\ sent w3 = sent w2 /\
                ticks w3 = ticks w2 /\ trace w3 = trace w2 ++ pause).
      { subst pause. rewrite (@sleep_pause_ok _ Hdelay).
        destruct (i <? total)%nat; eexists; (split; [reflexivity|]); cbn;
          rewrite ?app_nil_r; repeat split. }
      destruct Hpause as (w3 & Hrun & Hfs3 & Hin3 & Hsent3 & Hticks3 & Htrace3).
      erewrite bind_ok by exact Hrun. cbv beta.
      destruct (IH (S i) (good ++ [user]) bad (Some path) w3 Hdelay Hclock Htext
                  (or_intror eq_refl))
        as (name' & w' & Hloop & Hfile' & Hothers' & Hin' & Hsent' & Hticks' & Htrace' & Hname').
      fold dry in Hloop, Hfile', Hsent', Hticks', Htrace'.
      assert (Es : sent w3 = after_call dry (sent w)).
      { rewrite Hsent3, Hsent. reflexivity. }
      assert (Et : ticks w3 = S (ticks w)).
      { rewrite Hticks3, Hticks. reflexivity. }
      rewrite Es, ?Et in *.
      exists name', w'. rewrite Hloop, <- !app_assoc. split; [reflexivity|].
      cbn [app stamped_rows List.length].
      split.
      { rewrite Hfile', Hfs3, Hfile. subst w1. cbn [fs ticks]. 
        rewrite appended_app. reflexivity. }
      split.
      { intros q Hq. rewrite (Hothers' q Hq), Hfs3, (Hothers q Hq). reflexivity. }
      split; [rewrite Hin', Hin3, Hin; reflexivity|].
      split.
      { rewrite Hsent'. unfold after_call. destruct dry; lia. }
      split; [rewrite Hticks'; lia|].
      split; [|exact Hname'].
      rewrite Htrace', Htrace3, Htrace. subst w1 pause. cbn [trace].
      rewrite <- !app_assoc. reflexivity.
    + rewrite bind_ret.
      set (pause := if (i <? total)%nat then [EvSleep (seconds (u_delay args))] else []).
      assert (Hpause : exists w3,
                (if (i <? total)%nat then sleep (u_delay args) else ret tt) w1 =
                  Some (Ok tt, w3) /\
                fs w3 = fs w1 /\ stdin w3 = stdin w1 /\ sent w3 = sent w1 /\
                ticks w3 = ticks w1 /\ trace w3 = trace w1 ++ pause).
      { subst pause. rewrite (@sleep_pause_ok _ Hdelay).
        destruct (i <? total)%nat; eexists; (split; [reflexivity|]); cbn;
          rewrite ?app_nil_r; repeat split. }
      destruct Hpause as (w3 & Hrun & Hfs3 & Hin3 & Hsent3 & Hticks3 & Htrace3).
      erewrite bind_ok by exact Hrun. cbv beta.
      destruct (IH (S i) good (bad ++ [user]) name w3 Hdelay Hclock Htext Hname)
        as (name' & w' & Hloop & Hfile' & Hothers' & Hin' & Hsent' & Hticks' & Htrace' & Hname').
      fold dry in Hloop, Hfile', Hsent', Hticks', Htrace'.
      subst w1. cbn [fs stdin sent ticks trace] in *.
      rewrite Hsent3, ?Hticks3 in *.
      exists name', w'. rewrite Hloop, <- !app_assoc. split; [reflexivity|].
      cbn [app].
      split; [rewrite Hfile', Hfs3; reflexivity|].
      split; [intros q Hq; rewrite (Hothers' q Hq), Hfs3; reflexivity|].
      split; [rewrite Hin', Hin3; reflexivity|].
      split.
      { rewrite Hsent'. unfold after_call. destruct dry; cbn [List.length]; lia. }
      split; [exact Hticks'|].
      split; [|exact Hname'].
      rewrite Htrace', Htrace3. subst pause. rewrite <- !app_assoc. reflexivity.
Qed.

End RecordFile.

(** ** Loading a record file *)

Lemma load_users_from_csv_named name my_fid w :
  load_users_from_csv (Some name) my_fid w = Some (Ok (loaded_from (fs w name)), w).
Proof.
  unfold load_users_from_csv, loaded_from, try_except. rewrite bind_ret.
  unfold bind at 1, read_file. destruct (fs w name) as [text|]; [|reflexivity].
  destruct (utf8_valid text); [|reflexivity].
  unfold bind, lift.
  destruct (DictReader text) as [rows|e]; [|reflexivity]. cbn [rbind].
  destruct (load_rows rows); reflexivity.
Qed.

(** One row that does not convert fails the rows as a whole. *)
Lemma load_rows_fails rows row e :
  In row rows -> load_row row = Raise e -> exists e', load_rows rows = Raise e'.
Proof.
  induction rows as [|r rows IH]; intros Hin Hrow; [contradiction|].
  cbn [load_rows]. destruct (load_row r) as [u|e1] eqn:Er; [|eexists; reflexivity].
  destruct Hin as [-> | Hin]; [congruence|].
  destruct (IH Hin Hrow) as (e' & He'). rewrite He'. eexists. reflexivity.
Qed.


Lemma stamped_rows_not_blank t users :
  filter (fun r => negb (is_blank r)) (stamped_rows t users) = stamped_rows t users.
Proof.
  revert t. induction users as [|u rest IH]; intros t; [reflexivity|].
  cbn [stamped_rows filter record_row is_blank negb]. rewrite IH. reflexivity.
Qed.




(** ** The runs, from the loops *)

(** When every call is accepted, nobody is left out. *)
Lemma answered_all api dry users : forall n,
  (forall m t, verdict Unfollow api dry m t = true) ->
  answered true api dry n users = users /\ answered false api dry n users = [].
Proof.
  intros n Hall. revert n.
  induction users as [|u rest IH]; intros n; [split; reflexivity|].
  cbn [answered]. rewrite Hall. cbn [Bool.eqb app].
  destruct (IH (after_call dry n)) as [-> ->]. split; reflexivity.
Qed.

(** The unfollow run that reaches its loop: the list was fetched, is
    not empty, and the question is answered with yes. *)
Lemma unfollow_run_loops fuel args api my_fid w0 following w1 :
  get_following_list fuel api my_fid (tick w0) = Some (Ok following, w1) ->
  following <> [] ->
  says_yes (stdin w1) = true ->
  let timestamp := stamp (now (ticks w0)) in
  let users := apply_limit (u_limit args) following in
  let w2 := asked w1 (AskUnfollow (u_dry_run args) (List.length users)) in
  forall st w',
    unfollow_loop api args my_fid timestamp (List.length users) 1 users ([], [], None) w2 =
      Some (Ok st, w') ->
    unfollow_run fuel args api my_fid w0 = Some (Ok 0, w').
Proof.
  intros Hfetch Hne Hyes timestamp users w2 st w' Hloop.
  unfold unfollow_run. apply try_except_ok.
  unfold bind at 1, datetime_now. fold (tick w0).
  erewrite bind_ok by exact Hfetch. cbv beta.
  destruct following as [|u rest]; [congruence|].
  fold users.
  erewrite bind_ok by (apply confirm_action_yes; exact Hyes). cbv beta.
  cbn [negb]. fold w2. fold timestamp.
  erewrite bind_ok by exact Hloop. reflexivity.
Qed.

(** The refollow run that reaches its loop. *)
Lemma refollow_run_loops args api my_fid w0 name users rest :
  r_csv_file args = Some name ->
  loaded_from (fs w0 name) = Some users ->
  users <> [] ->
  apply_start_from (r_start_from args) users = Some rest ->
  says_yes (stdin w0) = true ->
  pause_ok (r_delay args) = true ->
  refollow_run args api my_fid w0 =
  Some (Ok 0,
        mkWorld (fs w0) (tl (stdin w0))
                (sent w0 + if r_dry_run args then 0 else List.length rest)
                (S (ticks w0))
                (trace w0 ++ EvInput (AskRefollow (r_dry_run args) (List.length rest)) ::
                 loop_events Follow api (r_dry_run args) (seconds (r_delay args))
                   (List.length rest) 1
                   (sent w0) (map row_target rest))).
Proof.
  intros Hfile Hload Hne Hstart Hyes Hdelay.
  unfold refollow_run. apply try_except_ok.
  unfold bind at 1, datetime_now. fold (tick w0).
  rewrite Hfile. erewrite bind_ok by apply load_users_from_csv_named. cbv beta.
  change (fs (tick w0) name) with (fs w0 name). rewrite Hload.
  destruct users as [|u us]; [congruence|]. rewrite Hstart.
  erewrite bind_ok by (apply confirm_action_yes; exact Hyes). cbv beta. cbn [negb].
  destruct (refollow_loop_run api args (List.length rest) rest 1 ([], [])
              (asked (tick w0) (AskRefollow (r_dry_run args) (List.length rest))) Hdelay)
    as (st' & Hloop).
  erewrite bind_ok by exact Hloop. unfold ret, asked, tick.
  cbn [fs stdin sent ticks trace]. rewrite <- app_assoc. reflexivity.
Qed.

(** The refollow run that stops before its loop: nothing loaded, or
    the offset past the rows. *)
Lemma refollow_run_stops args api my_fid w0 name :
  r_csv_file args = Some name ->
  match loaded_from (fs w0 name) with
  | None | Some [] => True
  | Some users => apply_start_from (r_start_from args) users = None
  end ->
  refollow_run args api my_fid w0 = Some (Ok 1, tick w0).
Proof.
  intros Hfile Hstop.
  unfold refollow_run. apply try_except_ok.
  unfold bind at 1, datetime_now. fold (tick w0).
  rewrite Hfile. erewrite bind_ok by apply load_users_from_csv_named. cbv beta.
  change (fs (tick w0) name) with (fs w0 name).
  destruct (loaded_from (fs w0 name)) as [[|u us]|]; try reflexivity.
  rewrite Hstop. reflexivity.
Qed.

(** ** The unfollow workflow *)

Lemma unfollow_run_empty fuel args api my_fid w0 w1 :
  get_following_list fuel api my_fid (tick w0) = Some (Ok [], w1) ->
  unfollow_run fuel args api my_fid w0 = Some (Ok 0, w1).
Proof.
  intros Hfetch. unfold unfollow_run. apply try_except_ok.
  unfold bind at 1, datetime_now. fold (tick w0).
  erewrite bind_ok by exact Hfetch. reflexivity.
Qed.

Lemma firstn_min {A} (l : list A) (n : Z) :
  0 <= n ->
  firstn (Z.to_nat (Z.min n (Z.of_nat (List.length l)))) l = firstn (Z.to_nat n) l.
Proof.
  intros Hn. destruct (Z.le_ge_cases n (Z.of_nat (List.length l))) as [Hle | Hge].
  - rewrite Z.min_l by exact Hle. reflexivity.
  - rewrite Z.min_r by exact Hge. rewrite Nat2Z.id.
    rewrite firstn_all, firstn_all2 by lia. reflexivity.
Qed.

(** What the loop of a run that reached it leaves behind. *)
Lemma unfollow_run_outcome fuel args api my_fid w0 following w1 :
  get_following_list fuel api my_fid (tick w0) = Some (Ok following, w1) ->
  following <> [] ->
  says_yes (stdin w1) = true ->
  pause_ok (u_delay args) = true ->
  clock_is_text ->
  forallb writable_user following = true ->
  let path := record_path my_fid (stamp (now (ticks w0))) in
  let users := apply_limit (u_limit args) following in
  let kept := answered true api (u_dry_run args) (sent w1) users in
  exists w',
    unfollow_run fuel args api my_fid w0 = Some (Ok 0, w') /\
    fs w' path = appended (fs w1 path) (stamped_rows (ticks w1) kept) /\
    (forall q, q <> path -> fs w' q = fs w1 q) /\
    calls Unfollow (trace w') = calls Unfollow (trace w1) ++ map fid users /\
    requests DELETE (trace w') =
      requests DELETE (trace w1) ++
      (if u_dry_run args then [] else map (mutation_request Unfollow api) (map fid users)).
Proof.
  intros Hfetch Hne Hyes Hdelay Hclock Htext path users kept.
  set (w2 := asked w1 (AskUnfollow (u_dry_run args) (List.length users))).
  destruct (@unfollow_loop_run my_fid (stamp (now (ticks w0))) api args (List.length users)
              users 1%nat [] [] None w2 Hdelay Hclock
              (apply_limit_forallb _ _ _ Htext) (or_introl eq_refl))
    as (name' & w' & Hloop & Hfile & Hothers & Hin & Hsent & Hticks & Htrace & _).
  exists w'. split.
  { eapply unfollow_run_loops; eassumption. }
  split; [exact Hfile|]. split; [exact Hothers|].
  rewrite Htrace. subst w2. unfold asked. cbn [trace sent].
  rewrite !calls_app, !requests_app, calls_loop_events.
  change DELETE with (verb Unfollow). rewrite requests_loop_events.
  cbn [calls requests flat_map call_of request_of app]. rewrite !app_nil_r.
  split; reflexivity.
Qed.

(** X25. A cap of at least one: a run of the unfollow workflow that
    fetched M entries the record file holds, was confirmed and pauses
    for a delay [time.sleep] takes calls [unfollow_user] for the first
    min(N, M) entries, in order, and for no others. *)
Theorem cap_processes_first fuel args w api my_fid w0 following w1 n :
  resolve_identity w = Some (Ok (api, my_fid), w0) ->
  py_truthy my_fid = true ->
  get_following_list fuel api my_fid (tick w0) = Some (Ok following, w1) ->
  says_yes (stdin w1) = true ->
  pause_ok (u_delay args) = true ->
  clock_is_text ->
  forallb writable_user following = true ->
  u_limit args = Some n ->
  1 <= n ->
  exists w',
    unfollow_main fuel args w = Some (Ok 0, w') /\
    calls Unfollow (trace w') =
      calls Unfollow (trace w1) ++
      map fid (firstn (Z.to_nat (Z.min n (Z.of_nat (List.length following)))) following).
Proof.
  intros Hid Htruthy Hfetch Hyes Hdelay Hclock Htext Hlimit Hn.
  rewrite (@unfollow_main_identified fuel args w api my_fid w0 Hid Htruthy).
  rewrite firstn_min by lia.
  destruct following as [|u rest].
  - exists w1. split; [apply unfollow_run_empty; exact Hfetch|].
    rewrite firstn_nil, app_nil_r. reflexivity.
  - destruct (@unfollow_run_outcome fuel args api my_fid w0 (u :: rest) w1 Hfetch
                ltac:(discriminate) Hyes Hdelay Hclock Htext)
      as (w' & Hrun & _ & _ & Hcalls & _).
    exists w'. split; [exact Hrun|]. rewrite Hcalls, Hlimit.
    unfold apply_limit, slice_to.
    replace (n =? 0) with false by (symmetry; apply Z.eqb_neq; lia).
    replace (0 <=? n) with true by (symmetry; apply Z.leb_le; lia).
    reflexivity.
Qed.

(** X24. The record and the answers of the calls: after a confirmed
    run of the unfollow workflow that started without its record file,
    over accounts the record file holds, and pauses for a delay
    [time.sleep] takes, the file holds one row for every processed
    account whose [unfollow_user] call returned [True] and for no other
    account, in the order of the calls; without such a call there is no
    file.  In a dry run every call returns [True]. *)
Theorem record_iff_success fuel args w api my_fid w0 following w1 :
  resolve_identity w = Some (Ok (api, my_fid), w0) ->
  py_truthy my_fid = true ->
  get_following_list fuel api my_fid (tick w0) = Some (Ok following, w1) ->
  following <> [] ->
  says_yes (stdin w1) = true ->
  pause_ok (u_delay args) = true ->
  clock_is_text ->
  forallb writable_user following = true ->
  let path := record_path my_fid (stamp (now (ticks w0))) in
  fs w1 path = None ->
  let users := apply_limit (u_limit args) following in
  let kept := answered true api (u_dry_run args) (sent w1) users in
  exists w',
    unfollow_main fuel args w = Some (Ok 0, w') /\
    fs w' path = appended None (stamped_rows (ticks w1) kept) /\
    (forall text, fs w' path = Some text ->
       Csv.reader text = Ok (fieldnames :: stamped_rows (ticks w1) kept)) /\
    (kept = [] -> fs w' path = None).
Proof.
  intros Hid Htruthy Hfetch Hne Hyes Hdelay Hclock Hheld path Hnew users kept.
  rewrite (@unfollow_main_identified fuel args w api my_fid w0 Hid Htruthy).
  destruct (@unfollow_run_outcome fuel args api my_fid w0 following w1 Hfetch Hne Hyes
              Hdelay Hclock Hheld)
    as (w' & Hrun & Hfile & _).
  fold path users kept in Hfile. rewrite Hnew in Hfile.
  assert (Hfit : forallb (forallb Csv.within_limit)
                   (fieldnames :: stamped_rows (ticks w1) kept) = true).
  { apply record_within_limit; [exact Hclock|].
    apply answered_forallb, apply_limit_forallb. exact Hheld. }
  exists w'. split; [exact Hrun|]. split; [exact Hfile|]. split.
  - intros text Htext. rewrite Hfile, appended_fresh in Htext.
    destruct (stamped_rows (ticks w1) kept) as [|r rows] eqn:Erows; [discriminate|].
    injection Htext as <-. exact (reader_writerows (fieldnames :: r :: rows) Hfit).
  - intros Hnone. rewrite Hfile, Hnone. reflexivity.
Qed.


(** ** The refollow workflow *)

(** What resolving the identity leaves of a trace. *)
Lemma identified_trace w r w0 :
  resolve_identity w = Some (r, w0) ->
  fs w0 = fs w /\ stdin w0 = stdin w /\
  prompts (trace w0) = prompts (trace w) /\
  (forall d, calls d (trace w0) = calls d (trace w)) /\
  requests POST (trace w0) = requests POST (trace w).
Proof.
  intros H. destruct (resolve_identity_quiet w H) as (Hfs & Hin & _ & evs & Htr & Hq).
  split; [exact Hfs|]. split; [exact Hin|]. rewrite Htr.
  split; [rewrite prompts_app, (quiet_prompts _ Hq), app_nil_r; reflexivity|].
  split; [intros d; rewrite calls_app, (quiet_calls d _ Hq), app_nil_r; reflexivity|].
  rewrite requests_app, (@quiet_requests POST evs ltac:(discriminate) Hq), app_nil_r.
  reflexivity.
Qed.

(** A refollow run that reached its loop, by what it leaves behind. *)
Lemma refollow_main_outcome args w api my_fid w0 name users rest :
  resolve_identity w = Some (Ok (api, my_fid), w0) ->
  py_truthy my_fid = true ->
  r_csv_file args = Some name ->
  loaded_from (fs w name) = Some users ->
  users <> [] ->
  apply_start_from (r_start_from args) users = Some rest ->
  says_yes (stdin w) = true ->
  pause_ok (r_delay args) = true ->
  exists w',
    refollow_main args w = Some (Ok 0, w') /\
    fs w' = fs w /\
    calls Follow (trace w') = calls Follow (trace w) ++ map row_target rest /\
    requests POST (trace w') =
      requests POST (trace w) ++
      (if r_dry_run args then [] else map (mutation_request Follow api) (map row_target rest)).
Proof.
  intros Hid Htruthy Hfile Hload Hne Hstart Hyes Hdelay.
  destruct (identified_trace _ Hid) as (Hfs & Hin & _ & Hcalls & Hposts).
  rewrite (@refollow_main_identified args w api my_fid w0 Hid Htruthy).
  rewrite <- Hfs in Hload. rewrite <- Hin in Hyes.
  rewrite (@refollow_run_loops args api my_fid w0 name users rest Hfile Hload Hne Hstart Hyes
             Hdelay).
  eexists. split; [reflexivity|]. cbn [fs trace].
  split; [exact Hfs|].
  change (trace w0 ++ ?e :: ?l) with (trace w0 ++ [e] ++ l).
  rewrite !calls_app, !requests_app, calls_loop_events.
  change POST with (verb Follow). rewrite requests_loop_events.
  change (verb Follow) with POST.
  cbn [calls requests flat_map call_of request_of app]. rewrite Hcalls, Hposts.
  split; reflexivity.
Qed.

(** C6. Offset resume: on a record file of N valid rows, with a start
    offset k, 0 < k < N, the question answered with yes and a delay
    [time.sleep] takes, the
    refollow workflow calls [follow_user] for the rows k+1 to N, in file
    order, and for no others, and leaves every file as it was. *)
Theorem offset_resume args w api my_fid w0 name users :
  resolve_identity w = Some (Ok (api, my_fid), w0) ->
  py_truthy my_fid = true ->
  r_csv_file args = Some name ->
  loaded_from (fs w name) = Some users ->
  0 < r_start_from args < Z.of_nat (List.length users) ->
  says_yes (stdin w) = true ->
  pause_ok (r_delay args) = true ->
  exists w',
    refollow_main args w = Some (Ok 0, w') /\
    calls Follow (trace w') =
      calls Follow (trace w) ++
      map row_target (skipn (Z.to_nat (r_start_from args)) users) /\
    fs w' = fs w.
Proof.
  intros Hid Htruthy Hfile Hload Hk Hyes Hdelay.
  assert (Hne : users <> []) by (destruct users; [cbn in Hk; lia|discriminate]).
  assert (Hstart : apply_start_from (r_start_from args) users =
                   Some (skipn (Z.to_nat (r_start_from args)) users)).
  { unfold apply_start_from, slice_from.
    replace (0 <? r_start_from args) with true by (symmetry; apply Z.ltb_lt; lia).
    replace (Z.of_nat (List.length users) <=? r_start_from args) with false
      by (symmetry; apply Z.leb_gt; lia).
    replace (0 <=? r_start_from args) with true by (symmetry; apply Z.leb_le; lia).
    reflexivity. }
  destruct (@refollow_main_outcome args w api my_fid w0 name users _ Hid Htruthy Hfile Hload
              Hne Hstart Hyes Hdelay)
    as (w' & Hrun & Hfs & Hcalls & _).
  exists w'. auto.
Qed.

(** A refollow run that stops before its loop, by what it leaves
    behind. *)
Lemma refollow_main_stops args w api my_fid w0 name :
  resolve_identity w = Some (Ok (api, my_fid), w0) ->
  py_truthy my_fid = true ->
  r_csv_file args = Some name ->
  match loaded_from (fs w name) with
  | None | Some [] => True
  | Some users => apply_start_from (r_start_from args) users = None
  end ->
  exists w',
    refollow_main args w = Some (Ok 1, w') /\
    prompts (trace w') = prompts (trace w) /\
    calls Follow (trace w') = calls Follow (trace w) /\
    requests POST (trace w') = requests POST (trace w).
Proof.
  intros Hid Htruthy Hfile Hstop.
  destruct (identified_trace _ Hid) as (Hfs & _ & Hprompts & Hcalls & Hposts).
  rewrite (@refollow_main_identified args w api my_fid w0 Hid Htruthy).
  rewrite <- Hfs in Hstop.
  rewrite (@refollow_run_stops args api my_fid w0 name Hfile Hstop).
  eexists. split; [reflexivity|]. cbn [tick trace]. auto.
Qed.

(** C10. Start-offset bounds: an offset at or past the number of rows
    loaded ends the run with exit code 1, with no question asked and no
    [follow_user] call made; an offset of zero or below leaves the
    loaded rows as they are, and the confirmed run, with a delay
    [time.sleep] takes, calls [follow_user] for every row. *)
Theorem start_offset_bounds args w api my_fid w0 name users :
  resolve_identity w = Some (Ok (api, my_fid), w0) ->
  py_truthy my_fid = true ->
  r_csv_file args = Some name ->
  loaded_from (fs w name) = Some users ->
  (Z.of_nat (List.length users) <= r_start_from args ->
   exists w',
     refollow_main args w = Some (Ok 1, w') /\
     prompts (trace w') = prompts (trace w) /\
     calls Follow (trace w') = calls Follow (trace w) /\
     requests POST (trace w') = requests POST (trace w)) /\
  (r_start_from args <= 0 ->
   apply_start_from (r_start_from args) users = Some users /\
   (says_yes (stdin w) = true ->
    pause_ok (r_delay args) = true ->
    exists code w',
      refollow_main args w = Some (Ok code, w') /\
      calls Follow (trace w') = calls Follow (trace w) ++ map row_target users)).
Proof.
  intros Hid Htruthy Hfile Hload. split.
  - intros Hpast. apply (@refollow_main_stops args w api my_fid w0 name Hid Htruthy Hfile).
    rewrite Hload. destruct users as [|u us]; [exact I|].
    unfold apply_start_from.
    replace (0 <? r_start_from args) with true
      by (symmetry; apply Z.ltb_lt; cbn [List.length] in Hpast; lia).
    replace (Z.of_nat (List.length (u :: us)) <=? r_start_from args) with true
      by (symmetry; apply Z.leb_le; exact Hpast).
    reflexivity.
  - intros Hlow.
    assert (Hstart : apply_start_from (r_start_from args) users = Some users).
    { unfold apply_start_from.
      replace (0 <? r_start_from args) with false by (symmetry; apply Z.ltb_ge; exact Hlow).
      reflexivity. }
    split; [exact Hstart|]. intros Hyes Hdelay.
    destruct users as [|u us].
    + destruct (@refollow_main_stops args w api my_fid w0 name Hid Htruthy Hfile)
        as (w' & Hrun & _ & Hcalls & _).
      { rewrite Hload. exact I. }
      exists 1, w'. split; [exact Hrun|]. rewrite Hcalls, app_nil_r. reflexivity.
    + destruct (@refollow_main_outcome args w api my_fid w0 name (u :: us) (u :: us)
                  Hid Htruthy Hfile Hload ltac:(discriminate) Hstart Hyes Hdelay)
        as (w' & Hrun & _ & Hcalls & _).
      exists 0, w'. split; [exact Hrun|exact Hcalls].
Qed.

(** C8. All-or-nothing load: when one row of the record file has an id
    field that [int] does not take, [load_users_from_csv] returns no
    list at all, and the refollow workflow ends with exit code 1 with no
    question asked and no [follow_user] call made. *)
Theorem malformed_row_fails_load args w api my_fid w0 name text rows row v e :
  fs w name = Some text ->
  DictReader text = Ok rows ->
  In row rows ->
  row_item row "fid" = Ok (Some v) ->
  py_int (Some v) = Raise e ->
  load_users_from_csv (Some name) my_fid w = Some (Ok None, w) /\
  (resolve_identity w = Some (Ok (api, my_fid), w0) ->
   py_truthy my_fid = true ->
   r_csv_file args = Some name ->
   exists w',
     refollow_main args w = Some (Ok 1, w') /\
     prompts (trace w') = prompts (trace w) /\
     calls Follow (trace w') = calls Follow (trace w) /\
     requests POST (trace w') = requests POST (trace w)).
Proof.
  intros Htext Hrows Hin Hfid Hbad.
  assert (Hrow : load_row row = Raise e).
  { unfold load_row. rewrite Hfid. cbn [rbind]. rewrite Hbad. reflexivity. }
  destruct (load_rows_fails _ _ Hin Hrow) as (e' & Hfail).
  assert (Hnone : loaded_from (fs w name) = None).
  { unfold loaded_from. rewrite Htext. destruct (utf8_valid text); [|reflexivity].
    rewrite Hrows. cbn [rbind]. rewrite Hfail. reflexivity. }
  split.
  - rewrite load_users_from_csv_named, Hnone. reflexivity.
  - intros Hid Htruthy Hfile.
    apply (@refollow_main_stops args w api my_fid w0 name Hid Htruthy Hfile). rewrite Hnone. exact I.
Qed.


(* ================================================================== *)
(** * More of the code *)

(** ** What a computation leaves alone *)

Section Frames.

Variable R : world -> world -> Prop.
Hypothesis R_refl : forall w, R w w.
Hypothesis R_trans : forall a b c, R a b -> R b c -> R a c.

Lemma respects_ret {A} (a : A) : respects R (ret a).
Proof. intros w r w' [= _ <-]. apply R_refl. Qed.

Lemma respects_raise {A} e : respects R (@raise A e).
Proof. intros w r w' [= _ <-]. apply R_refl. Qed.

Lemma respects_lift {A} (x : result A) : respects R (lift x).
Proof. intros w r w' [= _ <-]. apply R_refl. Qed.

Lemma respects_diverge {A} : respects R (@diverge A).
Proof. intros w r w' H. discriminate. Qed.

Lemma respects_bind {A B} (m : M A) (k : A -> M B) :
  respects R m -> (forall a, respects R (k a)) -> respects R (bind m k).
Proof.
  intros Hm Hk w r w' H. unfold bind in H.
  destruct (m w) as [[[a|e] w1]|] eqn:E; [| |discriminate].
  - eapply R_trans; [eapply Hm; exact E|eapply Hk; exact H].
  - injection H as <- <-. eapply Hm. exact E.
Qed.

Lemma respects_try_except {A} (body : M A) catches handler :
  respects R body -> (forall e, respects R (handler e)) ->
  respects R (try_except body catches handler).
Proof.
  intros Hb Hh w r w' H. unfold try_except in H.
  destruct (body w) as [[[a|e] w1]|] eqn:E; [| |discriminate].
  - injection H as <- <-. eapply Hb. exact E.
  - destruct (catches e).
    + eapply R_trans; [eapply Hb; exact E|eapply Hh; exact H].
    + injection H as <- <-. eapply Hb. exact E.
Qed.

End Frames.

Lemma respects_weaken (R1 R2 : world -> world -> Prop) {A} (m : M A) :
  (forall w w', R1 w w' -> R2 w w') -> respects R1 m -> respects R2 m.
Proof. intros Himp Hm w r w' H. apply Himp. eapply Hm. exact H. Qed.

Lemma grows_refl P w : grows P w w.
Proof. exists []. rewrite app_nil_r. split; reflexivity. Qed.

Lemma grows_trans P a b c : grows P a b -> grows P b c -> grows P a c.
Proof.
  intros (e1 & H1 & P1) (e2 & H2 & P2). exists (e1 ++ e2).
  rewrite H2, H1, <- app_assoc, forallb_app, P1, P2. split; reflexivity.
Qed.

Lemma reads_only_refl w : reads_only w w.
Proof. repeat split. apply grows_refl. Qed.

Lemma reads_only_trans a b c : reads_only a b -> reads_only b c -> reads_only a c.
Proof.
  intros (F1 & I1 & T1 & G1) (F2 & I2 & T2 & G2).
  repeat split; try congruence. eapply grows_trans; eassumption.
Qed.

(** One event added, nothing else touched. *)
Lemma grows_one P w e :
  P e = true ->
  grows P w (mkWorld (fs w) (stdin w) (sent w) (ticks w) (trace w ++ [e])).
Proof. intros H. exists [e]. cbn. rewrite H. split; reflexivity. Qed.

Lemma emit_reads_only e : quiet e = true -> respects reads_only (emit e).
Proof.
  intros H w r w' [= _ <-]. repeat split. apply grows_one. exact H.
Qed.

Lemma send_reads_only r : is_get r = true -> respects reads_only (send r).
Proof.
  intros H w x w' Hrun. unfold send in Hrun.
  assert (Hq : quiet (EvRequest r) = true) by exact H.
  destruct (server (sent w) r); injection Hrun as _ <-; repeat split;
    exists [EvRequest r]; (split; [reflexivity|]); cbn [forallb]; rewrite Hq; reflexivity.
Qed.

Lemma raise_for_status_respects R r :
  (forall w, R w w) -> respects R (raise_for_status r).
Proof.
  intros Hrefl. unfold raise_for_status.
  destruct ((400 <=? status_code r) && (status_code r <? 600));
    [apply (@respects_raise _ Hrefl)|apply (@respects_ret _ Hrefl)].
Qed.

Lemma response_json_respects R r :
  (forall w, R w w) -> respects R (response_json r).
Proof.
  intros Hrefl. unfold response_json.
  destruct (body r); [apply (@respects_ret _ Hrefl)|apply (@respects_raise _ Hrefl)].
Qed.

(** Taking a computation apart along its binds, handlers and case
    distinctions. *)
Ltac frame_using refl trans leaf :=
  repeat first
    [ leaf
    | apply (@respects_ret _ refl)
    | apply (@respects_raise _ refl)
    | apply (@respects_lift _ refl)
    | apply respects_diverge
    | apply (@raise_for_status_respects _ _ refl)
    | apply (@response_json_respects _ _ refl)
    | apply (@respects_bind _ trans); [|intros ?]
    | apply (@respects_try_except _ trans); [|intros ?]
    | match goal with
      | |- respects _ (if ?b then _ else _) => destruct b
      | |- respects _ (match ?x with _ => _ end) => destruct x
      end ].

Ltac frame_with refl trans := frame_using refl trans fail.

Ltac reads := frame_with reads_only_refl reads_only_trans.

Ltac reads_using leaf := frame_using reads_only_refl reads_only_trans leaf.

Lemma get_my_fid_reads_only api : respects reads_only (get_my_fid api).
Proof.
  unfold get_my_fid, logger_info. reads;
    try (apply send_reads_only; reflexivity);
    try (apply emit_reads_only; reflexivity).
Qed.

Lemma get_user_info_reads_only api fid : respects reads_only (get_user_info api fid).
Proof.
  unfold get_user_info, logger_info. reads;
    try (apply send_reads_only; reflexivity);
    try (apply emit_reads_only; reflexivity).
Qed.

Lemma following_pages_reads_only api fid fuel : forall cursor all_users count,
  respects reads_only (following_pages fuel api fid cursor all_users count).
Proof.
  induction fuel as [|fuel IH]; intros cursor all_users count.
  - apply respects_diverge.
  - cbn [following_pages]. unfold logger_info, sleep. reads;
      try (apply send_reads_only; reflexivity);
      try (apply emit_reads_only; reflexivity);
      try apply IH.
Qed.

Lemma get_following_list_reads_only fuel api fid :
  respects reads_only (get_following_list fuel api fid).
Proof.
  unfold get_following_list, logger_info. reads;
    try (apply emit_reads_only; reflexivity);
    apply following_pages_reads_only.
Qed.

(** ** The lookups of the client *)

(** What [get_my_fid] does when no JSON body comes back. *)
Lemma get_my_fid_unanswered api w :
  unanswered (server (sent w) (signer_request api)) = true ->
  get_my_fid api w =
    Some (Ok PNone, requested w (signer_request api) [EvLog LogMyFidError]).
Proof.
  intros Hun. unfold requested, get_my_fid, try_except, bind at 1, send.
  fold (signer_request api).
  destruct (server (sent w) (signer_request api)) as [r|];
    [|cbn; rewrite <- app_assoc; reflexivity].
  unfold unanswered, is_error in Hun. apply orb_true_iff in Hun.
  unfold bind at 1, raise_for_status.
  destruct ((400 <=? status_code r) && (status_code r <? 600)) eqn:Eerr.
  - cbn. rewrite <- app_assoc. reflexivity.
  - destruct Hun as [Hun|Hun]; [discriminate|].
    unfold ret at 1. unfold bind at 1, response_json.
    destruct (body r); [discriminate|].
    cbn. rewrite <- app_assoc. reflexivity.
Qed.

(** What [get_my_fid] makes of a JSON object. *)
Lemma get_my_fid_answered api w r d :
  server (sent w) (signer_request api) = Responds r ->
  is_error r = false ->
  body r = Some (PDict d) ->
  get_my_fid api w =
    Some (Ok (field_or d "fid" PNone), requested w (signer_request api) []).
Proof.
  intros Ho Herr Hbody. unfold requested, get_my_fid, try_except, bind at 1, send.
  fold (signer_request api). rewrite Ho.
  unfold is_error in Herr. unfold bind at 1, raise_for_status. rewrite Herr.
  unfold ret at 1. unfold bind at 1, response_json. rewrite Hbody.
  unfold ret at 1. unfold field_or. cbn [py_truthy].
  destruct d as [|kv d']; [reflexivity|].
  unfold bind, lift. cbn [py_in py_index].
  destruct (assoc "fid" (kv :: d')); reflexivity.
Qed.

(** X1. [get_my_fid] sends one GET.  When the request fails in
    transport, comes back with an error status or without a JSON body,
    it returns [None]; when it brings a JSON object, it returns the
    [fid] of the object, [None] without one; a JSON number other than
    zero is not caught: [TypeError]. *)
Theorem get_my_fid_contract api w :
  let o := server (sent w) (signer_request api) in
  (unanswered o = true ->
   get_my_fid api w =
     Some (Ok PNone, requested w (signer_request api) [EvLog LogMyFidError])) /\
  (forall r d, o = Responds r -> is_error r = false -> body r = Some (PDict d) ->
   get_my_fid api w =
     Some (Ok (field_or d "fid" PNone), requested w (signer_request api) [])) /\
  (forall r z, o = Responds r -> is_error r = false -> body r = Some (PInt z) -> z <> 0 ->
   get_my_fid api w = Some (Raise TypeError, requested w (signer_request api) [])).
Proof.
  intros o. subst o. split; [|split].
  - apply get_my_fid_unanswered.
  - intros r d. apply get_my_fid_answered.
  - intros r z Ho Herr Hbody Hz. unfold requested, get_my_fid, try_except, bind at 1, send.
    fold (signer_request api). rewrite Ho.
    unfold is_error in Herr. unfold bind at 1, raise_for_status. rewrite Herr.
    unfold ret at 1. unfold bind at 1, response_json. rewrite Hbody.
    unfold ret at 1. cbn [py_truthy].
    replace (z =? 0) with false by (symmetry; apply Z.eqb_neq; exact Hz).
    reflexivity.
Qed.

(** X2. [get_user_info] sends one GET.  When the request fails in
    transport, comes back with an error status or without a JSON body,
    it logs the error and returns [None]; when it brings a JSON object, it returns the
    [user] of the object, [None] without one; a JSON body that is a
    list is not caught: [AttributeError]. *)
Theorem get_user_info_contract api fid w :
  let o := server (sent w) (user_request api fid) in
  (unanswered o = true ->
   get_user_info api fid w =
     Some (Ok PNone, requested w (user_request api fid) [EvLog (LogUserInfoError fid)])) /\
  (forall r d, o = Responds r -> is_error r = false -> body r = Some (PDict d) ->
   get_user_info api fid w =
     Some (Ok (field_or d "user" PNone), requested w (user_request api fid) [])) /\
  (forall r l, o = Responds r -> is_error r = false -> body r = Some (PList l) ->
   get_user_info api fid w =
     Some (Raise AttributeError, requested w (user_request api fid) [])).
Proof.
  intros o. subst o. unfold requested. split; [|split].
  - intros Hun. unfold get_user_info, try_except, bind at 1, send.
    fold (user_request api fid).
    destruct (server (sent w) (user_request api fid)) as [r|];
      [|cbn; rewrite <- app_assoc; reflexivity].
    unfold unanswered, is_error in Hun. apply orb_true_iff in Hun.
    unfold bind at 1, raise_for_status.
    destruct ((400 <=? status_code r) && (status_code r <? 600)) eqn:Eerr.
    + cbn. rewrite <- app_assoc. reflexivity.
    + destruct Hun as [Hun|Hun]; [discriminate|].
      unfold ret at 1. unfold bind at 1, response_json.
      destruct (body r); [discriminate|].
      cbn. rewrite <- app_assoc. reflexivity.
  - intros r d Ho Herr Hbody. unfold get_user_info, try_except, bind at 1, send.
    fold (user_request api fid). rewrite Ho.
    unfold is_error in Herr. unfold bind at 1, raise_for_status. rewrite Herr.
    unfold ret at 1. unfold bind at 1, response_json. rewrite Hbody. reflexivity.
  - intros r l Ho Herr Hbody. unfold get_user_info, try_except, bind at 1, send.
    fold (user_request api fid). rewrite Ho.
    unfold is_error in Herr. unfold bind at 1, raise_for_status. rewrite Herr.
    unfold ret at 1. unfold bind at 1, response_json. rewrite Hbody. reflexivity.
Qed.

(** ** Starting up *)

Lemma FarcasterAPI_init_missing w :
  is_set "NEYNAR_API_KEY" && is_set "NEYNAR_SIGNER_UUID" = false ->
  FarcasterAPI_init w = Some (Raise ValueError, w).
Proof.
  unfold is_set, FarcasterAPI_init.
  destruct (getenv "NEYNAR_API_KEY") as [key|]; [|reflexivity].
  destruct (is_empty key); [reflexivity|].
  destruct (getenv "NEYNAR_SIGNER_UUID") as [signer|]; [|reflexivity].
  destruct (is_empty signer); [reflexivity|discriminate].
Qed.

(** X3. Without one of the two credentials no request is sent: the two
    workflows end in [UnboundLocalError], raised by their own handler,
    which names [logger] before [main] has bound it, and the connection
    test returns 1. *)
Theorem missing_credentials fuel uargs rargs w :
  is_set "NEYNAR_API_KEY" && is_set "NEYNAR_SIGNER_UUID" = false ->
  unfollow_main fuel uargs w = Some (Raise UnboundLocalError, w) /\
  refollow_main rargs w = Some (Raise UnboundLocalError, w) /\
  test_connection_main fuel w = Some (Ok 1, w).
Proof.
  intros Hmiss. pose proof (FarcasterAPI_init_missing w Hmiss) as Hinit.
  assert (Hres : resolve_identity w = Some (Raise UnboundLocalError, w)).
  { unfold resolve_identity, try_except, bind. rewrite Hinit. reflexivity. }
  split; [|split].
  - unfold unfollow_main, bind. rewrite Hres. reflexivity.
  - unfold refollow_main, bind. rewrite Hres. reflexivity.
  - unfold test_connection_main, try_except, bind. rewrite Hinit. reflexivity.
Qed.

(** X4. With the credentials set, a signer request that fails in
    transport, comes back with an error status or without a JSON body
    ends both workflows and the connection test with exit code 1 after
    that one request. *)
Theorem unresolved_identity fuel uargs rargs w api :
  FarcasterAPI_init w = Some (Ok api, w) ->
  unanswered (server (sent w) (signer_request api)) = true ->
  let w' := requested w (signer_request api) [EvLog LogMyFidError] in
  unfollow_main fuel uargs w = Some (Ok 1, w') /\
  refollow_main rargs w = Some (Ok 1, w') /\
  test_connection_main fuel w = Some (Ok 1, w').
Proof.
  intros Hinit Hun w'.
  pose proof (@get_my_fid_unanswered api w Hun) as Hnone. fold w' in Hnone.
  assert (Hres : resolve_identity w = Some (Ok (api, PNone), w')).
  { unfold resolve_identity, try_except.
    erewrite bind_ok by exact Hinit. erewrite bind_ok by exact Hnone. reflexivity. }
  split; [|split].
  - unfold unfollow_main. erewrite bind_ok by exact Hres. reflexivity.
  - unfold refollow_main. erewrite bind_ok by exact Hres. reflexivity.
  - unfold test_connection_main, try_except.
    erewrite bind_ok by exact Hinit. erewrite bind_ok by exact Hnone. reflexivity.
Qed.

(** ** Pages, further *)







(** X8. A fetch that ends in an exception ends the unfollow workflow
    with exit code 1: nothing is asked, no [unfollow_user] call is
    made, no DELETE is sent and the files of the model (the script's
    own log file is not among them) are as they were. *)
Theorem fetch_failure_is_fatal fuel args w api my_fid w0 e w1 :
  resolve_identity w = Some (Ok (api, my_fid), w0) ->
  py_truthy my_fid = true ->
  get_following_list fuel api my_fid (tick w0) = Some (Raise e, w1) ->
  unfollow_main fuel args w = Some (Ok 1, w1) /\
  fs w1 = fs w /\
  prompts (trace w1) = prompts (trace w) /\
  calls Unfollow (trace w1) = calls Unfollow (trace w) /\
  requests DELETE (trace w1) = requests DELETE (trace w).
Proof.
  intros Hid Htruthy Hfetch.
  rewrite (@unfollow_main_identified fuel args w api my_fid w0 Hid Htruthy).
  split.
  - unfold unfollow_run, try_except. unfold bind at 1, datetime_now. fold (tick w0).
    unfold bind. rewrite Hfetch. reflexivity.
  - destruct (resolve_identity_quiet w Hid) as (Hfs & _ & _ & ev0 & Htr0 & Hq0).
    destruct (@get_following_list_reads_only fuel api my_fid _ _ _ Hfetch)
      as (Hfs1 & _ & _ & ev1 & Htr1 & Hq1).
    cbn [tick fs trace] in Hfs1, Htr1.
    split; [congruence|]. rewrite Htr1, Htr0.
    rewrite !prompts_app, !calls_app, !requests_app.
    rewrite (quiet_prompts _ Hq0), (quiet_prompts _ Hq1).
    rewrite (quiet_calls Unfollow _ Hq0), (quiet_calls Unfollow _ Hq1).
    rewrite (@quiet_requests DELETE ev0 ltac:(discriminate) Hq0).
    rewrite (@quiet_requests DELETE ev1 ltac:(discriminate) Hq1).
    rewrite !app_nil_r. repeat split.
Qed.

(** ** The question at the terminal *)

(** The loop passes over lines that are no answer, asking again for
    each. *)
Lemma confirm_loop_junk p junk : forall fuel w tail,
  stdin w = junk ++ tail ->
  forallb undecided junk = true ->
  confirm_loop (List.length junk + fuel) p w =
  confirm_loop fuel p
    (mkWorld (fs w) tail (sent w) (ticks w)
       (trace w ++ repeat (EvInput p) (List.length junk))).
Proof.
  induction junk as [|line junk IH]; intros fuel w tail Hin Hjunk.
  - cbn [app] in Hin. cbn [List.length repeat plus]. rewrite app_nil_r.
    destruct w as [f i s t tr]. cbn in Hin |- *. subst i. reflexivity.
  - cbn [forallb] in Hjunk. apply andb_true_iff in Hjunk. destruct Hjunk as [Hline Hjunk].
    unfold undecided in Hline. apply andb_true_iff in Hline. destruct Hline as [Hy Hn].
    apply negb_true_iff in Hy. apply negb_true_iff in Hn. unfold is_yes in Hy. unfold is_no in Hn.
    cbn [app] in Hin. cbn [List.length plus confirm_loop].
    unfold bind at 1, input. rewrite Hin, Hy, Hn.
    rewrite (IH fuel _ tail); [|reflexivity|exact Hjunk].
    cbn [fs stdin sent ticks trace repeat]. rewrite <- app_assoc. reflexivity.
Qed.

(** X9. [confirm_action] is decided by the first line that is a yes or
    a no: the lines before it are read and passed over, one question
    asked for each, and the lines after it are left unread. *)
Theorem first_valid_answer_decides p w junk line rest :
  stdin w = junk ++ line :: rest ->
  forallb undecided junk = true ->
  undecided line = false ->
  confirm_action p w =
  Some (Ok (is_yes line),
        mkWorld (fs w) rest (sent w) (ticks w)
          (trace w ++ repeat (EvInput p) (S (List.length junk)))).
Proof.
  intros Hin Hjunk Hline. unfold confirm_action. rewrite Hin, length_app.
  cbn [List.length].
  replace (S (List.length junk + S (List.length rest)))
    with (List.length junk + S (S (List.length rest)))%nat by lia.
  rewrite (@confirm_loop_junk p junk (S (S (List.length rest))) w (line :: rest) Hin Hjunk).
  cbn [confirm_loop]. unfold bind, input. cbn [stdin fs sent ticks trace].
  fold (is_yes line). fold (is_no line).
  rewrite <- app_assoc, <- repeat_cons.
  unfold undecided in Hline.
  destruct (is_yes line); [reflexivity|].
  destruct (is_no line); [reflexivity|discriminate].
Qed.

(** X10. When no line at the terminal is a yes or a no,
    [confirm_action] reads them all, asks once more and ends in
    [EOFError]. *)
Theorem unanswered_question_raises p w :
  forallb undecided (stdin w) = true ->
  confirm_action p w =
  Some (Raise EOFError,
        mkWorld (fs w) [] (sent w) (ticks w)
          (trace w ++ repeat (EvInput p) (S (List.length (stdin w))))).
Proof.
  intros Hjunk. unfold confirm_action.
  replace (S (List.length (stdin w))) with (List.length (stdin w) + 1)%nat at 1 by lia.
  rewrite (@confirm_loop_junk p (stdin w) 1 w []); [|rewrite app_nil_r; reflexivity|exact Hjunk].
  cbn [confirm_loop]. unfold bind, input. cbn [stdin fs sent ticks trace].
  rewrite <- app_assoc, <- repeat_cons. reflexivity.
Qed.

(** What the loop answers, by the lines at the terminal. *)
Lemma confirm_loop_answer p : forall fuel w r w',
  confirm_loop fuel p w = Some (r, w') ->
  r = match first_answer (stdin w) with
      | Some b => Ok b
      | None => Raise EOFError
      end.
Proof.
  induction fuel as [|fuel IH]; intros w r w' Hrun; [discriminate|].
  cbn [confirm_loop] in Hrun. unfold bind, input in Hrun.
  destruct (stdin w) as [|line rest] eqn:Ein.
  - injection Hrun as <- _. reflexivity.
  - cbn [first_answer]. fold (is_yes line) in Hrun. fold (is_no line) in Hrun.
    destruct (is_yes line); [injection Hrun as <- _; reflexivity|].
    destruct (is_no line); [injection Hrun as <- _; reflexivity|].
    apply IH in Hrun. exact Hrun.
Qed.

(** ** What the scripts never do *)

Lemma bind_inv {A B} (m : M A) (k : A -> M B) w r w' :
  bind m k w = Some (r, w') ->
  (exists a w1, m w = Some (Ok a, w1) /\ k a w1 = Some (r, w')) \/
  (exists e, m w = Some (Raise e, w') /\ r = Raise e).
Proof.
  unfold bind. destruct (m w) as [[[a|e] w1]|]; [| |discriminate].
  - intros H. left. exists a, w1. split; [reflexivity|exact H].
  - intros [= <- <-]. right. exists e. split; reflexivity.
Qed.

(** Under a handler that catches everything and returns, the world left
    is the world the body left. *)
Lemma try_except_all_inv {A} (body : M A) (c : A) w r w' :
  try_except body (fun _ => true) (fun _ => ret c) w = Some (r, w') ->
  (exists a, body w = Some (Ok a, w') /\ r = Ok a) \/
  (exists e, body w = Some (Raise e, w') /\ r = Ok c).
Proof.
  unfold try_except. destruct (body w) as [[[a|e] w1]|]; [| |discriminate].
  - intros [= <- <-]. left. eexists. split; reflexivity.
  - intros [= <- <-]. right. eexists. split; reflexivity.
Qed.

Lemma grows_weaken (P Q : event -> bool) w w' :
  (forall e, P e = true -> Q e = true) -> grows P w w' -> grows Q w w'.
Proof.
  intros Himp (evs & Htr & HP). exists evs. split; [exact Htr|].
  rewrite forallb_forall in *. intros e He. apply Himp, HP, He.
Qed.

Lemma obeys_refl keep ok w : obeys keep ok w w.
Proof. split; [reflexivity|apply grows_refl]. Qed.

Lemma obeys_trans keep ok a b c : obeys keep ok a b -> obeys keep ok b c -> obeys keep ok a c.
Proof.
  intros (F1 & G1) (F2 & G2). split.
  - intros Hk. rewrite (F2 Hk). apply F1, Hk.
  - eapply grows_trans; eassumption.
Qed.

Lemma untouched_refl w : untouched w w.
Proof. split; [reflexivity|apply grows_refl]. Qed.

Lemma untouched_trans a b c : untouched a b -> untouched b c -> untouched a c.
Proof.
  intros (F1 & G1) (F2 & G2). split; [congruence|eapply grows_trans; eassumption].
Qed.

Lemma reads_only_obeys keep ok w w' :
  (forall r, is_get r = true -> ok r = true) -> reads_only w w' -> obeys keep ok w w'.
Proof.
  intros Hget (F & _ & _ & G). split; [intros _; exact F|].
  eapply grows_weaken; [|exact G].
  intros [r|l|p|s] He; try reflexivity. apply Hget. exact He.
Qed.

Lemma reads_only_untouched w w' : reads_only w w' -> untouched w w'.
Proof.
  intros (F & _ & _ & G). split; [exact F|].
  eapply grows_weaken; [|exact G]. intros [r|l|p|s] He; try reflexivity; exact He.
Qed.

Lemma allowed_get d dry r : is_get r = true -> allowed d dry r = true.
Proof. intros H. unfold allowed. rewrite H. reflexivity. Qed.

(** A step that leaves files and trace alone. *)
Lemma steady_obeys keep ok {A} (m : M A) :
  (forall w r w', m w = Some (r, w') -> fs w' = fs w /\ trace w' = trace w) ->
  respects (obeys keep ok) m.
Proof.
  intros H w r w' Hrun. destruct (H w r w' Hrun) as [F T]. split; [intros _; exact F|].
  exists []. rewrite app_nil_r. split; [exact T|reflexivity].
Qed.

Lemma emit_obeys keep ok e : policy ok e = true -> respects (obeys keep ok) (emit e).
Proof.
  intros H w r w' [= _ <-]. split; [reflexivity|]. apply grows_one. exact H.
Qed.

Lemma send_obeys keep ok r : ok r = true -> respects (obeys keep ok) (send r).
Proof.
  intros H w x w' Hrun. unfold send in Hrun.
  destruct (server (sent w) r); injection Hrun as _ <-; (split; [reflexivity|]);
    apply grows_one; exact H.
Qed.

Lemma input_obeys keep ok p : respects (obeys keep ok) (input p).
Proof.
  intros w x w' Hrun. unfold input in Hrun.
  destruct (stdin w); injection Hrun as _ <-; (split; [reflexivity|]);
    exists [EvInput p]; split; reflexivity.
Qed.

Lemma datetime_now_obeys keep ok : respects (obeys keep ok) datetime_now.
Proof. apply steady_obeys. intros w r w' [= _ <-]. split; reflexivity. Qed.

Lemma path_exists_obeys keep ok name : respects (obeys keep ok) (path_exists name).
Proof. apply steady_obeys. intros w r w' [= _ <-]. split; reflexivity. Qed.

Lemma append_file_obeys ok name text : respects (obeys false ok) (append_file name text).
Proof.
  intros w r w' Hrun. unfold append_file in Hrun.
  destruct (utf8_valid text); injection Hrun as _ <-; (split; [discriminate|]);
    exists []; cbn [trace]; rewrite app_nil_r; split; reflexivity.
Qed.

Lemma read_file_reads_only name : respects reads_only (read_file name).
Proof.
  intros w r w' Hrun. unfold read_file in Hrun.
  destruct (fs w name); injection Hrun as _ <-; apply reads_only_refl.
Qed.

Lemma current_fs_reads_only : respects reads_only current_fs.
Proof. intros w r w' [= _ <-]. apply reads_only_refl. Qed.

Lemma FarcasterAPI_init_reads_only : respects reads_only FarcasterAPI_init.
Proof. unfold FarcasterAPI_init. reads. Qed.

Lemma resolve_identity_reads_only : respects reads_only resolve_identity.
Proof.
  unfold resolve_identity.
  reads_using ltac:(first [apply FarcasterAPI_init_reads_only|apply get_my_fid_reads_only]).
Qed.

Lemma find_csv_file_reads_only : respects reads_only find_csv_file.
Proof.
  unfold find_csv_file.
  reads_using ltac:(first [apply FarcasterAPI_init_reads_only|apply get_my_fid_reads_only
                          |apply current_fs_reads_only]).
Qed.

(** Loading never writes, asks or mutates, with a file name or
    without. *)
Lemma load_users_from_csv_reads_only filename my_fid :
  respects reads_only (load_users_from_csv filename my_fid).
Proof.
  unfold load_users_from_csv.
  reads_using ltac:(first [apply find_csv_file_reads_only|apply read_file_reads_only]).
Qed.

Ltac obeying keep ok leaf := frame_using (@obeys_refl keep ok) (@obeys_trans keep ok) leaf.

Lemma mutate_obeys keep ok d api target dry :
  (dry = false -> ok (mutation_request d api target) = true) ->
  respects (obeys keep ok) (mutate d api target dry).
Proof.
  intros Hok. unfold mutate, already_check, logger_info. destruct dry.
  - obeying keep ok ltac:(apply emit_obeys; reflexivity).
  - obeying keep ok
      ltac:(first [apply emit_obeys; reflexivity|apply send_obeys; apply Hok; reflexivity]).
Qed.

Lemma mutation_allowed d api target dry :
  dry = false -> allowed d dry (mutation_request d api target) = true.
Proof. intros ->. destruct d; reflexivity. Qed.

Lemma confirm_loop_obeys keep ok p : forall fuel,
  respects (obeys keep ok) (confirm_loop fuel p).
Proof.
  induction fuel as [|fuel IH]; [apply respects_diverge|].
  cbn [confirm_loop]. obeying keep ok ltac:(first [apply input_obeys|apply IH]).
Qed.

Lemma confirm_action_obeys keep ok p : respects (obeys keep ok) (confirm_action p).
Proof.
  intros w r w' Hrun. unfold confirm_action in Hrun.
  eapply confirm_loop_obeys. exact Hrun.
Qed.

Lemma save_user_to_csv_obeys ok user my_fid timestamp name :
  respects (obeys false ok) (save_user_to_csv user my_fid timestamp name).
Proof.
  unfold save_user_to_csv.
  obeying false ok
    ltac:(first [apply path_exists_obeys|apply append_file_obeys|apply datetime_now_obeys]).
Qed.

Lemma unfollow_loop_obeys api args my_fid timestamp total users : forall i st,
  respects (obeys false (allowed Unfollow (u_dry_run args)))
    (unfollow_loop api args my_fid timestamp total i users st).
Proof.
  induction users as [|user rest IH]; intros i [[good bad] name].
  - apply (@respects_ret _ (@obeys_refl false _)).
  - cbn [unfollow_loop]. unfold sleep.
    obeying false (allowed Unfollow (u_dry_run args))
      ltac:(first [apply mutate_obeys; apply mutation_allowed
                  |apply save_user_to_csv_obeys
                  |apply emit_obeys; reflexivity
                  |apply IH]).
Qed.

Lemma refollow_loop_obeys api args total users : forall i st,
  respects (obeys true (allowed Follow (r_dry_run args)))
    (refollow_loop api args total i users st).
Proof.
  induction users as [|user rest IH]; intros i [good bad].
  - apply (@respects_ret _ (@obeys_refl true _)).
  - cbn [refollow_loop]. unfold sleep.
    obeying true (allowed Follow (r_dry_run args))
      ltac:(first [apply mutate_obeys; apply mutation_allowed
                  |apply emit_obeys; reflexivity
                  |apply IH]).
Qed.

Lemma unfollow_main_obeys fuel args :
  respects (obeys false (allowed Unfollow (u_dry_run args))) (unfollow_main fuel args).
Proof.
  unfold unfollow_main, unfollow_run.
  obeying false (allowed Unfollow (u_dry_run args))
    ltac:(first [ apply datetime_now_obeys
                | apply confirm_action_obeys
                | apply unfollow_loop_obeys
                | eapply respects_weaken;
                    [intros ? ?; apply reads_only_obeys; apply allowed_get|];
                    first [apply resolve_identity_reads_only
                          |apply get_following_list_reads_only] ]).
Qed.

Lemma refollow_main_obeys args :
  respects (obeys true (allowed Follow (r_dry_run args))) (refollow_main args).
Proof.
  unfold refollow_main, refollow_run.
  obeying true (allowed Follow (r_dry_run args))
    ltac:(first [ apply datetime_now_obeys
                | apply confirm_action_obeys
                | apply refollow_loop_obeys
                | eapply respects_weaken;
                    [intros ? ?; apply reads_only_obeys; apply allowed_get|];
                    first [apply resolve_identity_reads_only
                          |apply load_users_from_csv_reads_only] ]).
Qed.

(** Among allowed events there is no request with another verb. *)
Lemma requests_allowed d dry m evs :
  forallb (policy (allowed d dry)) evs = true ->
  m <> GET ->
  dry = true \/ m <> verb d ->
  requests m evs = [].
Proof.
  intros Hall Hm Hd. induction evs as [|e evs IH]; [reflexivity|].
  cbn [forallb] in Hall. apply andb_true_iff in Hall. destruct Hall as [He Hevs].
  unfold requests. cbn [flat_map]. fold (requests m evs). rewrite (IH Hevs), app_nil_r.
  destruct e as [r|l|p|s]; try reflexivity.
  revert He. unfold allowed, is_get. cbn [policy request_of].
  destruct (rq_method r), m, d, dry; cbn; intros He;
    try reflexivity; try discriminate He;
    try (exfalso; apply Hm; reflexivity);
    destruct Hd as [Hd|Hd]; try discriminate Hd; exfalso; apply Hd; reflexivity.
Qed.

(** X11. The unfollow script never sends a POST, whatever happens; in
    a dry run it sends no DELETE either. *)
Theorem unfollow_sends_no_follow fuel args w r w' :
  unfollow_main fuel args w = Some (r, w') ->
  exists evs,
    trace w' = trace w ++ evs /\
    requests POST evs = [] /\
    (u_dry_run args = true -> requests DELETE evs = []).
Proof.
  intros Hrun. destruct (@unfollow_main_obeys fuel args w r w' Hrun) as (_ & evs & Htr & Hall).
  exists evs. split; [exact Htr|]. split.
  - apply (@requests_allowed Unfollow (u_dry_run args) POST evs Hall); [discriminate|].
    right. discriminate.
  - intros Hdry.
    apply (@requests_allowed Unfollow (u_dry_run args) DELETE evs Hall); [discriminate|].
    left. exact Hdry.
Qed.

(** X12. The refollow script never changes a file of the model (its
    own log file is not among them) and never sends a DELETE, whatever
    happens; in a dry run it sends no POST either. *)
Theorem refollow_keeps_files args w r w' :
  refollow_main args w = Some (r, w') ->
  fs w' = fs w /\
  exists evs,
    trace w' = trace w ++ evs /\
    requests DELETE evs = [] /\
    (r_dry_run args = true -> requests POST evs = []).
Proof.
  intros Hrun. destruct (@refollow_main_obeys args w r w' Hrun) as (Hfs & evs & Htr & Hall).
  split; [apply Hfs; reflexivity|].
  exists evs. split; [exact Htr|]. split.
  - apply (@requests_allowed Follow (r_dry_run args) DELETE evs Hall); [discriminate|].
    right. discriminate.
  - intros Hdry.
    apply (@requests_allowed Follow (r_dry_run args) POST evs Hall); [discriminate|].
    left. exact Hdry.
Qed.

(** ** Runs that are not confirmed *)

Lemma idle_calls d evs : forallb idle evs = true -> calls d evs = [].
Proof.
  induction evs as [|e evs IH]; [reflexivity|].
  cbn [forallb]. intros H. apply andb_true_iff in H. destruct H as [He Hevs].
  unfold calls. cbn [flat_map]. fold (calls d evs). rewrite IH by exact Hevs.
  destruct e as [r|l|p|s]; try reflexivity.
  destruct l; try reflexivity; discriminate.
Qed.

Lemma idle_requests m evs :
  m <> GET -> forallb idle evs = true -> requests m evs = [].
Proof.
  intros Hm. induction evs as [|e evs IH]; [reflexivity|].
  cbn [forallb]. intros H. apply andb_true_iff in H. destruct H as [He Hevs].
  unfold requests. cbn [flat_map]. fold (requests m evs). rewrite IH by exact Hevs.
  destruct e as [r|l|p|s]; try reflexivity.
  cbn [idle quiet] in He. cbn [request_of].
  destruct (rq_method r), m; try reflexivity; try discriminate; congruence.
Qed.

Lemma confirm_loop_untouched p : forall fuel, respects untouched (confirm_loop fuel p).
Proof.
  induction fuel as [|fuel IH]; [apply respects_diverge|].
  cbn [confirm_loop].
  frame_using untouched_refl untouched_trans ltac:(apply IH).
  intros w x w' Hrun. unfold input in Hrun.
  destruct (stdin w); injection Hrun as _ <-; (split; [reflexivity|]);
    exists [EvInput p]; split; reflexivity.
Qed.

(** What the question leaves, and its answer by the lines there are. *)
Lemma confirm_action_unconfirmed p w r w' :
  confirms (stdin w) = false ->
  confirm_action p w = Some (r, w') ->
  untouched w w' /\ r <> Ok true.
Proof.
  intros Hc Hrun. unfold confirm_action in Hrun. split.
  - eapply confirm_loop_untouched. exact Hrun.
  - apply confirm_loop_answer in Hrun. subst r. unfold confirms in Hc.
    destruct (first_answer (stdin w)) as [[|]|]; discriminate.
Qed.

Lemma tick_untouched w : untouched w (tick w).
Proof. split; [reflexivity|]. exists []. cbn [tick trace]. rewrite app_nil_r. split; reflexivity. Qed.

Lemma unfollow_run_unconfirmed fuel args api my_fid w0 r w' :
  confirms (stdin w0) = false ->
  unfollow_run fuel args api my_fid w0 = Some (r, w') ->
  untouched w0 w'.
Proof.
  intros Hc Hrun. unfold unfollow_run in Hrun.
  assert (Hbody : exists x,
            bind datetime_now (fun dt =>
              bind (get_following_list fuel api my_fid) (fun following_users =>
                match following_users with
                | [] => ret 0
                | _ =>
                    bind (confirm_action
                            (AskUnfollow (u_dry_run args)
                               (List.length (apply_limit (u_limit args) following_users))))
                      (fun confirmed =>
                         if negb confirmed then ret 0
                         else
                           bind (unfollow_loop api args my_fid (stamp dt)
                                   (List.length (apply_limit (u_limit args) following_users)) 1
                                   (apply_limit (u_limit args) following_users) ([], [], None))
                                (fun _ => ret 0))
                end)) w0 = Some (x, w')).
  { apply try_except_all_inv in Hrun. destruct Hrun as [(a & H & _)|(e & H & _)];
      eexists; exact H. }
  clear Hrun. destruct Hbody as (x & Hbody).
  unfold bind at 1, datetime_now in Hbody. fold (tick w0) in Hbody.
  apply (untouched_trans (tick_untouched w0)).
  apply bind_inv in Hbody. destruct Hbody as [(l & w1 & Hfetch & Hrest)|(e & Hfetch & _)].
  - assert (Hread := @get_following_list_reads_only fuel api my_fid _ _ _ Hfetch).
    apply (untouched_trans (reads_only_untouched Hread)).
    destruct l as [|u l]; [injection Hrest as _ <-; apply untouched_refl|].
    assert (Hc1 : confirms (stdin w1) = false).
    { destruct Hread as (_ & Hin & _). rewrite Hin. exact Hc. }
    apply bind_inv in Hrest. destruct Hrest as [(b & w2 & Hask & Hrest)|(e & Hask & _)].
    + destruct (@confirm_action_unconfirmed _ _ _ _ Hc1 Hask) as (Hun & Hb).
      destruct b; [congruence|]. cbn [negb] in Hrest. injection Hrest as _ <-. exact Hun.
    + apply (@confirm_action_unconfirmed _ _ _ _ Hc1 Hask).
  - apply reads_only_untouched.
    apply (@get_following_list_reads_only fuel api my_fid _ _ _ Hfetch).
Qed.

Lemma refollow_run_unconfirmed args api my_fid w0 r w' :
  confirms (stdin w0) = false ->
  refollow_run args api my_fid w0 = Some (r, w') ->
  untouched w0 w'.
Proof.
  intros Hc Hrun. unfold refollow_run in Hrun.
  assert (Hbody : exists x,
            bind datetime_now (fun _ =>
              bind (load_users_from_csv (r_csv_file args) my_fid) (fun loaded =>
                match loaded with
                | None | Some [] => ret 1
                | Some users =>
                    match apply_start_from (r_start_from args) users with
                    | None => ret 1
                    | Some users =>
                        bind (confirm_action (AskRefollow (r_dry_run args) (List.length users)))
                          (fun confirmed =>
                             if negb confirmed then ret 0
                             else
                               bind (refollow_loop api args (List.length users) 1 users ([], []))
                                    (fun _ => ret 0))
                    end
                end)) w0 = Some (x, w')).
  { apply try_except_all_inv in Hrun. destruct Hrun as [(a & H & _)|(e & H & _)];
      eexists; exact H. }
  clear Hrun. destruct Hbody as (x & Hbody).
  unfold bind at 1, datetime_now in Hbody. fold (tick w0) in Hbody.
  apply (untouched_trans (tick_untouched w0)).
  apply bind_inv in Hbody. destruct Hbody as [(l & w1 & Hload & Hrest)|(e & Hload & _)].
  - assert (Hread := @load_users_from_csv_reads_only (r_csv_file args) my_fid _ _ _ Hload).
    apply (untouched_trans (reads_only_untouched Hread)).
    destruct l as [[|u l]|]; try (injection Hrest as _ <-; apply untouched_refl).
    destruct (apply_start_from (r_start_from args) (u :: l)) as [users|];
      [|injection Hrest as _ <-; apply untouched_refl].
    assert (Hc1 : confirms (stdin w1) = false).
    { destruct Hread as (_ & Hin & _). rewrite Hin. exact Hc. }
    apply bind_inv in Hrest. destruct Hrest as [(b & w2 & Hask & Hrest)|(e & Hask & _)].
    + destruct (@confirm_action_unconfirmed _ _ _ _ Hc1 Hask) as (Hun & Hb).
      destruct b; [congruence|]. cbn [negb] in Hrest. injection Hrest as _ <-. exact Hun.
    + apply (@confirm_action_unconfirmed _ _ _ _ Hc1 Hask).
  - apply reads_only_untouched.
    apply (@load_users_from_csv_reads_only (r_csv_file args) my_fid _ _ _ Hload).
Qed.

(** What an untouched world shows. *)
Lemma untouched_shows d m w w' :
  m <> GET ->
  untouched w w' ->
  fs w' = fs w /\
  exists evs, trace w' = trace w ++ evs /\ calls d evs = [] /\ requests m evs = [].
Proof.
  intros Hm (Hfs & evs & Htr & Hidle). split; [exact Hfs|]. exists evs.
  split; [exact Htr|]. split; [apply idle_calls; exact Hidle|].
  apply idle_requests; assumption.
Qed.

(** X13. Without a yes nobody is unfollowed: when the first line at
    the terminal that is a yes or a no is not a yes, or there is no such
    line, a run of the unfollow script, however it ends, calls
    [unfollow_user] for nobody, sends no DELETE and leaves the files of
    the model (its own log file is not among them) as they were. *)
Theorem no_unfollow_without_yes fuel args w r w' :
  confirms (stdin w) = false ->
  unfollow_main fuel args w = Some (r, w') ->
  fs w' = fs w /\
  exists evs,
    trace w' = trace w ++ evs /\ calls Unfollow evs = [] /\ requests DELETE evs = [].
Proof.
  intros Hc Hrun. apply untouched_shows; [discriminate|].
  unfold unfollow_main in Hrun.
  apply bind_inv in Hrun. destruct Hrun as [([api my_fid] & w0 & Hid & Hrest)|(e & Hid & _)].
  - assert (Hread := @resolve_identity_reads_only _ _ _ Hid).
    apply (untouched_trans (reads_only_untouched Hread)).
    destruct (py_truthy my_fid); cbn [negb] in Hrest.
    + apply (@unfollow_run_unconfirmed fuel args api my_fid w0 r w'); [|exact Hrest].
      destruct Hread as (_ & Hin & _). rewrite Hin. exact Hc.
    + injection Hrest as _ <-. apply untouched_refl.
  - apply reads_only_untouched. apply (@resolve_identity_reads_only _ _ _ Hid).
Qed.

(** X14. Without a yes nobody is followed: in the same case a run of
    the refollow script calls [follow_user] for nobody and sends no
    POST. *)
Theorem no_refollow_without_yes args w r w' :
  confirms (stdin w) = false ->
  refollow_main args w = Some (r, w') ->
  exists evs,
    trace w' = trace w ++ evs /\ calls Follow evs = [] /\ requests POST evs = [].
Proof.
  intros Hc Hrun. apply (@untouched_shows Follow POST w w'); [discriminate|].
  unfold refollow_main in Hrun.
  apply bind_inv in Hrun. destruct Hrun as [([api my_fid] & w0 & Hid & Hrest)|(e & Hid & _)].
  - assert (Hread := @resolve_identity_reads_only _ _ _ Hid).
    apply (untouched_trans (reads_only_untouched Hread)).
    destruct (py_truthy my_fid); cbn [negb] in Hrest.
    + apply (@refollow_run_unconfirmed args api my_fid w0 r w'); [|exact Hrest].
      destruct Hread as (_ & Hin & _). rewrite Hin. exact Hc.
    + injection Hrest as _ <-. apply untouched_refl.
  - apply reads_only_untouched. apply (@resolve_identity_reads_only _ _ _ Hid).
Qed.

(** ** test_connection.py *)

Lemma test_connection_main_reads_only fuel : respects reads_only (test_connection_main fuel).
Proof.
  unfold test_connection_main.
  reads_using ltac:(first [apply FarcasterAPI_init_reads_only|apply get_my_fid_reads_only
                          |apply get_following_list_reads_only]).
Qed.

(** X15. The connection test only reads: however it ends, it leaves
    files and terminal as they were, asks nothing, calls neither
    [follow_user] nor [unfollow_user], sends nothing but GET requests,
    and its exit code is 0 or 1. *)
Theorem connection_test_only_reads fuel w r w' :
  test_connection_main fuel w = Some (r, w') ->
  fs w' = fs w /\ stdin w' = stdin w /\
  (exists evs,
     trace w' = trace w ++ evs /\ prompts evs = [] /\
     (forall d, calls d evs = []) /\
     requests POST evs = [] /\ requests DELETE evs = []) /\
  (r = Ok 0 \/ r = Ok 1).
Proof.
  intros Hrun.
  destruct (@test_connection_main_reads_only fuel _ _ _ Hrun) as (Hfs & Hin & _ & evs & Htr & Hq).
  split; [exact Hfs|]. split; [exact Hin|]. split.
  - exists evs. split; [exact Htr|]. split; [apply quiet_prompts; exact Hq|].
    split; [intros d; apply quiet_calls; exact Hq|].
    split; apply quiet_requests; try exact Hq; discriminate.
  - unfold test_connection_main in Hrun. apply try_except_all_inv in Hrun.
    destruct Hrun as [(a & Hbody & ->)|(e & _ & ->)]; [|right; reflexivity].
    apply bind_inv in Hbody. destruct Hbody as [(api & w0 & _ & Hbody)|(e & _ & He)];
      [|discriminate].
    apply bind_inv in Hbody. destruct Hbody as [(my_fid & w1 & _ & Hbody)|(e & _ & He)];
      [|discriminate].
    destruct (py_truthy my_fid).
    + apply bind_inv in Hbody. destruct Hbody as [(u & w2 & _ & Hbody)|(e & _ & He)];
        [|discriminate].
      injection Hbody as <- _. left. reflexivity.
    + injection Hbody as <- _. right. reflexivity.
Qed.

(** X16. For the connection test a fetch that fails is a warning only:
    once the identity is resolved the exit code is 0, whatever
    [get_following_list] ends in. *)
Theorem failed_fetch_passes_the_test fuel w api my_fid w0 x w1 :
  FarcasterAPI_init w = Some (Ok api, w) ->
  get_my_fid api w = Some (Ok my_fid, w0) ->
  py_truthy my_fid = true ->
  get_following_list fuel api my_fid w0 = Some (x, w1) ->
  test_connection_main fuel w = Some (Ok 0, w1).
Proof.
  intros Hinit Hfid Htruthy Hfetch.
  unfold test_connection_main. apply try_except_ok.
  erewrite bind_ok by exact Hinit. cbv beta.
  erewrite bind_ok by exact Hfid. cbv beta. rewrite Htruthy.
  unfold bind at 1, try_except, bind at 1. rewrite Hfetch.
  destruct x; reflexivity.
Qed.

(** X17. An account that follows nobody: the unfollow script ends with
    exit code 0 right after the fetch, having asked nothing and read
    nothing from the terminal, and with the files of the model (its own
    log file is not among them) as they were. *)
Theorem nothing_to_unfollow fuel args w api my_fid w0 w1 :
  resolve_identity w = Some (Ok (api, my_fid), w0) ->
  py_truthy my_fid = true ->
  get_following_list fuel api my_fid (tick w0) = Some (Ok [], w1) ->
  unfollow_main fuel args w = Some (Ok 0, w1) /\
  fs w1 = fs w /\ stdin w1 = stdin w /\ prompts (trace w1) = prompts (trace w).
Proof.
  intros Hid Htruthy Hfetch.
  rewrite (@unfollow_main_identified fuel args w api my_fid w0 Hid Htruthy).
  split; [apply unfollow_run_empty; exact Hfetch|].
  destruct (@resolve_identity_reads_only _ _ _ Hid) as (Hfs0 & Hin0 & _ & ev0 & Htr0 & Hq0).
  destruct (@get_following_list_reads_only fuel api my_fid _ _ _ Hfetch)
    as (Hfs1 & Hin1 & _ & ev1 & Htr1 & Hq1).
  cbn [tick fs stdin trace] in Hfs1, Hin1, Htr1.
  split; [congruence|]. split; [congruence|].
  rewrite Htr1, Htr0, !prompts_app, (quiet_prompts _ Hq0), (quiet_prompts _ Hq1), !app_nil_r.
  reflexivity.
Qed.

(** ** Pauses *)

Lemma sleeps_app a b : sleeps (a ++ b) = sleeps a ++ sleeps b.
Proof. apply flat_map_app. Qed.

Lemma sleeps_mutate_events d api dry n t : sleeps (mutate_events d api dry n t) = [].
Proof. unfold mutate_events. destruct dry; reflexivity. Qed.

Lemma sleeps_loop_events d api dry delay total targets : forall i n,
  (i + List.length targets = S total)%nat ->
  sleeps (loop_events d api dry delay total i n targets) =
  repeat delay (List.length targets - 1).
Proof.
  induction targets as [|t rest IH]; intros i n Hi; [reflexivity|].
  cbn [loop_events]. rewrite !sleeps_app, sleeps_mutate_events. cbn [app].
  destruct rest as [|t2 rest'].
  - cbn [List.length] in Hi.
    replace (i <? total)%nat with false by (symmetry; apply Nat.ltb_ge; lia).
    reflexivity.
  - cbn [List.length] in Hi.
    replace (i <? total)%nat with true by (symmetry; apply Nat.ltb_lt; lia).
    rewrite IH by (cbn [List.length]; lia).
    cbn [List.length Nat.sub sleeps flat_map app]. rewrite Nat.sub_0_r. reflexivity.
Qed.

(** X18. With a delay [time.sleep] takes, both loops pause for the
    delay of the command line between two accounts and not after the
    last: over N accounts (for the unfollow loop: accounts the record
    file holds) they end with N - 1 pauses, each of that delay,
    whatever the calls answer. *)
Theorem pauses_between_accounts api :
  (forall args my_fid timestamp users w,
     pause_ok (u_delay args) = true ->
     clock_is_text ->
     forallb writable_user users = true ->
     exists st w' evs,
       unfollow_loop api args my_fid timestamp (List.length users) 1 users ([], [], None) w =
         Some (Ok st, w') /\
       trace w' = trace w ++ evs /\
       sleeps evs = repeat (seconds (u_delay args)) (List.length users - 1)) /\
  (forall args users w,
     pause_ok (r_delay args) = true ->
     exists st w' evs,
       refollow_loop api args (List.length users) 1 users ([], []) w = Some (Ok st, w') /\
       trace w' = trace w ++ evs /\
       sleeps evs = repeat (seconds (r_delay args)) (List.length users - 1)).
Proof.
  split.
  - intros args my_fid timestamp users w Hdelay Hclock Hheld.
    destruct (@unfollow_loop_run my_fid timestamp api args (List.length users) users 1%nat
                [] [] None w Hdelay Hclock Hheld (or_introl eq_refl))
      as (name' & w' & Hloop & _ & _ & _ & _ & _ & Htrace & _).
    eexists. exists w'. eexists. split; [exact Hloop|]. split; [exact Htrace|].
    rewrite sleeps_loop_events by (rewrite length_map; lia).
    rewrite length_map. reflexivity.
  - intros args users w Hdelay.
    destruct (refollow_loop_run api args (List.length users) users 1 ([], []) w Hdelay)
      as (st' & Hloop).
    eexists. eexists. eexists. split; [exact Hloop|]. cbn [trace]. split; [reflexivity|].
    rewrite sleeps_loop_events by (rewrite length_map; lia).
    rewrite length_map. reflexivity.
Qed.

(** ** Record files that cannot be used *)

Lemma stamped_rows_in u users : forall t,
  In u users ->
  exists t', In (record_row u (isoformat (now t'))) (stamped_rows t users).
Proof.
  induction users as [|a rest IH]; intros t Hin; [contradiction|].
  cbn [stamped_rows]. destruct Hin as [-> | Hin].
  - exists t. left. reflexivity.
  - destruct (IH (S t) Hin) as (t' & Ht'). exists t'. right. exact Ht'.
Qed.

(** The rows written for accounts of which one has no id do not load. *)
Lemma loaded_from_missing_id t users u :
  In u users ->
  fid u = PNone ->
  loaded_from (appended None (stamped_rows t users)) = None.
Proof.
  intros Hin Hfid. rewrite appended_fresh.
  destruct (@stamped_rows_in u users t Hin) as (t' & Hrow).
  destruct (stamped_rows t users) as [|r rows] eqn:Erows; [contradiction|].
  rewrite <- Erows in Hrow |- *. clear Erows r rows.
  unfold loaded_from.
  destruct (utf8_valid (writerows (fieldnames :: stamped_rows t users))); [|reflexivity].
  unfold DictReader, Csv.reader. rewrite records_of_writerows. cbn [rbind].
  destruct (forallb (forallb Csv.within_limit) (fieldnames :: stamped_rows t users));
    [|reflexivity].
  cbn [rbind]. rewrite stamped_rows_not_blank.
  destruct (@load_rows_fails (map (zip_row fieldnames) (stamped_rows t users))
              (zip_row fieldnames (record_row u (isoformat (now t')))) ValueError)
    as (e' & He').
  - apply in_map. exact Hrow.
  - unfold load_row, record_row, fieldnames. rewrite Hfid. reflexivity.
  - rewrite He'. reflexivity.
Qed.

(** X19. An account that came without an id spoils the record: when
    an unfollow run in which every call succeeds, with a delay
    [time.sleep] takes and over accounts the record file holds, has
    among its accounts one whose [fid] is [None], the record file it
    writes cannot be loaded, and a later refollow run on it ends with
    exit code 1, having asked nothing and having called [follow_user]
    for nobody. *)
Theorem missing_id_spoils_the_record fuel uargs rargs w api my_fid w0 accounts w1 u :
  resolve_identity w = Some (Ok (api, my_fid), w0) ->
  py_truthy my_fid = true ->
  get_following_list fuel api my_fid (tick w0) = Some (Ok accounts, w1) ->
  In u accounts ->
  fid u = PNone ->
  u_dry_run uargs = false ->
  u_limit uargs = None ->
  pause_ok (u_delay uargs) = true ->
  clock_is_text ->
  forallb writable_user accounts = true ->
  says_yes (stdin w1) = true ->
  let path := record_path my_fid (stamp (now (ticks w0))) in
  fs w1 path = None ->
  (forall n t, accepted Unfollow (server n (mutation_request Unfollow api t)) = true) ->
  r_csv_file rargs = Some path ->
  exists wu,
    unfollow_main fuel uargs w = Some (Ok 0, wu) /\
    calls Unfollow (trace wu) = calls Unfollow (trace w1) ++ map fid accounts /\
    forall w2 api2 my_fid2 w3,
      fs w2 = fs wu ->
      resolve_identity w2 = Some (Ok (api2, my_fid2), w3) ->
      py_truthy my_fid2 = true ->
      exists wr,
        refollow_main rargs w2 = Some (Ok 1, wr) /\
        prompts (trace wr) = prompts (trace w2) /\
        calls Follow (trace wr) = calls Follow (trace w2).
Proof.
  intros Hid Htruthy Hfetch Hin Hfid Hdry Hlimit Hdelay Hclock Hheld Hyes path Hnew Hall Hfile.
  rewrite (@unfollow_main_identified fuel uargs w api my_fid w0 Hid Htruthy).
  assert (Hne : accounts <> []) by (destruct accounts; [contradiction|discriminate]).
  destruct (@unfollow_run_outcome fuel uargs api my_fid w0 accounts w1 Hfetch Hne Hyes
              Hdelay Hclock Hheld)
    as (wu & Hrun & Hwritten & _ & Hcalls & _).
  rewrite Hlimit in Hwritten, Hcalls. cbn [apply_limit] in Hwritten, Hcalls.
  fold path in Hwritten. rewrite Hnew, Hdry in Hwritten.
  destruct (@answered_all api false accounts (sent w1)) as [Hkept _].
  { intros m t. unfold verdict. cbn [orb]. apply Hall. }
  rewrite Hkept in Hwritten.
  exists wu. split; [exact Hrun|]. split; [exact Hcalls|].
  intros w2 api2 my_fid2 w3 Hfs Hid2 Htruthy2.
  destruct (@refollow_main_stops rargs w2 api2 my_fid2 w3 path Hid2 Htruthy2 Hfile)
    as (wr & Hrun2 & Hprompts & Hcalls2 & _).
  { rewrite Hfs, Hwritten, (@loaded_from_missing_id (ticks w1) accounts u Hin Hfid). exact I. }
  exists wr. split; [exact Hrun2|]. split; [exact Hprompts|exact Hcalls2].
Qed.

(** X20. Nothing to refollow: when the record file named on the
    command line does not exist, is empty or holds the header line
    only, the refollow script ends with exit code 1, having asked
    nothing and having called [follow_user] for nobody. *)
Theorem nothing_to_refollow args w api my_fid w0 name :
  resolve_identity w = Some (Ok (api, my_fid), w0) ->
  py_truthy my_fid = true ->
  r_csv_file args = Some name ->
  fs w name = None \/ fs w name = Some EmptyString \/
  fs w name = Some (Csv.writerow fieldnames) ->
  exists w',
    refollow_main args w = Some (Ok 1, w') /\
    prompts (trace w') = prompts (trace w) /\
    calls Follow (trace w') = calls Follow (trace w) /\
    requests POST (trace w') = requests POST (trace w).
Proof.
  intros Hid Htruthy Hfile Hcases.
  apply (@refollow_main_stops args w api my_fid w0 name Hid Htruthy Hfile).
  destruct Hcases as [-> | [-> | ->]]; vm_compute; exact I.
Qed.

(** X21. Without a file name [load_users_from_csv] asks the service
    for the identity once more and loads the newest record file of that
    identity, not of the [my_fid] it was given: it returns what that file
    gives, and nothing when no file matches or the identity does not
    come. *)
Theorem newest_record_of_own_identity api my_fid w :
  FarcasterAPI_init w = Some (Ok api, w) ->
  let o := server (sent w) (signer_request api) in
  (forall r d found,
     o = Responds r -> is_error r = false -> body r = Some (PDict d) ->
     assoc "fid" d = Some found -> py_truthy found = true ->
     load_users_from_csv None my_fid w =
     Some (Ok (match newest_match (fs w)
                       ("data/unfollowed_users_" ++ py_str found ++ "_*.csv")%string with
               | Some name => loaded_from (fs w name)
               | None => None
               end),
           requested w (signer_request api) [])) /\
  (unanswered o = true ->
   load_users_from_csv None my_fid w =
   Some (Ok None, requested w (signer_request api) [EvLog LogMyFidError])).
Proof.
  intros Hinit o. subst o.
  split.
  - intros r d found Ho Herr Hbody Hfid Htruthy.
    pose proof (@get_my_fid_answered api w r d Ho Herr Hbody) as Hsome.
    unfold field_or in Hsome. rewrite Hfid in Hsome.
    unfold load_users_from_csv, find_csv_file, try_except.
    unfold bind at 1. unfold bind at 1. rewrite Hinit.
    unfold bind at 1. rewrite Hsome, Htruthy. cbn [negb].
    unfold bind at 1, current_fs, ret, requested. cbn [fs].
    destruct (newest_match (fs w) _) as [name|]; [|reflexivity].
    unfold bind at 1, read_file. cbn [fs]. unfold loaded_from.
    destruct (fs w name) as [text|]; [|reflexivity].
    destruct (utf8_valid text); [|reflexivity].
    unfold bind, lift. destruct (DictReader text) as [rows|e]; [|reflexivity].
    cbn [rbind]. destruct (load_rows rows); reflexivity.
  - intros Hun. pose proof (@get_my_fid_unanswered api w Hun) as Hnone.
    unfold load_users_from_csv, find_csv_file, try_except.
    unfold bind at 1. unfold bind at 1. rewrite Hinit.
    unfold bind at 1. rewrite Hnone. reflexivity.
Qed.

(** X22. A negative cap cuts from the end: with a cap of -k, k > 0, a
    confirmed run of the unfollow script, with a delay [time.sleep]
    takes and over entries the record file holds, calls [unfollow_user]
    for all fetched entries but the last k, in order, and for nobody
    when there are no more than k. *)
Theorem negative_cap_drops_the_last fuel args w api my_fid w0 following w1 n :
  resolve_identity w = Some (Ok (api, my_fid), w0) ->
  py_truthy my_fid = true ->
  get_following_list fuel api my_fid (tick w0) = Some (Ok following, w1) ->
  following <> [] ->
  says_yes (stdin w1) = true ->
  pause_ok (u_delay args) = true ->
  clock_is_text ->
  forallb writable_user following = true ->
  u_limit args = Some n ->
  n < 0 ->
  exists w',
    unfollow_main fuel args w = Some (Ok 0, w') /\
    calls Unfollow (trace w') =
      calls Unfollow (trace w1) ++
      map fid (firstn (List.length following - Z.to_nat (- n)) following).
Proof.
  intros Hid Htruthy Hfetch Hne Hyes Hdelay Hclock Hheld Hlimit Hn.
  rewrite (@unfollow_main_identified fuel args w api my_fid w0 Hid Htruthy).
  destruct (@unfollow_run_outcome fuel args api my_fid w0 following w1 Hfetch Hne Hyes
              Hdelay Hclock Hheld)
    as (w' & Hrun & _ & _ & Hcalls & _).
  exists w'. split; [exact Hrun|]. rewrite Hcalls, Hlimit.
  unfold apply_limit, slice_to.
  replace (n =? 0) with false by (symmetry; apply Z.eqb_neq; lia).
  replace (0 <=? n) with false by (symmetry; apply Z.leb_gt; lia).
  reflexivity.
Qed.

(** ** Entries that are not as expected *)

Lemma extract_users_prefix good : forall tail all_users,
  forallb entry_ok good = true ->
  extract_users (good ++ tail) all_users =
  extract_users tail
    (all_users ++
     flat_map (fun item => match embedded_user item with Some u => [u] | None => [] end) good).
Proof.
  induction good as [|item good IH]; intros tail all_users Hok.
  - cbn. rewrite app_nil_r. reflexivity.
  - cbn [forallb] in Hok. apply andb_true_iff in Hok. destruct Hok as [Hitem Hrest].
    cbn [app extract_users flat_map].
    destruct item as [| | | | |d]; try discriminate.
    cbn [entry_ok] in Hitem. cbn [py_in rbind embedded_user py_index].
    destruct (assoc "user" d) as [[| | | | |u]|]; try discriminate.
    + cbn [rbind extract_user py_get]. rewrite IH by exact Hrest.
      rewrite <- app_assoc. reflexivity.
    + cbn [app]. apply IH. exact Hrest.
Qed.

Lemma following_pages_malformed api fid fuel cursor all_users count w d good e v rest :
  (forall r, server (sent w) r = Responds (mkResponse 200 (Some (PDict d)))) ->
  assoc "users" d = Some (PList (good ++ PDict e :: rest)) ->
  forallb entry_ok good = true ->
  assoc "user" e = Some v ->
  is_object v = false ->
  following_pages (S fuel) api fid cursor all_users count w =
  Some (Raise AttributeError,
        mkWorld (fs w) (stdin w) (S (sent w)) (ticks w)
          (trace w ++ [EvRequest (page_request api fid cursor)])).
Proof.
  intros Hserve Husers Hgood Huser Hv.
  cbn [following_pages]. fold (page_request api fid cursor).
  rewrite (bind_send _ _ (Hserve _)). cbv beta.
  rewrite bind_raise_for_status_ok by reflexivity.
  rewrite (@bind_response_json _ _ (PDict d)) by reflexivity.
  cbn [py_get]. rewrite Husers. mstep. cbn [py_iter]. mstep.
  rewrite extract_users_prefix by exact Hgood.
  cbn [extract_users py_in rbind py_index]. rewrite Huser. cbn [rbind].
  destruct v; try discriminate; reflexivity.
Qed.

(** X23. An entry whose [user] is there but is no object ends the
    fetch in an [AttributeError]: it is not among the exceptions
    [get_following_list] logs, no list is returned, and the users before
    it are lost. *)
Theorem malformed_entry_aborts_the_fetch api fid w d good e v rest fuel :
  (forall r, server (sent w) r = Responds (mkResponse 200 (Some (PDict d)))) ->
  assoc "users" d = Some (PList (good ++ PDict e :: rest)) ->
  forallb entry_ok good = true ->
  assoc "user" e = Some v ->
  is_object v = false ->
  get_following_list (S fuel) api fid w =
  Some (Raise AttributeError,
        mkWorld (fs w) (stdin w) (S (sent w)) (ticks w)
          (trace w ++ [EvLog (LogFetching fid); EvRequest (page_request api fid PNone)])).
Proof.
  intros Hserve Husers Hgood Huser Hv.
  unfold get_following_list, try_except, bind at 1, logger_info at 1, emit.
  rewrite (@following_pages_malformed api fid fuel PNone [] 0%nat
             (mkWorld (fs w) (stdin w) (sent w) (ticks w)
                (trace w ++ [EvLog (LogFetching fid)]))
             d good e v rest Hserve Husers Hgood Huser Hv).
  cbn [is_RequestException fs stdin sent ticks trace]. rewrite <- app_assoc. reflexivity.
Qed.

(** ** A delay [time.sleep] refuses *)







(** ** A row the file does not take *)

(** X27. A row that cannot be written ends in [NameError]: when the
    row of the account has no encoding (a surrogate in a name),
    [save_user_to_csv] does not return [None], for its handler names
    [logger], which the module does not bind.  The record file keeps
    what it held; a new one is left with the header alone. *)
Theorem unwritable_row_raises user my_fid timestamp w :
  utf8_valid (Csv.writerow (record_row user (isoformat (now (ticks w))))) = false ->
  let path := record_path my_fid timestamp in
  exists w',
    save_user_to_csv user my_fid timestamp None w = Some (Raise NameError, w') /\
    fs w' path = Some (match fs w path with
                       | Some text => text
                       | None => Csv.writerow fieldnames
                       end) /\
    trace w' = trace w.
Proof.
  intros Hrow path.
  assert (Hhead : utf8_valid (Csv.writerow fieldnames) = true) by reflexivity.
  unfold save_user_to_csv, try_except, bind, path_exists, datetime_now, append_file, ret, raise.
  fold path.
  destruct (fs w path) as [old|] eqn:Eold; cbn [negb fs stdin sent ticks trace];
    rewrite ?Hhead; cbn [fs stdin sent ticks trace]; rewrite Hrow;
    eexists; (split; [reflexivity|]); cbn [fs trace]; unfold write_file;
    rewrite ?String.eqb_refl, ?Eold; split; reflexivity.
Qed.

End Program.

(* ================================================================== *)
(** * A worked scenario

    One account, its credentials set, following two accounts that the
    service lists on one page (with one entry that embeds no user); the
    service accepts every mutation. *)

Definition repr (v : pyval) : string := "<object>".

Definition env (key : string) : option string := Some "k".

Definition clock (n : nat) : datetime :=
  mkDatetime "20250101_120000"
    ("2025-01-01T12:00:0" ++ str_of_int (Z.of_nat (n mod 10)%nat)).

Definition newest (files : filesystem) (pattern : string) : option string := None.

(** Text beyond the ASCII range is left as it is, and is no number. *)
Definition folded (line : string) : string := line.

Definition counted (text : string) : result Z := Raise ValueError.

Lemma clock_gives_text : clock_is_text clock.
Proof.
  intros t. unfold clock. cbn [isoformat].
  pose proof (Nat.mod_upper_bound t 10 ltac:(discriminate)) as Hlt.
  revert Hlt. generalize (t mod 10)%nat. intros m Hlt.
  do 10 (destruct m as [|m]; [reflexivity|]). lia.
Qed.

Definition entry (id : Z) (handle : string) : pyval :=
  PDict [("object", PStr "follow");
         ("user", PDict [("fid", PInt id); ("username", PStr handle);
                         ("display_name", PStr ("The " ++ handle))])].

Definition page : pyval :=
  PDict [("users", PList [entry 11 "ada"; PDict [("object", PStr "follow")];
                          entry 12 "bob, jr"])].

Definition service (n : nat) (r : request) : http_outcome :=
  match rq_method r with
  | GET =>
      if contains "/signer/" (rq_url r)
      then Responds (mkResponse 200 (Some (PDict [("fid", PInt 7)])))
      else Responds (mkResponse 200 (Some page))
  | _ => Responds (mkResponse 200 (Some (PDict [("success", PBool true)])))
  end.

Definition api0 : FarcasterAPI :=
  mkAPI "k" "k" "https://api.neynar.com/v2/farcaster"
    [("accept", "application/json"); ("content-type", "application/json"); ("api_key", "k")].

Definition ada : followed :=
  mkFollowed (PInt 11) (PStr "ada") (PStr "The ada") (PStr EmptyString) (PStr EmptyString).

Definition bob : followed :=
  mkFollowed (PInt 12) (PStr "bob, jr") (PStr "The bob, jr") (PStr EmptyString)
    (PStr EmptyString).

Definition start : world := mkWorld (fun _ => None) ["y"] 0 0 [].

(** The world a computation leaves. *)
Definition after {A} (run : option (result A * world)) (w : world) : world :=
  match run with
  | Some (_, w') => w'
  | None => w
  end.

Definition identified : world := after (resolve_identity env service start) start.

Definition fetched : world :=
  after (get_following_list service 3 api0 (PInt 7) (tick identified)) identified.

Definition record_file : string := record_path repr (PInt 7) "20250101_120000".

(** A record file of three rows. *)
Definition three_rows : string :=
  writerows [fieldnames; ["21"; "cy"; "Cy"; "t1"]; ["22"; "di"; "Di"; "t2"];
             ["23"; "ed"; "Ed"; "t3"]].

Definition cy : unfollowed := mkUnfollowed 21 (Some "cy") (Some "Cy") (Some "t1").
Definition di : unfollowed := mkUnfollowed 22 (Some "di") (Some "Di") (Some "t2").
Definition ed : unfollowed := mkUnfollowed 23 (Some "ed") (Some "Ed") (Some "t3").

Definition with_file (name text : string) : world :=
  mkWorld (write_file (fun _ => None) name text) ["yes"] 0 0 [].


Lemma record_iff_success_witness :
  exists w' text,
    unfollow_main repr env service clock folded 3 (mkUnfollowArgs false (Finite 1) None) start =
      Some (Ok 0, w') /\
    fs w' record_file = Some text /\
    Csv.reader text =
      Ok [fieldnames;
          ["11"; "ada"; "The ada"; "2025-01-01T12:00:01"];
          ["12"; "bob, jr"; "The bob, jr"; "2025-01-01T12:00:02"]].
Proof.
  destruct (@record_iff_success repr env service clock folded 3 (mkUnfollowArgs false (Finite 1) None)
              start api0 (PInt 7) identified [ada; bob] fetched)
    as (w' & Hrun & Hfile & Hread & _).
  - reflexivity.
  - reflexivity.
  - reflexivity.
  - discriminate.
  - reflexivity.
  - reflexivity.
  - exact clock_gives_text.
  - reflexivity.
  - reflexivity.
  - exists w'. eexists. split; [exact Hrun|]. split; [exact Hfile|].
    apply Hread. exact Hfile.
Defined.

(** C2. Where the code departs from it: a dry run, which sends no
    DELETE and is announced as making no change, leaves a record file
    with a row for each account. *)
Lemma dry_run_leaves_records :
  exists w' text,
    unfollow_main repr env service clock folded 3 (mkUnfollowArgs true (Finite 1) None) start =
      Some (Ok 0, w') /\
    requests DELETE (trace w') = [] /\
    fs w' record_file = Some text /\
    Csv.reader text =
      Ok [fieldnames;
          ["11"; "ada"; "The ada"; "2025-01-01T12:00:01"];
          ["12"; "bob, jr"; "The bob, jr"; "2025-01-01T12:00:02"]].
Proof.
  exists (after (unfollow_main repr env service clock folded 3 (mkUnfollowArgs true (Finite 1) None) start)
            start).
  exists (writerows [fieldnames;
                     ["11"; "ada"; "The ada"; "2025-01-01T12:00:01"];
                     ["12"; "bob, jr"; "The bob, jr"; "2025-01-01T12:00:02"]]).
  split; [vm_compute; reflexivity|].
  split; [vm_compute; reflexivity|].
  split; vm_compute; reflexivity.
Qed.








Definition refusing (n : nat) (r : request) : http_outcome :=
  Responds (mkResponse 409 (Some (PDict [("message", PStr "You are NOT following this user")]))).



Lemma offset_resume_witness :
  exists w',
    refollow_main repr env service clock newest folded counted
      (mkRefollowArgs (Some "rows.csv") true (Finite 1) 1) (with_file "rows.csv" three_rows) =
      Some (Ok 0, w') /\
    calls Follow (trace w') = [PInt 22; PInt 23].
Proof.
  destruct (@offset_resume repr env service clock newest folded counted
              (mkRefollowArgs (Some "rows.csv") true (Finite 1) 1) (with_file "rows.csv" three_rows)
              api0 (PInt 7)
              (after (resolve_identity env service (with_file "rows.csv" three_rows)) start)
              "rows.csv" [cy; di; ed])
    as (w' & Hrun & Hcalls & _).
  - reflexivity.
  - reflexivity.
  - reflexivity.
  - vm_compute. reflexivity.
  - cbn. lia.
  - reflexivity.
  - reflexivity.
  - exists w'. split; [exact Hrun|exact Hcalls].
Defined.

(** A record file whose second row has a broken id. *)
Definition broken_rows : string :=
  writerows [fieldnames; ["21"; "cy"; "Cy"; "t1"]; ["2x"; "di"; "Di"; "t2"]].

Lemma malformed_row_fails_load_witness :
  load_users_from_csv repr env service newest counted (Some "rows.csv") (PInt 7)
    (with_file "rows.csv" broken_rows) =
    Some (Ok None, with_file "rows.csv" broken_rows) /\
  exists w',
    refollow_main repr env service clock newest folded counted
      (mkRefollowArgs (Some "rows.csv") false (Finite 1) 0) (with_file "rows.csv" broken_rows) =
      Some (Ok 1, w') /\
    calls Follow (trace w') = [].
Proof.
  destruct (@malformed_row_fails_load repr env service clock newest folded counted
              (mkRefollowArgs (Some "rows.csv") false (Finite 1) 0) (with_file "rows.csv" broken_rows)
              api0 (PInt 7)
              (after (resolve_identity env service (with_file "rows.csv" broken_rows)) start)
              "rows.csv" broken_rows
              (map (zip_row fieldnames) [["21"; "cy"; "Cy"; "t1"]; ["2x"; "di"; "Di"; "t2"]])
              (zip_row fieldnames ["2x"; "di"; "Di"; "t2"]) "2x" ValueError)
    as (Hload & Hmain).
  - reflexivity.
  - vm_compute. reflexivity.
  - right. left. reflexivity.
  - reflexivity.
  - reflexivity.
  - split; [exact Hload|].
    destruct (Hmain eq_refl eq_refl eq_refl) as (w' & Hrun & _ & Hcalls & _).
    exists w'. split; [exact Hrun|exact Hcalls].
Defined.

Lemma cap_processes_first_witness :
  exists w',
    unfollow_main repr env service clock folded 3 (mkUnfollowArgs false (Finite 1) (Some 1)) start =
      Some (Ok 0, w') /\
    calls Unfollow (trace w') = [PInt 11].
Proof.
  destruct (@cap_processes_first repr env service clock folded 3 (mkUnfollowArgs false (Finite 1) (Some 1))
              start api0 (PInt 7) identified [ada; bob] fetched 1)
    as (w' & Hrun & Hcalls).
  - reflexivity.
  - reflexivity.
  - reflexivity.
  - reflexivity.
  - reflexivity.
  - exact clock_gives_text.
  - reflexivity.
  - reflexivity.
  - lia.
  - exists w'. split; [exact Hrun|exact Hcalls].
Defined.

(** C9. Where the code departs from it: with a cap of zero both of
    the two fetched entries are processed, not the first min(0, 2) of
    them. *)
Lemma cap_zero_is_no_cap :
  exists w',
    unfollow_main repr env service clock folded 3 (mkUnfollowArgs false (Finite 1) (Some 0)) start =
      Some (Ok 0, w') /\
    calls Unfollow (trace w') = [PInt 11; PInt 12] /\
    map fid (firstn (Z.to_nat (Z.min 0 (Z.of_nat (List.length [ada; bob])))) [ada; bob]) = [].
Proof.
  exists (after (unfollow_main repr env service clock folded 3 (mkUnfollowArgs false (Finite 1) (Some 0))
                   start) start).
  split; [vm_compute; reflexivity|].
  split; vm_compute; reflexivity.
Qed.

Lemma start_offset_bounds_witness :
  (exists w',
     refollow_main repr env service clock newest folded counted
       (mkRefollowArgs (Some "rows.csv") false (Finite 1) 3) (with_file "rows.csv" three_rows) =
       Some (Ok 1, w') /\
     prompts (trace w') = [] /\ calls Follow (trace w') = []) /\
  (exists code w',
     refollow_main repr env service clock newest folded counted
       (mkRefollowArgs (Some "rows.csv") true (Finite 1) (-2)) (with_file "rows.csv" three_rows) =
       Some (Ok code, w') /\
     calls Follow (trace w') = [PInt 21; PInt 22; PInt 23]).
Proof.
  split.
  - destruct (@start_offset_bounds repr env service clock newest folded counted
                (mkRefollowArgs (Some "rows.csv") false (Finite 1) 3) (with_file "rows.csv" three_rows)
                api0 (PInt 7)
                (after (resolve_identity env service (with_file "rows.csv" three_rows)) start)
                "rows.csv" [cy; di; ed])
      as (Hpast & _).
    + reflexivity.
    + reflexivity.
    + reflexivity.
    + vm_compute. reflexivity.
    + destruct Hpast as (w' & Hrun & Hprompts & Hcalls & _); [cbn; lia|].
      exists w'. split; [exact Hrun|]. split; [exact Hprompts|exact Hcalls].
  - destruct (@start_offset_bounds repr env service clock newest folded counted
                (mkRefollowArgs (Some "rows.csv") true (Finite 1) (-2)) (with_file "rows.csv" three_rows)
                api0 (PInt 7)
                (after (resolve_identity env service (with_file "rows.csv" three_rows)) start)
                "rows.csv" [cy; di; ed])
      as (_ & Hlow).
    + reflexivity.
    + reflexivity.
    + reflexivity.
    + vm_compute. reflexivity.
    + destruct Hlow as (_ & Hall); [cbn; lia|].
      destruct (Hall eq_refl eq_refl) as (code & w' & Hrun & Hcalls).
      exists code, w'. split; [exact Hrun|exact Hcalls].
Defined.

(* ================================================================== *)
(** * More scenarios *)

(** No credential is set. *)
Definition bare (key : string) : option string := None.

(** The service answers the signer request with a number. *)
Definition numeric (n : nat) (r : request) : http_outcome :=
  Responds (mkResponse 200 (Some (PInt 5))).

(** The service knows one user. *)
Definition directory (n : nat) (r : request) : http_outcome :=
  Responds (mkResponse 200 (Some (PDict [("user", PDict [("fid", PInt 11)])]))).

(** The service answers with a list. *)
Definition listing (n : nat) (r : request) : http_outcome :=
  Responds (mkResponse 200 (Some (PList []))).



(** The identity comes, the following list does not. *)
Definition list_down (n : nat) (r : request) : http_outcome :=
  match rq_method r with
  | GET =>
      if contains "/signer/" (rq_url r)
      then Responds (mkResponse 200 (Some (PDict [("fid", PInt 7)])))
      else Fails
  | _ => Responds (mkResponse 200 (Some (PDict [("success", PBool true)])))
  end.

(** The account follows nobody. *)
Definition lonely (n : nat) (r : request) : http_outcome :=
  match rq_method r with
  | GET =>
      if contains "/signer/" (rq_url r)
      then Responds (mkResponse 200 (Some (PDict [("fid", PInt 7)])))
      else Responds (mkResponse 200 (Some (PDict [("users", PList [])])))
  | _ => Responds (mkResponse 200 (Some (PDict [("success", PBool true)])))
  end.

(** One of the two accounts followed comes without an id. *)
Definition zed : followed :=
  mkFollowed PNone (PStr "zed") (PStr EmptyString) (PStr EmptyString) (PStr EmptyString).

Definition nameless (n : nat) (r : request) : http_outcome :=
  match rq_method r with
  | GET =>
      if contains "/signer/" (rq_url r)
      then Responds (mkResponse 200 (Some (PDict [("fid", PInt 7)])))
      else Responds (mkResponse 200 (Some (PDict
             [("users", PList [entry 11 "ada";
                               PDict [("user", PDict [("username", PStr "zed")])]])])))
  | _ => Responds (mkResponse 200 (Some (PDict [("success", PBool true)])))
  end.

(** A page whose second entry has [null] for its user. *)
Definition odd_page : list (string * pyval) :=
  [("users", PList [entry 11 "ada"; PDict [("user", PNone)]; entry 12 "bob, jr"])].

Definition odd (n : nat) (r : request) : http_outcome :=
  Responds (mkResponse 200 (Some (PDict odd_page))).

(** The newest record file is always the same one. *)
Definition newest_rows (files : filesystem) (pattern : string) : option string :=
  Some "rows.csv".

(** The terminal holds a no. *)
Definition declining : world := mkWorld (fun _ => None) ["n"] 0 0 [].

Definition with_file_declining (name text : string) : world :=
  mkWorld (write_file (fun _ => None) name text) ["maybe"; "No"] 0 0 [].

(** The terminal holds a line that is no answer, then a yes, then a no. *)
Definition hesitant : world := mkWorld (fun _ => None) ["maybe"; " YES "; "n"] 0 0 [].

(** The terminal holds no answer at all. *)
Definition mumbling : world := mkWorld (fun _ => None) ["maybe"; "?"] 0 0 [].

Lemma get_my_fid_contract_witness :
  get_my_fid refusing api0 start =
    Some (Ok PNone, requested start (signer_request api0) [EvLog LogMyFidError]) /\
  get_my_fid service api0 start =
    Some (Ok (PInt 7), requested start (signer_request api0) []) /\
  get_my_fid numeric api0 start =
    Some (Raise TypeError, requested start (signer_request api0) []).
Proof.
  split; [|split].
  - destruct (get_my_fid_contract refusing api0 start) as (H & _ & _).
    apply H. reflexivity.
  - destruct (get_my_fid_contract service api0 start) as (_ & H & _).
    apply (H (mkResponse 200 (Some (PDict [("fid", PInt 7)]))) [("fid", PInt 7)]).
    + reflexivity.
    + reflexivity.
    + reflexivity.
  - destruct (get_my_fid_contract numeric api0 start) as (_ & _ & H).
    apply (H (mkResponse 200 (Some (PInt 5))) 5).
    + reflexivity.
    + reflexivity.
    + reflexivity.
    + lia.
Defined.

Lemma get_user_info_contract_witness :
  get_user_info refusing api0 (PInt 11) start =
    Some (Ok PNone,
          requested start (user_request api0 (PInt 11)) [EvLog (LogUserInfoError (PInt 11))]) /\
  get_user_info directory api0 (PInt 11) start =
    Some (Ok (PDict [("fid", PInt 11)]), requested start (user_request api0 (PInt 11)) []) /\
  get_user_info listing api0 (PInt 11) start =
    Some (Raise AttributeError, requested start (user_request api0 (PInt 11)) []).
Proof.
  split; [|split].
  - destruct (get_user_info_contract refusing api0 (PInt 11) start) as (H & _ & _).
    apply H. reflexivity.
  - destruct (get_user_info_contract directory api0 (PInt 11) start) as (_ & H & _).
    apply (H (mkResponse 200 (Some (PDict [("user", PDict [("fid", PInt 11)])])))
             [("user", PDict [("fid", PInt 11)])]).
    + reflexivity.
    + reflexivity.
    + reflexivity.
  - destruct (get_user_info_contract listing api0 (PInt 11) start) as (_ & _ & H).
    apply (H (mkResponse 200 (Some (PList []))) []).
    + reflexivity.
    + reflexivity.
    + reflexivity.
Defined.

Lemma missing_credentials_witness :
  unfollow_main repr bare service clock folded 3 (mkUnfollowArgs false (Finite 1) None) start =
    Some (Raise UnboundLocalError, start) /\
  refollow_main repr bare service clock newest folded counted (mkRefollowArgs None false (Finite 1) 0) start =
    Some (Raise UnboundLocalError, start) /\
  test_connection_main bare service 3 start = Some (Ok 1, start).
Proof.
  apply (@missing_credentials repr bare service clock newest folded counted 3
           (mkUnfollowArgs false (Finite 1) None) (mkRefollowArgs None false (Finite 1) 0) start).
  reflexivity.
Defined.

Lemma unresolved_identity_witness :
  unfollow_main repr env refusing clock folded 3 (mkUnfollowArgs false (Finite 1) None) start =
    Some (Ok 1, requested start (signer_request api0) [EvLog LogMyFidError]) /\
  refollow_main repr env refusing clock newest folded counted (mkRefollowArgs None false (Finite 1) 0) start =
    Some (Ok 1, requested start (signer_request api0) [EvLog LogMyFidError]) /\
  test_connection_main env refusing 3 start =
    Some (Ok 1, requested start (signer_request api0) [EvLog LogMyFidError]).
Proof.
  apply (@unresolved_identity repr env refusing clock newest folded counted 3
           (mkUnfollowArgs false (Finite 1) None)
           (mkRefollowArgs None false (Finite 1) 0) start api0).
  - reflexivity.
  - reflexivity.
Defined.




Lemma fetch_failure_is_fatal_witness :
  unfollow_main repr env list_down clock folded 3 (mkUnfollowArgs false (Finite 1) None) start =
    Some (Ok 1,
          after (get_following_list list_down 3 api0 (PInt 7)
                   (tick (after (resolve_identity env list_down start) start)))
                start).
Proof.
  apply (@fetch_failure_is_fatal repr env list_down clock folded 3 (mkUnfollowArgs false (Finite 1) None)
           start api0 (PInt 7) (after (resolve_identity env list_down start) start)
           ConnectionError).
  - reflexivity.
  - reflexivity.
  - vm_compute. reflexivity.
Defined.

Lemma first_valid_answer_decides_witness :
  confirm_action folded (AskUnfollow false 2) hesitant =
  Some (Ok true,
        mkWorld (fs hesitant) ["n"] 0 0
          [EvInput (AskUnfollow false 2); EvInput (AskUnfollow false 2)]).
Proof.
  apply (@first_valid_answer_decides folded (AskUnfollow false 2) hesitant ["maybe"] " YES " ["n"]).
  - reflexivity.
  - reflexivity.
  - reflexivity.
Defined.

Lemma unanswered_question_raises_witness :
  confirm_action folded (AskRefollow false 2) mumbling =
  Some (Raise EOFError,
        mkWorld (fs mumbling) [] 0 0
          [EvInput (AskRefollow false 2); EvInput (AskRefollow false 2);
           EvInput (AskRefollow false 2)]).
Proof.
  apply (@unanswered_question_raises folded (AskRefollow false 2) mumbling).
  reflexivity.
Defined.

Lemma unfollow_sends_no_follow_witness :
  exists evs,
    trace (after (unfollow_main repr env service clock folded 3 (mkUnfollowArgs true (Finite 1) None) start)
             start) = trace start ++ evs /\
    requests POST evs = [] /\
    (true = true -> requests DELETE evs = []).
Proof.
  apply (@unfollow_sends_no_follow repr env service clock folded 3 (mkUnfollowArgs true (Finite 1) None)
           start (Ok 0)).
  vm_compute. reflexivity.
Defined.

Lemma refollow_keeps_files_witness :
  fs (after (refollow_main repr env service clock newest folded counted
               (mkRefollowArgs (Some "rows.csv") false (Finite 1) 0)
               (with_file "rows.csv" three_rows)) start) =
    fs (with_file "rows.csv" three_rows) /\
  exists evs,
    trace (after (refollow_main repr env service clock newest folded counted
                    (mkRefollowArgs (Some "rows.csv") false (Finite 1) 0)
                    (with_file "rows.csv" three_rows)) start) =
      trace (with_file "rows.csv" three_rows) ++ evs /\
    requests DELETE evs = [] /\
    (false = true -> requests POST evs = []).
Proof.
  apply (@refollow_keeps_files repr env service clock newest folded counted
           (mkRefollowArgs (Some "rows.csv") false (Finite 1) 0)
           (with_file "rows.csv" three_rows) (Ok 0)).
  vm_compute. reflexivity.
Defined.

Lemma no_unfollow_without_yes_witness :
  fs (after (unfollow_main repr env service clock folded 3 (mkUnfollowArgs false (Finite 1) None) declining)
        start) = fs declining /\
  exists evs,
    trace (after (unfollow_main repr env service clock folded 3 (mkUnfollowArgs false (Finite 1) None)
                    declining) start) = trace declining ++ evs /\
    calls Unfollow evs = [] /\ requests DELETE evs = [].
Proof.
  apply (@no_unfollow_without_yes repr env service clock folded 3 (mkUnfollowArgs false (Finite 1) None)
           declining (Ok 0)).
  - reflexivity.
  - vm_compute. reflexivity.
Defined.

Lemma no_refollow_without_yes_witness :
  exists evs,
    trace (after (refollow_main repr env service clock newest folded counted
                    (mkRefollowArgs (Some "rows.csv") false (Finite 1) 0)
                    (with_file_declining "rows.csv" three_rows)) start) =
      trace (with_file_declining "rows.csv" three_rows) ++ evs /\
    calls Follow evs = [] /\ requests POST evs = [].
Proof.
  apply (@no_refollow_without_yes repr env service clock newest folded counted
           (mkRefollowArgs (Some "rows.csv") false (Finite 1) 0)
           (with_file_declining "rows.csv" three_rows) (Ok 0)).
  - reflexivity.
  - vm_compute. reflexivity.
Defined.

Lemma connection_test_only_reads_witness :
  fs (after (test_connection_main env service 3 start) start) = fs start /\
  stdin (after (test_connection_main env service 3 start) start) = stdin start /\
  (exists evs,
     trace (after (test_connection_main env service 3 start) start) = trace start ++ evs /\
     prompts evs = [] /\
     (forall d, calls d evs = []) /\
     requests POST evs = [] /\ requests DELETE evs = []) /\
  (Ok 0 = Ok 0 \/ Ok 0 = Ok 1 :> result Z).
Proof.
  apply (@connection_test_only_reads env service 3 start (Ok 0)).
  vm_compute. reflexivity.
Defined.

Lemma failed_fetch_passes_the_test_witness :
  test_connection_main env list_down 3 start =
  Some (Ok 0,
        after (get_following_list list_down 3 api0 (PInt 7)
                 (after (get_my_fid list_down api0 start) start)) start).
Proof.
  apply (@failed_fetch_passes_the_test env list_down 3 start api0 (PInt 7)
           (after (get_my_fid list_down api0 start) start) (Raise ConnectionError)).
  - reflexivity.
  - reflexivity.
  - reflexivity.
  - vm_compute. reflexivity.
Defined.

Lemma nothing_to_unfollow_witness :
  unfollow_main repr env lonely clock folded 3 (mkUnfollowArgs false (Finite 1) None) start =
    Some (Ok 0,
          after (get_following_list lonely 3 api0 (PInt 7)
                   (tick (after (resolve_identity env lonely start) start))) start) /\
  stdin (after (get_following_list lonely 3 api0 (PInt 7)
                  (tick (after (resolve_identity env lonely start) start))) start) = ["y"].
Proof.
  destruct (@nothing_to_unfollow repr env lonely clock folded 3 (mkUnfollowArgs false (Finite 1) None)
              start api0 (PInt 7) (after (resolve_identity env lonely start) start)
              (after (get_following_list lonely 3 api0 (PInt 7)
                        (tick (after (resolve_identity env lonely start) start))) start))
    as (Hrun & _ & Hin & _).
  - reflexivity.
  - reflexivity.
  - vm_compute. reflexivity.
  - split; [exact Hrun|exact Hin].
Defined.

Lemma missing_id_spoils_the_record_witness :
  exists wu,
    unfollow_main repr env nameless clock folded 3 (mkUnfollowArgs false (Finite 1) None) start =
      Some (Ok 0, wu) /\
    calls Unfollow (trace wu) = [PInt 11; PNone] /\
    exists wr,
      refollow_main repr env nameless clock newest folded counted
        (mkRefollowArgs (Some record_file) false (Finite 1) 0)
        (mkWorld (fs wu) ["yes"] 0 0 []) = Some (Ok 1, wr) /\
      calls Follow (trace wr) = [].
Proof.
  destruct (@missing_id_spoils_the_record repr env nameless clock newest folded counted 3
              (mkUnfollowArgs false (Finite 1) None)
              (mkRefollowArgs (Some record_file) false (Finite 1) 0)
              start api0 (PInt 7)
              (after (resolve_identity env nameless start) start) [ada; zed]
              (after (get_following_list nameless 3 api0 (PInt 7)
                        (tick (after (resolve_identity env nameless start) start))) start)
              zed)
    as (wu & Hrun & Hcalls & Hlater).
  - reflexivity.
  - reflexivity.
  - vm_compute. reflexivity.
  - right. left. reflexivity.
  - reflexivity.
  - reflexivity.
  - reflexivity.
  - reflexivity.
  - exact clock_gives_text.
  - reflexivity.
  - reflexivity.
  - reflexivity.
  - intros n t. reflexivity.
  - reflexivity.
  - destruct (Hlater (mkWorld (fs wu) ["yes"] 0 0 []) api0 (PInt 7) _ eq_refl eq_refl eq_refl)
      as (wr & Hrun2 & _ & Hcalls2).
    exists wu. split; [exact Hrun|]. split; [exact Hcalls|].
    exists wr. split; [exact Hrun2|exact Hcalls2].
Defined.

Lemma nothing_to_refollow_witness :
  exists w',
    refollow_main repr env service clock newest folded counted
      (mkRefollowArgs (Some "rows.csv") false (Finite 1) 0) start = Some (Ok 1, w') /\
    prompts (trace w') = [] /\ calls Follow (trace w') = [].
Proof.
  destruct (@nothing_to_refollow repr env service clock newest folded counted
              (mkRefollowArgs (Some "rows.csv") false (Finite 1) 0) start api0 (PInt 7)
              identified "rows.csv")
    as (w' & Hrun & Hprompts & Hcalls & _).
  - reflexivity.
  - reflexivity.
  - reflexivity.
  - left. reflexivity.
  - exists w'. split; [exact Hrun|]. split; [exact Hprompts|exact Hcalls].
Defined.

Lemma newest_record_of_own_identity_witness :
  load_users_from_csv repr env service newest_rows counted None (PInt 99)
    (with_file "rows.csv" three_rows) =
    Some (Ok (Some [cy; di; ed]),
          requested (with_file "rows.csv" three_rows) (signer_request api0) []) /\
  load_users_from_csv repr env refusing newest_rows counted None (PInt 99)
    (with_file "rows.csv" three_rows) =
    Some (Ok None,
          requested (with_file "rows.csv" three_rows) (signer_request api0)
            [EvLog LogMyFidError]).
Proof.
  split.
  - destruct (@newest_record_of_own_identity repr env service newest_rows counted api0 (PInt 99)
                (with_file "rows.csv" three_rows) eq_refl)
      as (H & _).
    specialize (H (mkResponse 200 (Some (PDict [("fid", PInt 7)]))) [("fid", PInt 7)] (PInt 7)
                  eq_refl eq_refl eq_refl eq_refl eq_refl).
    rewrite H. vm_compute. reflexivity.
  - destruct (@newest_record_of_own_identity repr env refusing newest_rows counted api0 (PInt 99)
                (with_file "rows.csv" three_rows) eq_refl)
      as (_ & H).
    apply H. reflexivity.
Defined.

Lemma negative_cap_drops_the_last_witness :
  exists w',
    unfollow_main repr env service clock folded 3 (mkUnfollowArgs false (Finite 1) (Some (-1))) start =
      Some (Ok 0, w') /\
    calls Unfollow (trace w') = [PInt 11].
Proof.
  destruct (@negative_cap_drops_the_last repr env service clock folded 3
              (mkUnfollowArgs false (Finite 1) (Some (-1))) start api0 (PInt 7) identified
              [ada; bob] fetched (-1))
    as (w' & Hrun & Hcalls).
  - reflexivity.
  - reflexivity.
  - reflexivity.
  - discriminate.
  - reflexivity.
  - reflexivity.
  - exact clock_gives_text.
  - reflexivity.
  - reflexivity.
  - lia.
  - exists w'. split; [exact Hrun|exact Hcalls].
Defined.

Lemma malformed_entry_aborts_the_fetch_witness :
  get_following_list odd 1 api0 (PInt 7) start =
  Some (Raise AttributeError,
        mkWorld (fs start) (stdin start) 1 0
          [EvLog (LogFetching (PInt 7)); EvRequest (page_request api0 (PInt 7) PNone)]).
Proof.
  apply (@malformed_entry_aborts_the_fetch odd api0 (PInt 7) start odd_page
           [entry 11 "ada"] [("user", PNone)] PNone [entry 12 "bob, jr"] 0).
  - intros r. reflexivity.
  - reflexivity.
  - reflexivity.
  - reflexivity.
  - reflexivity.
Defined.

Lemma pauses_between_accounts_witness :
  (exists st w' evs,
     unfollow_loop repr service clock api0 (mkUnfollowArgs false (Finite 1) None) (PInt 7)
       "20250101_120000" 2 1 [ada; bob] ([], [], None) start = Some (Ok st, w') /\
     trace w' = trace start ++ evs /\ sleeps evs = [1%Q]) /\
  (exists st w' evs,
     refollow_loop service api0 (mkRefollowArgs None true (Finite 1) 0) 3 1 [cy; di; ed]
       ([], []) start = Some (Ok st, w') /\
     trace w' = trace start ++ evs /\ sleeps evs = [1%Q; 1%Q]).
Proof.
  destruct (pauses_between_accounts repr service clock api0) as (Hu & Hr). split.
  - apply (Hu (mkUnfollowArgs false (Finite 1) None) (PInt 7) "20250101_120000" [ada; bob]
              start); [reflexivity|exact clock_gives_text|reflexivity].
  - apply (Hr (mkRefollowArgs None true (Finite 1) 0) [cy; di; ed] start).
    reflexivity.
Defined.


(** An account whose name is the surrogate U+D800 alone. *)
Definition ghost : followed :=
  mkFollowed (PInt 13) (PStr (String "237" (String "160" (String "128" EmptyString))))
    (PStr "Ghost") (PStr EmptyString) (PStr EmptyString).

Lemma unwritable_row_raises_witness :
  exists w',
    save_user_to_csv repr clock ghost (PInt 7) "20250101_120000" None start =
      Some (Raise NameError, w') /\
    fs w' record_file = Some (Csv.writerow fieldnames).
Proof.
  destruct (@unwritable_row_raises repr clock ghost (PInt 7) "20250101_120000" start)
    as (w' & Hrun & Hfile & _).
  - reflexivity.
  - exists w'. split; [exact Hrun|exact Hfile].
Defined.
